(** * People's Daily PDF downloader: a shallow embedding and its properties

    The repository holds two near-identical scripts:
      - [人民日报PDF下载工具.py]                 (merge through PyMuPDF, "fitz"),
      - [人民日报PDF下载工具（单日、批量下载）.py] (merge through PyPDF2).
    They share [validate_date_range], [safe_request], [get_page_info],
    [download_pdf], [download_edition] and the two branches of [main]; they
    differ in [merge_pdfs] (and in the proxy argument, which is only handed
    on to the HTTP library).  Both merges are embedded below.

    Python strings are modelled as byte strings ([string]); every string the
    program slices or compares is ASCII.  Effects (network, sleeping, logging,
    the scratch directory, the output directory) are threaded through a small
    state-and-exception monad. *)

From Stdlib Require Import ZArith Lia Bool List Ascii String Sorting.Sorted Permutation.
From stdpp Require Import base option list strings gmap.

Open Scope string_scope.
Open Scope Z_scope.

(** ** Python string primitives *)

Module PyStr.

Definition is_digit (c : ascii) : bool :=
  let n := nat_of_ascii c in (48 <=? n)%nat && (n <=? 57)%nat.

Definition digit_val (c : ascii) : Z := Z.of_nat (nat_of_ascii c) - 48.

Fixpoint keep (p : ascii -> bool) (s : string) : string :=
  match s with
  | EmptyString => EmptyString
  | String c s' => if p c then String c (keep p s') else keep p s'
  end.

Fixpoint all_chars (p : ascii -> bool) (s : string) : bool :=
  match s with
  | EmptyString => true
  | String c s' => p c && all_chars p s'
  end.

Definition len (s : string) : Z := Z.of_nat (String.length s).

(** [s[i:j]] with Python's treatment of negative and out-of-range bounds. *)
Definition clamp (n i : Z) : Z :=
  let i' := if i <? 0 then i + n else i in
  if i' <? 0 then 0 else if n <? i' then n else i'.

Definition slice (i j : Z) (s : string) : string :=
  let n := len s in
  let a := clamp n i in
  let b := clamp n j in
  if a <? b then String.substring (Z.to_nat a) (Z.to_nat (b - a)) s
  else EmptyString.

(** [s[:k]] and [s[k:]] for a non-negative constant [k]. *)
Definition slice_to (k : Z) (s : string) : string := slice 0 k s.
Definition slice_from (k : Z) (s : string) : string := slice k (len s) s.

Fixpoint starts_with (p s : string) : bool :=
  match p, s with
  | EmptyString, _ => true
  | String a p', String b s' => Ascii.eqb a b && starts_with p' s'
  | String _ _, EmptyString => false
  end.

Fixpoint drop (n : nat) (s : string) : string :=
  match n, s with
  | O, _ => s
  | S n', String _ s' => drop n' s'
  | S _, EmptyString => EmptyString
  end.

Definition ends_with (suffix s : string) : bool :=
  let n := String.length s in
  let k := String.length suffix in
  (k <=? n)%nat && String.eqb (drop (n - k) s) suffix.

(** [needle in s] *)
Fixpoint contains (needle s : string) : bool :=
  starts_with needle s ||
  match s with
  | EmptyString => false
  | String _ s' => contains needle s'
  end.

(** [len(re.findall(lit, s))] for a literal, non-empty pattern: matches are
    taken left to right and do not overlap. *)
Fixpoint count_from (fuel : nat) (lit s : string) : nat :=
  match fuel with
  | O => O
  | S fuel' =>
      match s with
      | EmptyString => O
      | String _ s' =>
          if starts_with lit s
          then S (count_from fuel' lit (drop (String.length lit) s))
          else count_from fuel' lit s'
      end
  end.

Definition count_literal (lit s : string) : nat :=
  count_from (String.length s) lit s.

(** Value of a string of decimal digits, most significant first. *)
Fixpoint digits_value (acc : Z) (s : string) : Z :=
  match s with
  | EmptyString => acc
  | String c s' => digits_value (10 * acc + digit_val c) s'
  end.

(** Zero-padded decimal rendering, as [f"{n:02d}"] and [strftime] need. *)
Definition digit_char (d : Z) : ascii := ascii_of_nat (Z.to_nat (48 + d mod 10)).

Fixpoint digits_rev (fuel : nat) (n : Z) : list ascii :=
  match fuel with
  | O => []
  | S fuel' =>
      if n <? 10 then [digit_char n]
      else digit_char n :: digits_rev fuel' (n / 10)
  end.

Definition decimal (n : Z) : list ascii :=
  rev (digits_rev (S (Z.to_nat n)) n).

Definition pad (width : nat) (n : Z) : string :=
  let ds := decimal n in
  string_of_list_ascii (repeat "0"%char (width - List.length ds) ++ ds).

End PyStr.

(** ** Calendar dates ([datetime.date]) *)

Module PyDate.

Record date := mkdate { year : Z; month : Z; day : Z }.

Definition is_leap (y : Z) : bool :=
  (y mod 4 =? 0) && (negb (y mod 100 =? 0) || (y mod 400 =? 0)).

Definition days_in_month (y m : Z) : Z :=
  if m =? 2 then (if is_leap y then 29 else 28)
  else if (m =? 4) || (m =? 6) || (m =? 9) || (m =? 11) then 30
  else 31.

(** What the [date] constructor accepts ([MINYEAR = 1], [MAXYEAR = 9999]). *)
Definition valid_date (d : date) : bool :=
  (1 <=? year d) && (year d <=? 9999) &&
  (1 <=? month d) && (month d <=? 12) &&
  (1 <=? day d) && (day d <=? days_in_month (year d) (month d)).

(** Dates compare as the tuples [(year, month, day)]. *)
Definition date_ltb (a b : date) : bool :=
  (year a <? year b) ||
  ((year a =? year b) &&
   ((month a <? month b) || ((month a =? month b) && (day a <? day b)))).

Definition date_eqb (a b : date) : bool :=
  (year a =? year b) && (month a =? month b) && (day a =? day b).

Definition date_leb (a b : date) : bool := date_ltb a b || date_eqb a b.

Definition date_lt (a b : date) : Prop := date_ltb a b = true.
Definition date_le (a b : date) : Prop := date_leb a b = true.

(** [d + timedelta(days=1)]: the next calendar day; [None] stands for the
    [OverflowError] Python raises past [date.max] (9999-12-31). *)
Definition add_one_day (d : date) : option date :=
  if day d <? days_in_month (year d) (month d)
  then Some (mkdate (year d) (month d) (day d + 1))
  else if month d <? 12
       then Some (mkdate (year d) (month d + 1) 1)
       else if year d <? 9999
            then Some (mkdate (year d + 1) 1 1)
            else None.

(** [datetime.strptime(s, "%Y%m%d").date()] on a string of 8 ASCII digits.
    The format compiles to a regular expression whose year takes four
    digits and whose month and day take at most two each; the whole input
    has to be consumed, so on 8 digits the fields are s[0:4], s[4:6] and
    s[6:8], the month and day alternatives accept 01..12 and 01..31 with
    their leading zero, and the date constructor then rejects impossible
    days and the year 0.  [None] stands for the [ValueError]. *)
Definition strptime_Ymd (s : string) : option date :=
  if (String.length s =? 8)%nat && PyStr.all_chars PyStr.is_digit s then
    let d := mkdate (PyStr.digits_value 0 (PyStr.slice 0 4 s))
                    (PyStr.digits_value 0 (PyStr.slice 4 6 s))
                    (PyStr.digits_value 0 (PyStr.slice 6 8 s)) in
    if valid_date d then Some d else None
  else None.

(** [strftime] with the three formats the program uses. *)
Definition strftime_Ymd (d : date) : string :=          (* "%Y%m%d" *)
  PyStr.pad 4 (year d) +:+ PyStr.pad 2 (month d) +:+ PyStr.pad 2 (day d).
Definition strftime_Y_m_slash_d (d : date) : string :=  (* "%Y-%m/%d" *)
  PyStr.pad 4 (year d) +:+ "-" +:+ PyStr.pad 2 (month d) +:+ "/" +:+ PyStr.pad 2 (day d).
Definition strftime_Ym_slash_d (d : date) : string :=   (* "%Y%m/%d" *)
  PyStr.pad 4 (year d) +:+ PyStr.pad 2 (month d) +:+ "/" +:+ PyStr.pad 2 (day d).

(** A strictly monotone rank; it bounds the number of turns of a loop that
    walks from one date to a later one. *)
Definition rank (d : date) : Z := 372 * year d + 31 * month d + day d.

End PyDate.

Import PyDate.

(** ** Outcomes of Python code *)

(** The three kinds of exception the program distinguishes: anything caught
    by [except Exception], a [KeyboardInterrupt], and the [SystemExit] raised
    by [sys.exit(code)]. *)
Inductive exn :=
| PyException
| KeyboardInterrupt
| SystemExit (code : Z).

(** ** DateResolver: [validate_date_range] *)

Inductive range_outcome :=
| RangeOk (dates : list date)
| RangeFatal            (* logger.error(...); sys.exit(1) *)
| RangeLoopUnfinished.  (* the bound on loop turns was too small; never happens *)

(** [while current_date <= end_date: append; current_date += 1 day],
    run for at most [fuel] turns.  [None]: the bound was hit;
    [Some None]: the addition overflowed ([except Exception] catches it). *)
Fixpoint date_loop (fuel : nat) (current_date end_date : date)
         (date_list : list date) : option (option (list date)) :=
  if date_leb current_date end_date then
    match fuel with
    | O => None
    | S fuel' =>
        match add_one_day current_date with
        | Some next => date_loop fuel' next end_date (date_list ++ [current_date])
        | None => Some None
        end
    end
  else Some (Some date_list).

Definition validate_date_range (today : date) (range_str : string) : range_outcome :=
  let clean_str := PyStr.keep PyStr.is_digit range_str in
  if negb (PyStr.len clean_str =? 16) then RangeFatal
  else
    let start_str := PyStr.slice_to 8 clean_str in
    let end_str := PyStr.slice_from 8 clean_str in
    match strptime_Ymd start_str with
    | None => RangeFatal
    | Some start_date =>
        match strptime_Ymd end_str with
        | None => RangeFatal
        | Some end_date =>
            if date_ltb end_date start_date then RangeFatal
            else if date_ltb today end_date then RangeFatal
            else if year start_date <? 2003 then RangeFatal
            else
              match date_loop (Z.to_nat (rank end_date - rank start_date + 1))
                              start_date end_date [] with
              | Some (Some l) => RangeOk l
              | Some None => RangeFatal
              | None => RangeLoopUnfinished
              end
        end
    end.

(** ** [datetime.strptime] for the formats of [validate_date] and [parse_date] *)

(** [strptime] turns a format into a regular expression, matches it at the
    start of the input with [re.match] (alternatives are tried from left to
    right, with backtracking into earlier groups), and raises [ValueError]
    when nothing matches or when the match ends before the input does.  The
    input is ASCII, so that [\d] stands for [0-9]. *)

Inductive Directive :=
| DirY                 (* %Y *)
| DirM                 (* %m *)
| DirD                 (* %d *)
| DirChar (c : ascii). (* a literal character *)

Inductive Group := GroupY | GroupM | GroupD.

(** One alternative of a group, tried at the head of the input: the number
    it reads and what is left of the input. *)
Definition Alternative := string -> option (Z * string).

Definition in_range (lo hi : Z) (c : ascii) : bool :=
  PyStr.is_digit c && (lo <=? PyStr.digit_val c) && (PyStr.digit_val c <=? hi).

Definition two_chars (lo1 hi1 lo2 hi2 : Z) : Alternative := fun s =>
  match s with
  | String a (String b rest) =>
      if in_range lo1 hi1 a && in_range lo2 hi2 b
      then Some (10 * PyStr.digit_val a + PyStr.digit_val b, rest)
      else None
  | _ => None
  end.

Definition one_char (lo hi : Z) : Alternative := fun s =>
  match s with
  | String a rest => if in_range lo hi a then Some (PyStr.digit_val a, rest) else None
  | EmptyString => None
  end.

Definition space_then (lo hi : Z) : Alternative := fun s =>
  match s with
  | String a (String b rest) =>
      if Ascii.eqb a " " && in_range lo hi b then Some (PyStr.digit_val b, rest) else None
  | _ => None
  end.

Definition four_digits : Alternative := fun s =>
  match s with
  | String a (String b (String c (String d rest))) =>
      if PyStr.is_digit a && PyStr.is_digit b && PyStr.is_digit c && PyStr.is_digit d
      then Some (PyStr.digits_value 0 (String a (String b (String c (String d EmptyString)))),
                 rest)
      else None
  | _ => None
  end.

(** [\d\d\d\d], [1[0-2]|0[1-9]|[1-9]] and [3[0-1]|[1-2]\d|0[1-9]|[1-9]| [1-9]] *)
Definition year_alternatives : list Alternative := [four_digits].
Definition month_alternatives : list Alternative :=
  [two_chars 1 1 0 2; two_chars 0 0 1 9; one_char 1 9].
Definition day_alternatives : list Alternative :=
  [two_chars 3 3 0 1; two_chars 1 2 0 9; two_chars 0 0 1 9; one_char 1 9; space_then 1 9].

(** The first alternative after which the rest of the pattern matches. *)
Fixpoint first_match {R} (alts : list Alternative) (s : string)
         (k : Z -> string -> option R) : option R :=
  match alts with
  | [] => None
  | alt :: more =>
      match alt s with
      | Some (v, rest) =>
          match k v rest with
          | Some r => Some r
          | None => first_match more s k
          end
      | None => first_match more s k
      end
  end.

Definition with_group (g : Group) (v : Z) (r : option (list (Group * Z) * string))
  : option (list (Group * Z) * string) :=
  match r with
  | Some (groups, rest) => Some ((g, v) :: groups, rest)
  | None => None
  end.

(** [re.match]: the groups of the first match and the input left after it. *)
Fixpoint regex_match (fmt : list Directive) (s : string)
  : option (list (Group * Z) * string) :=
  match fmt with
  | [] => Some ([], s)
  | DirChar c :: fmt' =>
      match s with
      | String c' s' => if Ascii.eqb c c' then regex_match fmt' s' else None
      | EmptyString => None
      end
  | DirY :: fmt' =>
      first_match year_alternatives s
                  (fun v rest => with_group GroupY v (regex_match fmt' rest))
  | DirM :: fmt' =>
      first_match month_alternatives s
                  (fun v rest => with_group GroupM v (regex_match fmt' rest))
  | DirD :: fmt' =>
      first_match day_alternatives s
                  (fun v rest => with_group GroupD v (regex_match fmt' rest))
  end.

Definition group_eqb (a b : Group) : bool :=
  match a, b with
  | GroupY, GroupY | GroupM, GroupM | GroupD, GroupD => true
  | _, _ => false
  end.

Fixpoint group (g : Group) (default : Z) (groups : list (Group * Z)) : Z :=
  match groups with
  | [] => default
  | (g', v) :: more => if group_eqb g g' then v else group g default more
  end.

(** [datetime.datetime.strptime(s, fmt).date()]; [None] is the [ValueError]:
    no match, unconverted data after the match, or a day (or the year 0) the
    date constructor rejects. *)
Definition strptime (fmt : list Directive) (s : string) : option date :=
  match regex_match fmt s with
  | Some (groups, EmptyString) =>
      let d := mkdate (group GroupY 1900 groups) (group GroupM 1 groups)
                      (group GroupD 1 groups) in
      if valid_date d then Some d else None
  | _ => None
  end.

Definition FMT_COMPACT : list Directive := [DirY; DirM; DirD].                 (* %Y%m%d *)
Definition FMT_ISO : list Directive :=
  [DirY; DirChar "-"; DirM; DirChar "-"; DirD].                                (* %Y-%m-%d *)
Definition FMT_SLASH : list Directive :=
  [DirY; DirChar "/"; DirM; DirChar "/"; DirD].                                (* %Y/%m/%d *)
Definition FMT_TARGET : list Directive :=
  [DirY; DirChar "-"; DirM; DirChar "/"; DirD].                                (* %Y-%m/%d *)
Definition FMT_MIXED : list Directive := [DirY; DirM; DirChar "/"; DirD].      (* %Y%m/%d *)

(** ** DateResolver: [validate_date] and [parse_date] *)

Inductive date_outcome :=
| DateOk (target_date : string)
| DateFatal.            (* logger.error(...); sys.exit(1) *)

(** [for fmt in formats: try: ... except ValueError: continue]; a date in
    the future or before 2003 raises the same [ValueError] as a string that
    does not parse, so the next format is tried. *)
Fixpoint try_formats (today : date) (input_date : string)
         (formats : list (list Directive)) : date_outcome :=
  match formats with
  | [] => DateFatal
  | fmt :: more =>
      match strptime fmt input_date with
      | Some dt =>
          if date_ltb today dt then try_formats today input_date more
          else if year dt <? 2003 then try_formats today input_date more
          else DateOk (strftime_Y_m_slash_d dt)
      | None => try_formats today input_date more
      end
  end.

Definition formats : list (list Directive) :=
  [FMT_COMPACT; FMT_ISO; FMT_SLASH; FMT_TARGET; FMT_MIXED].

(** [input_date] is [None] when the option was not given. *)
Definition validate_date (today : date) (input_date : option string) : date_outcome :=
  match input_date with
  | None | Some EmptyString => DateOk (strftime_Y_m_slash_d today)
  | Some s => try_formats today s formats
  end.

(** [None] is the [ValueError] of [strptime]. *)
Definition parse_date (target_date : string) : option (string * string * string) :=
  match strptime FMT_TARGET target_date with
  | Some dt => Some (target_date, strftime_Ymd dt, strftime_Ym_slash_d dt)
  | None => None
  end.

(** ** The world outside the program *)

(** A file as the program sees it: its size in bytes, and whether the PDF
    library can read it (a readable PDF has at least one page). *)
Record Blob := mkBlob { blob_size : Z; blob_readable : bool }.

(** What [iter_content] delivers: the whole body, or an exception on the way
    ([partial = None]: before the file was opened, e.g. a malformed
    content-length; [Some b]: after [b] had been written). *)
Inductive Body :=
| BodyComplete (b : Blob)
| BodyBroken (partial : option Blob).

Record Response := mkResponse {
  status_code : Z;
  content_type : option string;   (* headers.get('Content-Type') *)
  text : string;                  (* response.text *)
  body : Body
}.

Inductive Reply :=
| Answered (r : Response)
| Failed          (* requests raises: timeout, connection error, ... *)
| Interrupted.    (* Ctrl-C while the call blocks: KeyboardInterrupt *)

(** The site: what the [n]-th HTTP request of the run, to [url], meets. *)
Definition World := nat -> string -> Reply.

Inductive LogLevel := Info | Warning | Error | Critical.

Inductive Msg :=
| MsgRequestFailed (url : string)
| MsgCannotLocate
| MsgNotPdf (url : string)
| MsgDownloadFailed (attempt : nat) (filename : string)
| MsgExists (name : string)
| MsgDetected (pages : Z) (is_new : bool)
| MsgLinkNotFound (page : Z)
| MsgPartial (success total : Z)
| MsgUserAbort
| MsgDownloadError
| MsgNoFiles
| MsgSkipInvalid (filename : string)
| MsgFileMergeFailed (filename : string)
| MsgNoValidFiles
| MsgMerged (name : string)
| MsgMergeCrashed
| MsgMergeFailed
| MsgIncomplete
| MsgDateFailed
| MsgTarget
| MsgPrepare (days : nat)
| MsgDone
| MsgBatchDone
| MsgUserStop
| MsgProgramError.

Inductive Event :=
| EvHttpGet (url : string)
| EvSleep (seconds : Z)
| EvLog (lvl : LogLevel) (m : Msg)
| EvWriteTemp (filename : string)
| EvAppendPdf (filename : string)     (* a page file appended to the composite *)
| EvSaveOutput (name : string)
| EvRmtree.

(** A merged document: the page files it was built from, in order. *)
Definition Doc := list string.

Record State := mkState {
  requests_made : nat;
  temp_exists : bool;
  temp_files : list (string * Blob);   (* in the order os.listdir gives *)
  out_files : gmap string Doc;         (* the download directory *)
  trace : list Event                   (* oldest first *)
}.

(** ** The monad: state and exceptions *)

Definition M (A : Type) : Type := State -> State * (A + exn).

#[global] Instance M_ret : MRet M := fun A a st => (st, inl a).
#[global] Instance M_bind : MBind M := fun A B f m st =>
  match m st with
  | (st', inl a) => f a st'
  | (st', inr e) => (st', inr e)
  end.

Definition raise {A} (e : exn) : M A := fun st => (st, inr e).

Definition emit (e : Event) : M unit := fun st =>
  (mkState (requests_made st) (temp_exists st) (temp_files st) (out_files st)
           (trace st ++ [e]), inl tt).

Definition log (lvl : LogLevel) (m : Msg) : M unit := emit (EvLog lvl m).
Definition sleep (seconds : Z) : M unit := emit (EvSleep seconds).

(** [try: body  except Exception: handler] *)
Definition try_except {A} (body handler : M A) : M A := fun st =>
  match body st with
  | (st', inr PyException) => handler st'
  | r => r
  end.

(** [try: body  except KeyboardInterrupt: h1  except Exception: h2] *)
Definition try_except2 {A} (body on_interrupt on_exception : M A) : M A := fun st =>
  match body st with
  | (st', inr KeyboardInterrupt) => on_interrupt st'
  | (st', inr PyException) => on_exception st'
  | r => r
  end.

(** [try: body  finally: cleanup] *)
Definition try_finally {A} (body : M A) (cleanup : M unit) : M A := fun st =>
  match body st with
  | (st', r) =>
      match cleanup st' with
      | (st'', inl _) => (st'', r)
      | (st'', inr e) => (st'', inr e)
      end
  end.

Definition MAX_RETRIES : nat := 3.

Section Program.

Variable site : World.

(** [requests.get(url, ...)] *)
Definition requests_get (url : string) : M Response := fun st =>
  let st' := mkState (S (requests_made st)) (temp_exists st) (temp_files st)
                     (out_files st) (trace st ++ [EvHttpGet url]) in
  match site (requests_made st) url with
  | Answered r => (st', inl r)
  | Failed => (st', inr PyException)
  | Interrupted => (st', inr KeyboardInterrupt)
  end.

(** *** [safe_request] *)

(** One turn of the loop yields [Some result] for a [return] and [None]
    when the loop goes on. *)
Definition safe_request_attempt (url : string) : M (option (option Response)) :=
  try_except
    (response ← requests_get url;
     if status_code response =? 200 then mret (Some (Some response))
     else if status_code response =? 404 then mret (Some None)
     else mret None)
    (log Warning (MsgRequestFailed url);; sleep 1;; mret None).

Fixpoint safe_request_loop (turns : nat) (url : string) : M (option Response) :=
  match turns with
  | O => mret None
  | S turns' =>
      step ← safe_request_attempt url;
      match step with
      | Some result => mret result
      | None => safe_request_loop turns' url
      end
  end.

Definition safe_request (url : string) : M (option Response) :=
  safe_request_loop MAX_RETRIES url.

(** *** [get_page_info] *)

Definition get_page_info (old_url new_url : string) : M (Z * bool) :=
  response ← safe_request new_url;
  let found :=
    match response with
    | Some r =>
        let pages := Z.of_nat (PyStr.count_literal "pageLink" (text r)) in
        if 0 <? pages then Some pages else None
    | None => None
    end in
  match found with
  | Some pages => mret (pages, true)
  | None =>
      response ← safe_request old_url;
      match response with
      | Some r => mret (Z.of_nat (PyStr.count_literal "nbs" (text r)), false)
      | None => log Error MsgCannotLocate;; raise (SystemExit 1)
      end
  end.

(** *** [download_pdf] *)

(** [response.raise_for_status()] *)
Definition raise_for_status (r : Response) : M unit :=
  if (400 <=? status_code r) && (status_code r <? 600)
  then raise PyException else mret tt.

Fixpoint put_file (name : string) (b : Blob) (files : list (string * Blob))
  : list (string * Blob) :=
  match files with
  | [] => [(name, b)]
  | (n, c) :: rest =>
      if String.eqb n name then (name, b) :: rest
      else (n, c) :: put_file name b rest
  end.

Fixpoint get_file (name : string) (files : list (string * Blob)) : option Blob :=
  match files with
  | [] => None
  | (n, c) :: rest => if String.eqb n name then Some c else get_file name rest
  end.

(** [open(file_path, 'wb')] followed by the writes that got through. *)
Definition write_temp (filename : string) (b : Blob) : M unit := fun st =>
  if temp_exists st then
    (mkState (requests_made st) true (put_file filename b (temp_files st))
             (out_files st) (trace st ++ [EvWriteTemp filename]), inl tt)
  else (st, inr PyException).

(** [os.path.getsize(file_path)] *)
Definition getsize (filename : string) : M Z := fun st =>
  match get_file filename (temp_files st) with
  | Some b => (st, inl (blob_size b))
  | None => (st, inr PyException)
  end.

Definition save_body (filename : string) (b : Body) : M unit :=
  match b with
  | BodyComplete c => write_temp filename c
  | BodyBroken None => raise PyException
  | BodyBroken (Some c) => write_temp filename c;; raise PyException
  end.

Definition header_or_empty (h : option string) : string :=
  match h with Some v => v | None => EmptyString end.

(** One turn of the retry loop: [Some b] for [return b], [None] to go on. *)
Definition download_pdf_attempt (retry : nat) (url filename : string)
  : M (option bool) :=
  try_except
    (response ← requests_get url;
     raise_for_status response;;
     if negb (PyStr.contains "application/pdf"
                (header_or_empty (content_type response)))
     then log Warning (MsgNotPdf url);; mret (Some false)
     else
       save_body filename (body response);;
       size ← getsize filename;
       if 1024 <=? size then mret (Some true) else mret None)
    (log Warning (MsgDownloadFailed (retry + 1) filename);; sleep 1;; mret None).

Fixpoint download_pdf_loop (turns retry : nat) (url filename : string) : M bool :=
  match turns with
  | O => mret false
  | S turns' =>
      step ← download_pdf_attempt retry url filename;
      match step with
      | Some result => mret result
      | None => download_pdf_loop turns' (S retry) url filename
      end
  end.

Definition download_pdf (url filename : string) : M bool :=
  download_pdf_loop MAX_RETRIES 0 url filename.

(** *** [download_edition] *)

(** [re.findall(r'(/attachement.*?\.pdf)', text)[0]]: the leftmost place
    where "/attachement" is followed, on the same line, by ".pdf"; the
    match ends at the first such ".pdf". *)
Fixpoint lazy_to_pdf (s : string) : option string :=
  if PyStr.starts_with ".pdf" s then Some ".pdf"
  else match s with
       | EmptyString => None
       | String c s' =>
           if Ascii.eqb c "010"%char then None
           else match lazy_to_pdf s' with
                | Some m => Some (String c m)
                | None => None
                end
       end.

Fixpoint first_attachment (s : string) : option string :=
  match s with
  | EmptyString => None
  | String _ s' =>
      if PyStr.starts_with "/attachement" s then
        match lazy_to_pdf (PyStr.drop 12 s) with
        | Some m => Some ("/attachement" +:+ m)
        | None => first_attachment s'
        end
      else first_attachment s'
  end.

(** The progress bar of the batch, as [download_edition] looks at it:
    the id of the main task and whether that task has finished. *)
Record Outer := mkOuter { main_task : Z; main_finished : bool }.

(** [main_task and progress and progress.tasks[main_task].finished];
    a task id is an int, so the id 0 is falsy. *)
Definition cancel_requested (outer : option Outer) : bool :=
  match outer with
  | Some o => negb (main_task o =? 0) && main_finished o
  | None => false
  end.

Definition output_name (file_fmt : string) : string :=
  "People's.Daily." +:+ file_fmt +:+ ".pdf".

Definition page_filename (file_fmt : string) (page : Z) : string :=
  "rmrb" +:+ file_fmt +:+ PyStr.pad 2 page +:+ ".pdf".

(** The body of [for page in range(page, page + turns)], threading [success]. *)
Fixpoint fetch_pages (turns : nat) (page success : Z)
         (old_fmt file_fmt new_fmt : string) (is_new : bool)
         (outer : option Outer) : M Z :=
  match turns with
  | O => mret success
  | S turns' =>
      (if cancel_requested outer then raise KeyboardInterrupt else mret tt);;
      let filename := page_filename file_fmt page in
      got ←
        (if is_new then
           let node_url := "http://paper.people.com.cn/rmrb/pc/layout/" +:+ new_fmt
                           +:+ "/node_" +:+ PyStr.pad 2 page +:+ ".html" in
           response ← safe_request node_url;
           match response with
           | None => mret false
           | Some r =>
               match first_attachment (text r) with
               | Some m =>
                   download_pdf ("http://paper.people.com.cn/rmrb/pc/" +:+ m) filename
               | None => log Error (MsgLinkNotFound page);; mret false
               end
           end
         else
           download_pdf ("http://paper.people.com.cn/rmrb/images/" +:+ old_fmt
                         +:+ "/rmrb" +:+ file_fmt +:+ PyStr.pad 2 page +:+ ".pdf")
                        filename);
      fetch_pages turns' (page + 1) (if got : bool then success + 1 else success)
                  old_fmt file_fmt new_fmt is_new outer
  end.

Definition output_exists (name : string) : M bool := fun st =>
  (st, inl (bool_decide (is_Some (out_files st !! name)))).

Definition download_edition (target_date : date) (outer : option Outer) : M bool :=
  let old_fmt := strftime_Y_m_slash_d target_date in
  let file_fmt := strftime_Ymd target_date in
  let new_fmt := strftime_Ym_slash_d target_date in
  present ← output_exists (output_name file_fmt);
  if present : bool then log Info (MsgExists (output_name file_fmt));; mret true
  else
    let old_cover := "http://paper.people.com.cn/rmrb/html/" +:+ old_fmt
                     +:+ "/nbs.D110000renmrb_01.htm" in
    let new_cover := "http://paper.people.com.cn/rmrb/pc/layout/" +:+ new_fmt
                     +:+ "/node_01.html" in
    '(total_pages, is_new) ← get_page_info old_cover new_cover;
    log Info (MsgDetected total_pages is_new);;
    try_except2
      (success ← fetch_pages (Z.to_nat total_pages) 1 0
                             old_fmt file_fmt new_fmt is_new outer;
       if success <? total_pages
       then log Warning (MsgPartial success total_pages);; mret false
       else mret true)
      (log Warning MsgUserAbort;; mret false)
      (log Error MsgDownloadError;; mret false).

(** *** [merge_pdfs] *)

(** The blanks [int] strips from both ends of an ASCII string: the space
    and the bytes 9 to 13 (tab, line feed, vertical tab, form feed, carriage
    return).  The separators 28 to 31 are not stripped: [int] rejects them. *)
Definition is_space (c : ascii) : bool :=
  let n := nat_of_ascii c in
  (n =? 32)%nat || ((9 <=? n)%nat && (n <=? 13)%nat).

Fixpoint lstrip (s : string) : string :=
  match s with
  | String c s' => if is_space c then lstrip s' else s
  | EmptyString => EmptyString
  end.

Definition strip (s : string) : string :=
  String.rev (lstrip (String.rev (lstrip s))).

(** Digits, with single underscores allowed between them. *)
Fixpoint int_digits (after_digit : bool) (acc : Z) (s : string) : option Z :=
  match s with
  | EmptyString => if after_digit then Some acc else None
  | String c s' =>
      if PyStr.is_digit c then int_digits true (10 * acc + PyStr.digit_val c) s'
      else if Ascii.eqb c "_"%char && after_digit then int_digits false acc s'
      else None
  end.

(** [int(s)] for an ASCII string; [None] stands for the [ValueError]. *)
Definition py_int (s : string) : option Z :=
  match strip s with
  | String "+"%char u => int_digits false 0 u
  | String "-"%char u => option_map Z.opp (int_digits false 0 u)
  | u => int_digits false 0 u
  end.

(** The sort key [lambda x: int(x[-6:-4])]. *)
Definition page_key (filename : string) : option Z :=
  py_int (PyStr.slice (-6) (-4) filename).

Fixpoint with_keys (names : list string) : option (list (Z * string)) :=
  match names with
  | [] => Some []
  | f :: rest =>
      match page_key f, with_keys rest with
      | Some k, Some ks => Some ((k, f) :: ks)
      | _, _ => None
      end
  end.

(** [sorted(..., key=...)] is stable: equal keys keep their input order. *)
Fixpoint insert_keyed (x : Z * string) (l : list (Z * string)) : list (Z * string) :=
  match l with
  | [] => [x]
  | y :: l' => if fst x <=? fst y then x :: y :: l' else y :: insert_keyed x l'
  end.

Fixpoint sort_keyed (l : list (Z * string)) : list (Z * string) :=
  match l with
  | [] => []
  | x :: l' => insert_keyed x (sort_keyed l')
  end.

(** [os.listdir(temp_dir)] *)
Definition listdir : M (list string) := fun st =>
  if temp_exists st then (st, inl (map fst (temp_files st)))
  else (st, inr PyException).

Definition sorted_pdf_files : M (list string) :=
  names ← listdir;
  match with_keys (List.filter (PyStr.ends_with ".pdf") names) with
  | Some keyed => mret (map snd (sort_keyed keyed))
  | None => raise PyException
  end.

(** Opening a page file with the PDF library ([fitz.open],
    [PdfMerger.append]); it raises on a file it cannot read. *)
Definition open_pdf (filename : string) : M unit := fun st =>
  match get_file filename (temp_files st) with
  | Some b => if blob_readable b then (st, inl tt) else (st, inr PyException)
  | None => (st, inr PyException)
  end.

(** Writing the composite under [name] in the download directory (the write
    itself succeeds). *)
Definition write_output (name : string) (doc : Doc) : M unit := fun st =>
  (mkState (requests_made st) (temp_exists st) (temp_files st)
           (<[name := doc]> (out_files st)) (trace st ++ [EvSaveOutput name]),
   inl tt).

(** PyMuPDF's [Document.save] refuses a document with zero pages. *)
Definition fitz_save (name : string) (doc : Doc) : M unit :=
  match doc with
  | [] => raise PyException
  | _ => write_output name doc
  end.

(** The loop over [pdf_files]; [None] stands for [return False] inside it. *)
Fixpoint insert_pages (files : list string) (doc : Doc) : M (option Doc) :=
  match files with
  | [] => mret (Some doc)
  | filename :: rest =>
      size ← getsize filename;
      if size <? 1024
      then log Warning (MsgSkipInvalid filename);; insert_pages rest doc
      else
        ok ← try_except
               (open_pdf filename;; emit (EvAppendPdf filename);; mret true)
               (log Error (MsgFileMergeFailed filename);; mret false);
        if ok : bool then insert_pages rest (doc ++ [filename])%list
        else mret None
  end.

(** The first script (PyMuPDF). *)
Definition merge_pdfs : M bool :=
  try_except
    (pdf_files ← sorted_pdf_files;
     match pdf_files with
     | [] => log Error MsgNoFiles;; mret false
     | first :: _ =>
         merged ← insert_pages pdf_files [];
         match merged with
         | None => mret false
         | Some doc =>
             let name := output_name (PyStr.slice 4 12 first) in
             fitz_save name doc;;
             log Info (MsgMerged name);;
             mret true
         end
     end)
    (log Critical MsgMergeCrashed;; mret false).

(** The second script (PyPDF2): the same loop ([valid_files] is the list
    of appended files, that is the composite itself; the error logged for an
    unreadable file is worded differently), then an explicit test for
    "nothing appended". *)
Definition merge_pdfs_pypdf2 : M bool :=
  try_except
    (pdf_files ← sorted_pdf_files;
     match pdf_files with
     | [] => log Error MsgNoFiles;; mret false
     | _ :: _ =>
         merged ← insert_pages pdf_files [];
         match merged with
         | None => mret false
         | Some valid_files =>
             match valid_files with
             | [] => log Error MsgNoValidFiles;; mret false
             | first :: _ =>
                 let name := output_name (PyStr.slice 4 12 first) in
                 write_output name valid_files;;
                 log Info (MsgMerged name);;
                 mret true
             end
         end
     end)
    (log Critical MsgMergeCrashed;; mret false).

(** *** [init_environment] and [main] *)

(** Both directories are created when missing and every file of the
    scratch directory is unlinked (the directory holds regular files only,
    and unlinking them succeeds). *)
Definition init_environment : M unit := fun st =>
  (mkState (requests_made st) true [] (out_files st) (trace st), inl tt).

(** [shutil.rmtree(temp_dir, ignore_errors=True)] *)
Definition rmtree_temp : M unit := fun st =>
  (mkState (requests_made st) false [] (out_files st) (trace st ++ [EvRmtree]),
   inl tt).

Definition when (b : bool) (m : M unit) : M unit := if b then m else mret tt.

(** The outermost handlers of [main]. *)
Definition main_handlers (body : M unit) : M unit :=
  try_except2 body
    (log Warning MsgUserStop;; raise (SystemExit 130))
    (log Critical MsgProgramError;; raise (SystemExit 1)).

(** [main] with [-d]: [target_date] is the date [validate_date] returned.
    [merge] is the merge of the script at hand. *)
Definition main_single (merge : M bool) (target_date : date) : M unit :=
  init_environment;;
  main_handlers
    (log Info MsgTarget;;
     download_success ← download_edition target_date None;
     when download_success
          (merge_success ← merge; when (negb merge_success) (log Error MsgMergeFailed));;
     rmtree_temp;;
     log Info MsgDone).

(** One turn of the batch loop. *)
Definition batch_iteration (merge : M bool) (outer : Outer) (date_obj : date) : M unit :=
  try_finally
    (try_except
       (init_environment;;
        download_success ← download_edition date_obj (Some outer);
        if download_success : bool
        then merge_success ← merge; when (negb merge_success) (log Error MsgMergeFailed)
        else log Warning MsgIncomplete)
       (log Error MsgDateFailed))
    rmtree_temp.

(** [for idx, date_obj in enumerate(date_list, 1)]: the main task is the
    first task of its progress bar, so its id is 0; each turn advances it
    by one before the date is processed. *)
Fixpoint batch_loop (merge : M bool) (idx total_days : Z) (date_list : list date)
  : M unit :=
  match date_list with
  | [] => mret tt
  | date_obj :: rest =>
      batch_iteration merge (mkOuter 0 (total_days <=? idx)) date_obj;;
      batch_loop merge (idx + 1) total_days rest
  end.

(** [main] with [-r]. *)
Definition main_range (merge : M bool) (today : date) (range_str : string) : M unit :=
  init_environment;;
  main_handlers
    (match validate_date_range today range_str with
     | RangeOk date_list =>
         log Info (MsgPrepare (List.length date_list));;
         batch_loop merge 1 (Z.of_nat (List.length date_list)) date_list;;
         log Info MsgBatchDone
     | _ => raise (SystemExit 1)
     end).

End Program.

(** * Properties *)

(** ** Running monadic code *)

Lemma run_bind {A B} (m : M A) (f : A -> M B) (st : State) :
  (m ≫= f) st =
  match m st with
  | (st', inl a) => f a st'
  | (st', inr e) => (st', inr e)
  end.
Proof. reflexivity. Qed.

Lemma run_ret {A} (a : A) (st : State) : (mret a : M A) st = (st, inl a).
Proof. reflexivity. Qed.

(** The state [st] after the events [evs] and [k] more requests. *)
Definition advance (st : State) (k : nat) (evs : list Event) : State :=
  mkState (requests_made st + k) (temp_exists st) (temp_files st) (out_files st)
          (trace st ++ evs).

Lemma advance_0_nil st : advance st 0 [] = st.
Proof.
  destruct st; unfold advance; simpl. rewrite Nat.add_0_r, app_nil_r. reflexivity.
Qed.

Lemma advance_advance st k1 e1 k2 e2 :
  advance (advance st k1 e1) k2 e2 = advance st (k1 + k2) (e1 ++ e2).
Proof.
  unfold advance; simpl. rewrite Nat.add_assoc, <- app_assoc. reflexivity.
Qed.

Definition is_get (e : Event) : bool :=
  match e with EvHttpGet _ => true | _ => false end.

Definition is_sleep (e : Event) : bool :=
  match e with EvSleep _ => true | _ => false end.

Definition count_gets (evs : list Event) : nat := List.length (List.filter is_get evs).
Definition count_sleeps (evs : list Event) : nat := List.length (List.filter is_sleep evs).
Arguments count_gets !evs /.
Arguments count_sleeps !evs /.

(** The events a computation added to the trace. *)
Definition new_events {A} (st : State) (out : State * A) : list Event :=
  List.skipn (List.length (trace st)) (trace (fst out)).

Lemma new_events_advance {A} st k evs (r : A) :
  new_events st (advance st k evs, r) = evs.
Proof.
  unfold new_events, advance; simpl.
  rewrite skipn_app, Nat.sub_diag, skipn_all. reflexivity.
Qed.

(** ** [safe_request] *)

(** What [safe_request] does, told from the replies the site gives to the
    requests numbered [n], [n+1], ...: the events of the call and its
    result. *)
Fixpoint request_story (site : World) (turns : nat) (url : string) (n : nat)
  : list Event * (option Response + exn) :=
  match turns with
  | O => ([], inl None)
  | S turns' =>
      match site n url with
      | Answered r =>
          if status_code r =? 200 then ([EvHttpGet url], inl (Some r))
          else if status_code r =? 404 then ([EvHttpGet url], inl None)
          else let '(evs, res) := request_story site turns' url (S n) in
               (EvHttpGet url :: evs, res)
      | Failed =>
          let '(evs, res) := request_story site turns' url (S n) in
          (EvHttpGet url :: EvLog Warning (MsgRequestFailed url) :: EvSleep 1 :: evs, res)
      | Interrupted => ([EvHttpGet url], inr KeyboardInterrupt)
      end
  end.

Ltac unfold_monad :=
  unfold mbind, mret, M_bind, M_ret, log, sleep, emit, raise, try_except.

Lemma safe_request_loop_run site turns url : forall st,
  safe_request_loop site turns url st =
  let '(evs, res) := request_story site turns url (requests_made st) in
  (advance st (count_gets evs) evs, res).
Proof.
  induction turns as [|turns IH]; intros st.
  - simpl. rewrite run_ret, advance_0_nil. reflexivity.
  - cbn [safe_request_loop request_story]. rewrite run_bind.
    unfold safe_request_attempt, requests_get. unfold_monad.
    destruct (site (requests_made st) url) as [r| |]; cbn -[request_story advance].
    + destruct (status_code r =? 200); [|destruct (status_code r =? 404)].
      * unfold advance, count_gets; simpl. do 2 f_equal. lia.
      * unfold advance, count_gets; simpl. do 2 f_equal. lia.
      * rewrite IH. cbn [requests_made].
        destruct (request_story site turns url (S (requests_made st))) as [evs res].
        unfold advance; cbn. rewrite <- app_assoc. do 2 f_equal.
        unfold count_gets. lia.
    + rewrite IH. cbn -[request_story advance].
      destruct (request_story site turns url (S (requests_made st))) as [evs res].
      unfold advance; cbn. rewrite <- !app_assoc. do 2 f_equal.
      unfold count_gets. lia.
    + unfold advance, count_gets; simpl. do 2 f_equal. lia.
Qed.

(** An attempt after which the loop goes on: an exception, or an answer
    whose status is neither 200 nor 404. *)
Definition retried (rp : Reply) : bool :=
  match rp with
  | Failed => true
  | Answered r => negb (status_code r =? 200) && negb (status_code r =? 404)
  | Interrupted => false
  end.

Definition raised (rp : Reply) : bool :=
  match rp with Failed => true | _ => false end.

(** Among the requests [n .. n+k-1] to [url], those that raised. *)
Fixpoint count_raised (site : World) (url : string) (n k : nat) : nat :=
  match k with
  | O => O
  | S k' => ((if raised (site n url) then 1 else 0) + count_raised site url (S n) k')%nat
  end.

Lemma story_gets_le site url turns : forall n,
  (count_gets (fst (request_story site turns url n)) <= turns)%nat.
Proof.
  induction turns as [|t IH]; intros n; cbn [request_story]; [simpl; lia|].
  destruct (site n url) as [r| |].
  - destruct (status_code r =? 200); [unfold count_gets; simpl; lia|].
    destruct (status_code r =? 404); [unfold count_gets; simpl; lia|].
    specialize (IH (S n)). destruct (request_story site t url (S n)) as [evs res].
    unfold count_gets in *; simpl in *. lia.
  - specialize (IH (S n)). destruct (request_story site t url (S n)) as [evs res].
    unfold count_gets in *; simpl in *. lia.
  - unfold count_gets; simpl; lia.
Qed.

Lemma story_exhausted site url turns : forall n,
  (forall j, (j < turns)%nat -> retried (site (n + j)%nat url) = true) ->
  let '(evs, res) := request_story site turns url n in
  res = inl None /\ count_gets evs = turns.
Proof.
  induction turns as [|t IH]; intros n H; cbn [request_story]; [split; reflexivity|].
  assert (H0 := H 0%nat ltac:(lia)). rewrite Nat.add_0_r in H0.
  assert (HS : forall j, (j < t)%nat -> retried (site (S n + j)%nat url) = true).
  { intros j Hj. replace (S n + j)%nat with (n + S j)%nat by lia. apply H. lia. }
  specialize (IH (S n) HS).
  destruct (site n url) as [r| |]; simpl in H0; try discriminate.
  - apply andb_true_iff in H0 as [H2 H4].
    apply negb_true_iff in H2, H4. rewrite H2, H4.
    destruct (request_story site t url (S n)) as [evs res].
    destruct IH as [-> <-]. split; reflexivity.
  - destruct (request_story site t url (S n)) as [evs res].
    destruct IH as [-> <-]. split; reflexivity.
Qed.

Lemma story_decided site url turns : forall n k r,
  (k < turns)%nat ->
  (forall j, (j < k)%nat -> retried (site (n + j)%nat url) = true) ->
  site (n + k)%nat url = Answered r ->
  let '(evs, res) := request_story site turns url n in
  (status_code r = 404 -> res = inl None /\ count_gets evs = S k) /\
  (status_code r = 200 -> res = inl (Some r) /\ count_gets evs = S k).
Proof.
  induction turns as [|t IH]; intros n k r Hk Hprev Hr; [lia|].
  cbn [request_story]. destruct k as [|k].
  - rewrite Nat.add_0_r in Hr. rewrite Hr.
    destruct (status_code r =? 200) eqn:E2.
    + apply Z.eqb_eq in E2. split; intros E; [lia | split; reflexivity].
    + destruct (status_code r =? 404) eqn:E4.
      * split; intros E; [split; reflexivity | apply Z.eqb_neq in E2; lia].
      * apply Z.eqb_neq in E2, E4.
        destruct (request_story site t url (S n)). split; intros; lia.
  - assert (H0 := Hprev 0%nat ltac:(lia)). rewrite Nat.add_0_r in H0.
    assert (IH' := IH (S n) k r ltac:(lia)).
    assert (Hp : forall j, (j < k)%nat -> retried (site (S n + j)%nat url) = true).
    { intros j Hj. replace (S n + j)%nat with (n + S j)%nat by lia. apply Hprev. lia. }
    replace (n + S k)%nat with (S n + k)%nat in Hr by lia.
    specialize (IH' Hp Hr).
    destruct (site n url) as [r0| |]; simpl in H0; try discriminate.
    + apply andb_true_iff in H0 as [H2 H4].
      apply negb_true_iff in H2, H4. rewrite H2, H4.
      destruct (request_story site t url (S n)) as [evs res].
      destruct IH' as [IH4 IH2].
      split; intros E; [destruct (IH4 E) as [-> <-] | destruct (IH2 E) as [-> <-]];
        split; reflexivity.
    + destruct (request_story site t url (S n)) as [evs res].
      destruct IH' as [IH4 IH2].
      split; intros E; [destruct (IH4 E) as [-> <-] | destruct (IH2 E) as [-> <-]];
        split; reflexivity.
Qed.

Lemma story_sleeps site url turns : forall n,
  let evs := fst (request_story site turns url n) in
  count_sleeps evs = count_raised site url n (count_gets evs) /\
  Forall (fun e => is_sleep e = true -> e = EvSleep 1) evs.
Proof.
  induction turns as [|t IH]; intros n; cbn [request_story].
  - split; [reflexivity | constructor].
  - destruct (IH (S n)) as [IHc IHf].
    destruct (site n url) as [r| |] eqn:E.
    + destruct (status_code r =? 200);
        [simpl; rewrite E; split; [reflexivity | repeat constructor; discriminate]|].
      destruct (status_code r =? 404);
        [simpl; rewrite E; split; [reflexivity | repeat constructor; discriminate]|].
      destruct (request_story site t url (S n)) as [evs res]. simpl in *.
      unfold count_sleeps, count_gets in *; simpl. rewrite E. simpl.
      split; [exact IHc | constructor; [discriminate | exact IHf]].
    + destruct (request_story site t url (S n)) as [evs res]. simpl in *.
      unfold count_sleeps, count_gets in *; simpl. rewrite E. simpl.
      split; [lia | repeat (constructor; [try discriminate; try reflexivity|])].
      exact IHf.
    + simpl. rewrite E. split; [reflexivity | repeat constructor; discriminate].
Qed.

(** What one attempt leaves in the trace: the request, and for an attempt
    that raised, the warning that names the URL followed by the pause of one
    second. *)
Definition attempt_events (url : string) (rp : Reply) : list Event :=
  match rp with
  | Failed => [EvHttpGet url; EvLog Warning (MsgRequestFailed url); EvSleep 1]
  | _ => [EvHttpGet url]
  end.

Lemma request_story_events site url turns : forall n,
  let evs := fst (request_story site turns url n) in
  evs = flat_map (fun j => attempt_events url (site j url)) (seq n (count_gets evs)).
Proof.
  induction turns as [|t IH]; intros n; cbn [request_story]; [reflexivity|].
  specialize (IH (S n)). cbv zeta in IH.
  destruct (site n url) as [r| |] eqn:E.
  - destruct (status_code r =? 200); [simpl; rewrite E; reflexivity|].
    destruct (status_code r =? 404); [simpl; rewrite E; reflexivity|].
    destruct (request_story site t url (S n)) as [evs res]. cbn [fst] in *.
    change (count_gets (EvHttpGet url :: evs)) with (S (count_gets evs)).
    cbn [seq flat_map]. rewrite E, <- IH. reflexivity.
  - destruct (request_story site t url (S n)) as [evs res]. cbn [fst] in *.
    change (count_gets (EvHttpGet url :: EvLog Warning (MsgRequestFailed url)
                          :: EvSleep 1 :: evs)) with (S (count_gets evs)).
    cbn [seq flat_map]. rewrite E, <- IH. reflexivity.
  - simpl. rewrite E. reflexivity.
Qed.

(** The state a process starts in: no request made, nothing on disk. *)
Definition initial_state : State := mkState 0 false [] ∅ [].

Definition answer_status (code : Z) : Reply :=
  Answered (mkResponse code None EmptyString (BodyBroken None)).

(** C7, as amended: [safe_request] sends at most 3 requests; the first
    attempt answered 404 ends the call with [None] and the first answered 200
    ends it with that response, in both cases with no further request; when
    all three attempts are retried the call returns [None]; and the one-second
    pauses are exactly those after the attempts that raised an exception: an
    answer with any other status is retried at once, without a pause.  The
    trace of the call is, attempt by attempt, the request alone, or, for an
    attempt that raised, the request, one warning that names the URL and the
    pause of one second, in this order; nothing else is logged. *)
Theorem safe_request_policy (site : World) (url : string) (st : State) :
  let n := requests_made st in
  let out := safe_request site url st in
  let evs := new_events st out in
  (count_gets evs <= 3)%nat /\
  requests_made (fst out) = (n + count_gets evs)%nat /\
  (forall k r, (k < 3)%nat ->
     (forall j, (j < k)%nat -> retried (site (n + j)%nat url) = true) ->
     site (n + k)%nat url = Answered r ->
     (status_code r = 404 -> snd out = inl None /\ count_gets evs = S k) /\
     (status_code r = 200 -> snd out = inl (Some r) /\ count_gets evs = S k)) /\
  ((forall j, (j < 3)%nat -> retried (site (n + j)%nat url) = true) ->
   snd out = inl None /\ count_gets evs = 3%nat) /\
  count_sleeps evs = count_raised site url n (count_gets evs) /\
  Forall (fun e => is_sleep e = true -> e = EvSleep 1) evs /\
  evs = flat_map (fun j => attempt_events url (site j url)) (seq n (count_gets evs)).
Proof.
  intros n out evs. subst out evs. unfold safe_request, MAX_RETRIES.
  rewrite safe_request_loop_run. fold n.
  pose proof (story_gets_le site url 3 n) as Hle.
  pose proof (story_sleeps site url 3 n) as Hsl.
  pose proof (story_exhausted site url 3 n) as Hex.
  pose proof (story_decided site url 3 n) as Hdec.
  pose proof (request_story_events site url 3 n) as Hev.
  destruct (request_story site 3 url n) as [evs res].
  rewrite new_events_advance. cbn [fst snd] in *.
  split; [exact Hle|]. split; [reflexivity|].
  split; [intros k r Hk Hprev Hr; exact (Hdec k r Hk Hprev Hr)|].
  split; [exact Hex|]. destruct Hsl as [Hs1 Hs2].
  split; [exact Hs1|]. split; [exact Hs2 | exact Hev].
Qed.

(** C7, counterexample: against a site that answers 500 to everything the
    three attempts follow each other with no pause in between. *)
Lemma safe_request_500_no_pause :
  let out := safe_request (fun _ _ => answer_status 500) "u" initial_state in
  snd out = inl None /\
  trace (fst out) = [EvHttpGet "u"; EvHttpGet "u"; EvHttpGet "u"] /\
  ~ In (EvSleep 1) (trace (fst out)).
Proof.
  vm_compute. split; [reflexivity|]. split; [reflexivity|].
  intros [H|[H|[H|[]]]]; discriminate H.
Qed.

Lemma safe_request_404 site url st r :
  site (requests_made st) url = Answered r -> status_code r = 404 ->
  safe_request site url st = (advance st 1 [EvHttpGet url], inl None).
Proof.
  intros Hr H4. unfold safe_request, MAX_RETRIES. rewrite safe_request_loop_run.
  cbn [request_story]. rewrite Hr, H4. reflexivity.
Qed.

Lemma safe_request_200 site url st r :
  site (requests_made st) url = Answered r -> status_code r = 200 ->
  safe_request site url st = (advance st 1 [EvHttpGet url], inl (Some r)).
Proof.
  intros Hr H2. unfold safe_request, MAX_RETRIES. rewrite safe_request_loop_run.
  cbn [request_story]. rewrite Hr, H2. reflexivity.
Qed.

(** ** [get_page_info] *)

Definition page_links (r : Response) : Z :=
  Z.of_nat (PyStr.count_literal "pageLink" (text r)).
Definition legacy_marks (r : Response) : Z :=
  Z.of_nat (PyStr.count_literal "nbs" (text r)).

(** The legacy probe and what follows it. *)
Definition legacy_probe (site : World) (old_url : string) (st1 : State)
  : State * (Z * bool + exn) :=
  match safe_request site old_url st1 with
  | (st2, inl (Some r)) => (st2, inl (legacy_marks r, false))
  | (st2, inl None) => (advance st2 0 [EvLog Error MsgCannotLocate], inr (SystemExit 1))
  | (st2, inr e) => (st2, inr e)
  end.

Lemma get_page_info_run site old_url new_url st :
  get_page_info site old_url new_url st =
  match safe_request site new_url st with
  | (st1, inl (Some r)) =>
      if 0 <? page_links r then (st1, inl (page_links r, true))
      else legacy_probe site old_url st1
  | (st1, inl None) => legacy_probe site old_url st1
  | (st1, inr e) => (st1, inr e)
  end.
Proof.
  unfold get_page_info, legacy_probe. rewrite run_bind.
  destruct (safe_request site new_url st) as [st1 [[r|]|e]]; [| |reflexivity].
  - fold (page_links r). destruct (0 <? page_links r); [reflexivity|].
    rewrite run_bind.
    destruct (safe_request site old_url st1) as [st2 [[r2|]|e2]]; try reflexivity.
    unfold_monad. unfold advance. simpl. rewrite Nat.add_0_r. reflexivity.
  - rewrite run_bind.
    destruct (safe_request site old_url st1) as [st2 [[r2|]|e2]]; try reflexivity.
    unfold_monad. unfold advance. simpl. rewrite Nat.add_0_r. reflexivity.
Qed.

(** The count of a literal, in words: [n] matches are found in [s] when the
    text is scanned from the left and a match is never allowed to overlap
    the one before it, which is what [re.findall] returns for a literal
    pattern. *)
Inductive occurrences (lit : string) : string -> nat -> Prop :=
| occ_done : occurrences lit EmptyString 0
| occ_match s n :
    PyStr.starts_with lit s = true ->
    occurrences lit (PyStr.drop (String.length lit) s) n ->
    occurrences lit s (S n)
| occ_skip c s n :
    PyStr.starts_with lit (String c s) = false ->
    occurrences lit s n ->
    occurrences lit (String c s) n.

Lemma drop_length k : forall s, String.length (PyStr.drop k s) = (String.length s - k)%nat.
Proof.
  induction k as [|k IH]; intros s; [simpl; lia|].
  destruct s as [|c s]; [reflexivity|]. simpl. apply IH.
Qed.

Lemma count_from_occurrences a lit s n :
  occurrences (String a lit) s n ->
  forall fuel, (String.length s <= fuel)%nat ->
               PyStr.count_from fuel (String a lit) s = n.
Proof.
  induction 1 as [|s n Hstart Hrest IH|c s n Hstart Hrest IH]; intros fuel Hfuel.
  - destruct fuel; reflexivity.
  - destruct s as [|c s]; [discriminate Hstart|].
    destruct fuel as [|fuel]; [simpl in Hfuel; lia|].
    cbn [PyStr.count_from]. rewrite Hstart. f_equal. apply IH.
    rewrite drop_length. simpl in *. lia.
  - destruct fuel as [|fuel]; [simpl in Hfuel; lia|].
    cbn [PyStr.count_from]. rewrite Hstart. apply IH. simpl in Hfuel. lia.
Qed.

Lemma count_literal_occurrences a lit s n :
  occurrences (String a lit) s n -> PyStr.count_literal (String a lit) s = n.
Proof.
  intros H. unfold PyStr.count_literal.
  eapply count_from_occurrences; [exact H | lia].
Qed.

(** A site that serves the two covers at the URLs "new" and "old". *)
Definition cover_page (s : string) : Reply :=
  Answered (mkResponse 200 (Some "text/html") s (BodyBroken None)).

Definition cover_site (current legacy : Reply) : World := fun _ url =>
  if String.eqb url "new" then current
  else if String.eqb url "old" then legacy
       else answer_status 404.

Definition legacy_cover_of_three : string :=
  "<a href=nbs.D110000renmrb_01.htm>01</a> <a href=nbs.D110000renmrb_02.htm>02</a> "
  +:+ "<a href=nbs.D110000renmrb_03.htm>03</a>".

Definition current_cover_of_two : string :=
  "<a id=pageLink href=node_01.html>01</a><a id=pageLink href=node_02.html>02</a>".

(** C5: the locator probes the current-layout cover first and answers
    [(count, current)] exactly when that probe succeeds with at least one
    marker, without probing the legacy cover; otherwise it probes the legacy
    cover and, when that probe succeeds, answers [(legacy count, legacy)],
    zero included; a 404 on the current cover and a 200 on the legacy cover
    give the legacy count after two requests; when the legacy probe fails,
    after a current cover that failed or carried no marker, it logs the
    error and exits with status 1.  The counts are those of [re.findall]:
    the matches of the marker found from the left, without overlap.  On a
    legacy cover with three links behind a current cover answering 404 the
    answer is [(3, legacy)] after two requests; a current cover with two
    links gives [(2, current)] after one request; a current cover without a
    marker and a legacy cover without a marker give [(0, legacy)]; a current
    cover without a marker and a legacy cover answering 404 end in the exit
    with status 1. *)
Theorem get_page_info_locates (site : World) (old_url new_url : string) (st : State) :
  let out := get_page_info site old_url new_url st in
  let probe_new := safe_request site new_url st in
  let probe_old := safe_request site old_url (fst probe_new) in
  (forall r, snd probe_new = inl (Some r) -> 0 < page_links r ->
             out = (fst probe_new, inl (page_links r, true))) /\
  (forall pages, snd out = inl (pages, true) ->
                 exists r, snd probe_new = inl (Some r) /\
                           pages = page_links r /\ 1 <= pages) /\
  (forall r, snd probe_new = inl None \/
             (exists r0, snd probe_new = inl (Some r0) /\ page_links r0 = 0) ->
             snd probe_old = inl (Some r) ->
             out = (fst probe_old, inl (legacy_marks r, false))) /\
  (forall r r', site (requests_made st) new_url = Answered r -> status_code r = 404 ->
                site (S (requests_made st)) old_url = Answered r' ->
                status_code r' = 200 ->
                snd out = inl (legacy_marks r', false) /\
                new_events st out = [EvHttpGet new_url; EvHttpGet old_url]) /\
  (snd probe_new = inl None \/
   (exists r0, snd probe_new = inl (Some r0) /\ page_links r0 = 0) ->
   snd probe_old = inl None ->
   snd out = inr (SystemExit 1) /\
   new_events (fst probe_old) out = [EvLog Error MsgCannotLocate]) /\
  (forall r n, occurrences "pageLink" (text r) n -> page_links r = Z.of_nat n) /\
  (forall r n, occurrences "nbs" (text r) n -> legacy_marks r = Z.of_nat n) /\
  (let run := get_page_info (cover_site (answer_status 404)
                                        (cover_page legacy_cover_of_three))
                            "old" "new" initial_state in
   snd run = inl (3, false) /\ requests_made (fst run) = 2%nat) /\
  (let run := get_page_info (cover_site (cover_page current_cover_of_two)
                                        (cover_page legacy_cover_of_three))
                            "old" "new" initial_state in
   snd run = inl (2, true) /\ requests_made (fst run) = 1%nat) /\
  snd (get_page_info (cover_site (cover_page "<html></html>")
                                 (cover_page "<html></html>"))
                     "old" "new" initial_state) = inl (0, false) /\
  snd (get_page_info (cover_site (cover_page "<html></html>") (answer_status 404))
                     "old" "new" initial_state) = inr (SystemExit 1).
Proof.
  intros out probe_new probe_old. subst out probe_old probe_new.
  split; [|split; [|split; [|split; [|split]]]];
    [rewrite get_page_info_run..|].
  6:{ split; [intros r n H; unfold page_links;
              rewrite (count_literal_occurrences _ _ _ _ H); reflexivity|].
      split; [intros r n H; unfold legacy_marks;
              rewrite (count_literal_occurrences _ _ _ _ H); reflexivity|].
      vm_compute. repeat split. }
  - intros r Hr Hpos. destruct (safe_request site new_url st) as [st1 res].
    simpl in Hr. subst res. apply Z.ltb_lt in Hpos. rewrite Hpos. reflexivity.
  - intros pages Hout.
    destruct (safe_request site new_url st) as [st1 [[r|]|e]]; simpl in *.
    + destruct (0 <? page_links r) eqn:Epos.
      * apply Z.ltb_lt in Epos. injection Hout as <-.
        exists r. split; [reflexivity | split; [reflexivity | lia]].
      * unfold legacy_probe in Hout.
        destruct (safe_request site old_url st1) as [st2 [[r2|]|e2]]; discriminate.
    + unfold legacy_probe in Hout.
      destruct (safe_request site old_url st1) as [st2 [[r2|]|e2]]; discriminate.
    + discriminate.
  - intros r Hnew Hold.
    destruct (safe_request site new_url st) as [st1 res]. simpl in *.
    assert (Hleg : legacy_probe site old_url st1 =
                   ((safe_request site old_url st1).1, inl (legacy_marks r, false))).
    { unfold legacy_probe.
      destruct (safe_request site old_url st1) as [st2 res2]. simpl in *.
      subst res2. reflexivity. }
    destruct Hnew as [->|[r0 [-> H0]]]; [exact Hleg|].
    rewrite H0. exact Hleg.
  - intros r r' Hr H4 Hr' H2.
    rewrite (safe_request_404 _ _ _ _ Hr H4). unfold legacy_probe.
    assert (Hr2 : site (requests_made (advance st 1 [EvHttpGet new_url])) old_url
                  = Answered r').
    { simpl. replace (requests_made st + 1)%nat with (S (requests_made st)) by lia.
      exact Hr'. }
    rewrite (safe_request_200 _ _ _ _ Hr2 H2). rewrite advance_advance.
    split; [reflexivity | apply new_events_advance].
  - intros Hnew Hold.
    destruct (safe_request site new_url st) as [st1 res]. simpl in *.
    assert (Hleg : snd (legacy_probe site old_url st1) = inr (SystemExit 1) /\
                   new_events (fst (safe_request site old_url st1))
                              (legacy_probe site old_url st1)
                   = [EvLog Error MsgCannotLocate]).
    { unfold legacy_probe.
      destruct (safe_request site old_url st1) as [st2 res2]. simpl in *. subst res2.
      split; [reflexivity | apply new_events_advance]. }
    destruct Hnew as [->|[r0 [-> H0]]]; [exact Hleg|].
    rewrite H0. exact Hleg.
Qed.

(** ** [download_pdf] *)

Definition answer_html (s : string) : Reply :=
  Answered (mkResponse 200 (Some "text/html") s (BodyBroken None)).

Definition answer_pdf (b : Blob) : Reply :=
  Answered (mkResponse 200 (Some "application/pdf") EmptyString (BodyComplete b)).

(** C3, as amended: when the response of an attempt (the first or a later
    one) is not an HTTP error and declares a content type without
    "application/pdf", the whole call returns [False] right there: one
    warning, no pause, no file written and no further attempt, whatever is
    left of the budget of 3. *)
Theorem download_pdf_non_pdf_ends_call
        (site : World) (turns retry : nat) (url filename : string)
        (st : State) (r : Response) :
  site (requests_made st) url = Answered r ->
  (status_code r < 400 \/ 600 <= status_code r) ->
  PyStr.contains "application/pdf" (header_or_empty (content_type r)) = false ->
  download_pdf_loop site (S turns) retry url filename st =
  (advance st 1 [EvHttpGet url; EvLog Warning (MsgNotPdf url)], inl false).
Proof.
  intros Hr Hstatus Htype. cbn [download_pdf_loop]. rewrite run_bind.
  unfold download_pdf_attempt, requests_get, raise_for_status. unfold_monad.
  rewrite Hr.
  assert ((400 <=? status_code r) && (status_code r <? 600) = false) as ->.
  { apply andb_false_iff. destruct Hstatus; [left; lia | right; lia]. }
  rewrite Htype. unfold advance. simpl. rewrite <- app_assoc.
  f_equal. f_equal. lia.
Qed.

Lemma download_pdf_non_pdf_witness :
  download_pdf (fun _ _ => answer_html "<html></html>") "u" "rmrb2024010101.pdf"
               initial_state =
  (advance initial_state 1 [EvHttpGet "u"; EvLog Warning (MsgNotPdf "u")], inl false).
Proof.
  apply (download_pdf_non_pdf_ends_call
           (fun _ _ => answer_html "<html></html>") 2 0 "u" "rmrb2024010101.pdf"
           initial_state
           (mkResponse 200 (Some "text/html") "<html></html>" (BodyBroken None)));
    [reflexivity | left; simpl; lia | reflexivity].
Defined.

(** C3, counterexample: a site that serves HTML under the page's URL gets one
    request, not three. *)
Lemma download_pdf_non_pdf_single_request :
  let out := download_pdf (fun _ _ => answer_html "<html></html>") "u"
                          "rmrb2024010101.pdf" initial_state in
  snd out = inl false /\
  requests_made (fst out) = 1%nat /\
  trace (fst out) = [EvHttpGet "u"; EvLog Warning (MsgNotPdf "u")].
Proof. vm_compute. repeat split. Qed.

(** ** [download_edition]: the skip *)

Definition canonical_output (d : date) : string := output_name (strftime_Ymd d).

Lemma download_edition_skip_run site d outer st :
  is_Some (out_files st !! canonical_output d) ->
  download_edition site d outer st =
  (advance st 0 [EvLog Info (MsgExists (canonical_output d))], inl true).
Proof.
  intros Hex. unfold download_edition, output_exists. unfold_monad.
  fold (canonical_output d). rewrite (bool_decide_eq_true_2 _ Hex).
  unfold advance. simpl. rewrite Nat.add_0_r. reflexivity.
Qed.

(** C4: when the canonical output of a date is already there,
    [download_edition] returns [True] after one log line and no request
    (neither probe nor page fetch), and the whole single-date run and the
    batch turn of either script end normally without a request and leave the
    download directory as it was. *)
Theorem existing_output_means_no_network
        (site : World) (d : date) (outer : option Outer) (st : State) :
  is_Some (out_files st !! canonical_output d) ->
  let out := download_edition site d outer st in
  (snd out = inl true /\
   requests_made (fst out) = requests_made st /\
   new_events st out = [EvLog Info (MsgExists (canonical_output d))]) /\
  (forall merge, merge = merge_pdfs \/ merge = merge_pdfs_pypdf2 ->
     let run := main_single site merge d st in
     snd run = inl tt /\
     requests_made (fst run) = requests_made st /\
     count_gets (new_events st run) = 0%nat /\
     out_files (fst run) = out_files st) /\
  (forall merge o, merge = merge_pdfs \/ merge = merge_pdfs_pypdf2 ->
     let turn := batch_iteration site merge o d st in
     snd turn = inl tt /\
     requests_made (fst turn) = requests_made st /\
     count_gets (new_events st turn) = 0%nat /\
     out_files (fst turn) = out_files st).
Proof.
  intros Hex out. subst out. rewrite (download_edition_skip_run _ _ _ _ Hex).
  split; [|split].
  - split; [reflexivity|]. split; [simpl; lia|]. apply new_events_advance.
  - intros merge Hmerge run. subst run.
    assert (Hrun : main_single site merge d st =
      (mkState (requests_made st) false [] (out_files st)
         (trace st ++ [EvLog Info MsgTarget;
                       EvLog Info (MsgExists (canonical_output d));
                       EvLog Error MsgNoFiles; EvLog Error MsgMergeFailed;
                       EvRmtree; EvLog Info MsgDone]), inl tt)).
    { unfold main_single, main_handlers, try_except2, init_environment.
      rewrite run_bind. cbn match. unfold_monad. cbn [trace requests_made temp_exists temp_files out_files].
      rewrite download_edition_skip_run by exact Hex.
      destruct Hmerge as [-> | ->];
        unfold advance, when, merge_pdfs, merge_pdfs_pypdf2, sorted_pdf_files,
               listdir, rmtree_temp; unfold_monad; simpl;
        rewrite <- !app_assoc; simpl; rewrite Nat.add_0_r; reflexivity. }
    rewrite Hrun. cbn [fst snd].
    split; [reflexivity|]. split; [reflexivity|]. split; [|reflexivity].
    unfold new_events. cbn [fst trace].
    rewrite skipn_app, Nat.sub_diag, skipn_all. reflexivity.
  - intros merge o Hmerge turn. subst turn.
    assert (Hrun : batch_iteration site merge o d st =
      (mkState (requests_made st) false [] (out_files st)
         (trace st ++ [EvLog Info (MsgExists (canonical_output d));
                       EvLog Error MsgNoFiles; EvLog Error MsgMergeFailed;
                       EvRmtree]), inl tt)).
    { unfold batch_iteration, try_finally, try_except, init_environment.
      rewrite run_bind. cbn match.
      rewrite run_bind, download_edition_skip_run by exact Hex.
      destruct Hmerge as [-> | ->];
        unfold advance, when, merge_pdfs, merge_pdfs_pypdf2, sorted_pdf_files,
               listdir, rmtree_temp; unfold_monad; simpl;
        rewrite <- !app_assoc; simpl; rewrite Nat.add_0_r; reflexivity. }
    rewrite Hrun. cbn [fst snd].
    split; [reflexivity|]. split; [reflexivity|]. split; [|reflexivity].
    unfold new_events. cbn [fst trace].
    rewrite skipn_app, Nat.sub_diag, skipn_all. reflexivity.
Qed.

Definition new_year_2024 : date := mkdate 2024 1 1.

Definition state_with_new_year_output : State :=
  mkState 0 false []
          {[ "People's.Daily.20240101.pdf" := ["rmrb2024010101.pdf"] ]} [].

Lemma existing_output_witness :
  snd (download_edition (fun _ _ => Failed) new_year_2024 None
                        state_with_new_year_output) = inl true /\
  requests_made (fst (download_edition (fun _ _ => Failed) new_year_2024 None
                                       state_with_new_year_output)) = 0%nat.
Proof.
  assert (Hex : is_Some (out_files state_with_new_year_output
                         !! canonical_output new_year_2024)).
  { exists ["rmrb2024010101.pdf"]. vm_compute. reflexivity. }
  destruct (existing_output_means_no_network
              (fun _ _ => Failed) new_year_2024 None
              state_with_new_year_output Hex) as [[Hres [Hreq _]] _].
  split; [exact Hres | exact Hreq].
Defined.

(** ** [download_edition]: the fetch loop and what follows it *)

Definition old_cover_url (d : date) : string :=
  "http://paper.people.com.cn/rmrb/html/" +:+ strftime_Y_m_slash_d d
  +:+ "/nbs.D110000renmrb_01.htm".

Definition new_cover_url (d : date) : string :=
  "http://paper.people.com.cn/rmrb/pc/layout/" +:+ strftime_Ym_slash_d d
  +:+ "/node_01.html".

(** The fetch loop of [download_edition] for an edition of [total_pages]
    pages. *)
Definition fetch_loop (site : World) (d : date) (total_pages : Z) (is_new : bool)
           (outer : option Outer) : M Z :=
  fetch_pages site (Z.to_nat total_pages) 1 0
              (strftime_Y_m_slash_d d) (strftime_Ymd d) (strftime_Ym_slash_d d)
              is_new outer.

(** [download_edition] past the existence test, step by step. *)
Definition after_locate (site : World) (d : date) (outer : option Outer)
           (total_pages : Z) (is_new : bool) (st1 : State) : State * (bool + exn) :=
  match fetch_loop site d total_pages is_new outer
                   (advance st1 0 [EvLog Info (MsgDetected total_pages is_new)]) with
  | (st2, inl success) =>
      if success <? total_pages
      then (advance st2 0 [EvLog Warning (MsgPartial success total_pages)], inl false)
      else (st2, inl true)
  | (st2, inr KeyboardInterrupt) => (advance st2 0 [EvLog Warning MsgUserAbort], inl false)
  | (st2, inr PyException) => (advance st2 0 [EvLog Error MsgDownloadError], inl false)
  | (st2, inr (SystemExit c)) => (st2, inr (SystemExit c))
  end.

Lemma advance_0_one st e :
  advance st 0 [e] =
  mkState (requests_made st) (temp_exists st) (temp_files st) (out_files st)
          (trace st ++ [e]).
Proof. unfold advance. rewrite Nat.add_0_r. reflexivity. Qed.

Lemma download_edition_run site d outer st :
  out_files st !! canonical_output d = None ->
  download_edition site d outer st =
  match get_page_info site (old_cover_url d) (new_cover_url d) st with
  | (st1, inl (total_pages, is_new)) => after_locate site d outer total_pages is_new st1
  | (st1, inr e) => (st1, inr e)
  end.
Proof.
  intros Hnone. unfold download_edition, output_exists.
  fold (canonical_output d) (old_cover_url d) (new_cover_url d).
  rewrite run_bind.
  assert (bool_decide (is_Some (out_files st !! canonical_output d)) = false) as ->.
  { apply bool_decide_eq_false_2. rewrite Hnone. intros [x Hx]. discriminate. }
  rewrite run_bind.
  destruct (get_page_info site (old_cover_url d) (new_cover_url d) st)
    as [st1 [[total_pages is_new]|e]]; [|reflexivity].
  unfold after_locate, fetch_loop, try_except2. rewrite run_bind.
  unfold log at 1, emit. rewrite <- advance_0_one. rewrite run_bind.
  destruct (fetch_pages site (Z.to_nat total_pages) 1 0 (strftime_Y_m_slash_d d)
              (strftime_Ymd d) (strftime_Ym_slash_d d) is_new outer
              (advance st1 0 [EvLog Info (MsgDetected total_pages is_new)]))
    as [st2 [success|[| |c]]].
  - destruct (success <? total_pages); [|reflexivity].
    unfold_monad. rewrite <- advance_0_one. reflexivity.
  - unfold_monad. rewrite <- advance_0_one. reflexivity.
  - unfold_monad. rewrite <- advance_0_one. reflexivity.
  - reflexivity.
Qed.

(** ** Frame: code that never writes to the download directory *)

Definition keeps_outputs {A} (m : M A) : Prop :=
  forall st, out_files (fst (m st)) = out_files st.

Create HintDb frame.

Lemma keeps_ret {A} (a : A) : keeps_outputs (mret a : M A).
Proof. intros st. reflexivity. Qed.

Lemma keeps_raise {A} (e : exn) : keeps_outputs (raise e : M A).
Proof. intros st. reflexivity. Qed.

Lemma keeps_emit (e : Event) : keeps_outputs (emit e).
Proof. intros st. reflexivity. Qed.

Lemma keeps_log lvl m : keeps_outputs (log lvl m).
Proof. apply keeps_emit. Qed.

Lemma keeps_sleep s : keeps_outputs (sleep s).
Proof. apply keeps_emit. Qed.

Lemma keeps_bind {A B} (m : M A) (f : A -> M B) :
  keeps_outputs m -> (forall a, keeps_outputs (f a)) -> keeps_outputs (m ≫= f).
Proof.
  intros Hm Hf st. rewrite run_bind. specialize (Hm st).
  destruct (m st) as [st1 [a|e]]; simpl in *; [|exact Hm].
  rewrite Hf. exact Hm.
Qed.

Lemma keeps_try_except {A} (body handler : M A) :
  keeps_outputs body -> keeps_outputs handler -> keeps_outputs (try_except body handler).
Proof.
  intros Hb Hh st. unfold try_except. specialize (Hb st).
  destruct (body st) as [st1 [a|[| |c]]]; simpl in *; try exact Hb.
  rewrite Hh. exact Hb.
Qed.

Lemma keeps_try_except2 {A} (body h1 h2 : M A) :
  keeps_outputs body -> keeps_outputs h1 -> keeps_outputs h2 ->
  keeps_outputs (try_except2 body h1 h2).
Proof.
  intros Hb H1 H2 st. unfold try_except2. specialize (Hb st).
  destruct (body st) as [st1 [a|[| |c]]]; simpl in *; try exact Hb.
  - rewrite H2. exact Hb.
  - rewrite H1. exact Hb.
Qed.

Lemma keeps_requests_get site url : keeps_outputs (requests_get site url).
Proof. intros st. unfold requests_get. destruct (site _ _); reflexivity. Qed.

Lemma keeps_write_temp f b : keeps_outputs (write_temp f b).
Proof. intros st. unfold write_temp. destruct (temp_exists st); reflexivity. Qed.

Lemma keeps_getsize f : keeps_outputs (getsize f).
Proof. intros st. unfold getsize. destruct (get_file _ _); reflexivity. Qed.

Lemma keeps_raise_for_status r : keeps_outputs (raise_for_status r).
Proof. unfold raise_for_status. destruct (_ && _); [apply keeps_raise | apply keeps_ret]. Qed.

#[global] Hint Resolve keeps_ret keeps_raise keeps_emit keeps_log keeps_sleep
  keeps_requests_get keeps_write_temp keeps_getsize keeps_raise_for_status : frame.
#[global] Hint Resolve keeps_bind keeps_try_except keeps_try_except2 : frame.

Ltac frame_step :=
  first [ apply keeps_bind; [|intros ?]
        | apply keeps_try_except
        | apply keeps_try_except2
        | solve [auto with frame] ].

Lemma keeps_save_body f b : keeps_outputs (save_body f b).
Proof. destruct b as [c|[c|]]; simpl; repeat frame_step. Qed.

Lemma keeps_download_pdf_attempt site retry url f :
  keeps_outputs (download_pdf_attempt site retry url f).
Proof.
  unfold download_pdf_attempt. repeat frame_step.
  - destruct (negb _); repeat frame_step.
    + apply keeps_save_body.
    + destruct (1024 <=? _); auto with frame.
Qed.

Lemma keeps_download_pdf_loop site turns : forall retry url f,
  keeps_outputs (download_pdf_loop site turns retry url f).
Proof.
  induction turns as [|t IH]; intros retry url f; simpl; [auto with frame|].
  apply keeps_bind; [apply keeps_download_pdf_attempt|].
  intros [b|]; [auto with frame | apply IH].
Qed.

Lemma keeps_safe_request site url : keeps_outputs (safe_request site url).
Proof.
  intros st. unfold safe_request. rewrite safe_request_loop_run.
  destruct (request_story _ _ _ _). reflexivity.
Qed.

Lemma keeps_get_page_info site o n : keeps_outputs (get_page_info site o n).
Proof.
  unfold get_page_info. apply keeps_bind; [apply keeps_safe_request|].
  intros r. destruct (match r with Some _ => _ | None => _ end); [auto with frame|].
  apply keeps_bind; [apply keeps_safe_request|].
  intros [r2|]; repeat frame_step.
Qed.

Lemma keeps_fetch_pages site turns : forall page success o f n is_new outer,
  keeps_outputs (fetch_pages site turns page success o f n is_new outer).
Proof.
  induction turns as [|t IH]; intros; simpl; [auto with frame|].
  apply keeps_bind; [destruct (cancel_requested outer); auto with frame|].
  intros _. apply keeps_bind; [|intros got; apply IH].
  destruct is_new; [|apply keeps_download_pdf_loop].
  apply keeps_bind; [apply keeps_safe_request|].
  intros [r|]; [|auto with frame].
  destruct (first_attachment _); [apply keeps_download_pdf_loop | repeat frame_step].
Qed.

Lemma keeps_download_edition site d outer : keeps_outputs (download_edition site d outer).
Proof.
  unfold download_edition. apply keeps_bind; [intros st; reflexivity|].
  intros [|]; [repeat frame_step|].
  apply keeps_bind; [apply keeps_get_page_info|].
  intros [total is_new]. apply keeps_bind; [auto with frame|]. intros _.
  apply keeps_try_except2; [|repeat frame_step..].
  apply keeps_bind; [apply keeps_fetch_pages|].
  intros success. destruct (success <? total); repeat frame_step.
Qed.

(** ** Partial downloads *)

(** The state [download_edition] starts from: in single-date mode, after
    [init_environment] and the log line naming the date; in batch mode, after
    the [init_environment] of the turn. *)
Definition ready_single (st0 : State) : State :=
  mkState (requests_made st0) true [] (out_files st0)
          (trace st0 ++ [EvLog Info MsgTarget]).

Definition ready_batch (st0 : State) : State :=
  mkState (requests_made st0) true [] (out_files st0) (trace st0).

(** C1, as amended: when the fetch loop of an edition ends with fewer
    successful pages than the detected page count, [download_edition] logs
    the shortfall as a warning and returns [False]; the caller then does not
    run the merge (whatever the merge is): the single-date run goes straight
    to removing the workspace, the batch turn logs the date as incomplete and
    removes the workspace, and the download directory is left as it was. *)
Theorem partial_download_is_not_merged
        (site : World) (d : date) (outer : option Outer) (st st1 st2 : State)
        (total_pages success : Z) (is_new : bool) :
  out_files st !! canonical_output d = None ->
  get_page_info site (old_cover_url d) (new_cover_url d) st
  = (st1, inl (total_pages, is_new)) ->
  fetch_loop site d total_pages is_new outer
             (advance st1 0 [EvLog Info (MsgDetected total_pages is_new)])
  = (st2, inl success) ->
  success < total_pages ->
  download_edition site d outer st
  = (advance st2 0 [EvLog Warning (MsgPartial success total_pages)], inl false) /\
  (forall merge st0, st = ready_single st0 -> outer = None ->
     main_single site merge d st0 =
     (mkState (requests_made st2) false [] (out_files st0)
              (trace st2 ++ [EvLog Warning (MsgPartial success total_pages);
                             EvRmtree; EvLog Info MsgDone]), inl tt)) /\
  (forall merge st0 o, st = ready_batch st0 -> outer = Some o ->
     batch_iteration site merge o d st0 =
     (mkState (requests_made st2) false [] (out_files st0)
              (trace st2 ++ [EvLog Warning (MsgPartial success total_pages);
                             EvLog Warning MsgIncomplete; EvRmtree]), inl tt)).
Proof.
  intros Hnone Hloc Hloop Hlt.
  assert (Hdl : download_edition site d outer st
                = (advance st2 0 [EvLog Warning (MsgPartial success total_pages)],
                   inl false)).
  { rewrite download_edition_run by exact Hnone. rewrite Hloc.
    unfold after_locate. rewrite Hloop.
    apply Z.ltb_lt in Hlt. rewrite Hlt. reflexivity. }
  assert (Hout : out_files st2 = out_files st).
  { pose proof (keeps_download_edition site d outer st) as H.
    rewrite Hdl in H. exact H. }
  split; [exact Hdl|]. split.
  - intros merge st0 -> ->.
    unfold main_single, main_handlers, try_except2, init_environment.
    rewrite run_bind. cbn match. rewrite run_bind.
    unfold log at 1, emit. cbn [requests_made temp_exists temp_files out_files trace].
    fold (ready_single st0). rewrite run_bind, Hdl.
    unfold when, rmtree_temp. unfold_monad. unfold advance. simpl.
    rewrite Hout, <- !app_assoc. simpl. rewrite Nat.add_0_r. reflexivity.
  - intros merge st0 o -> ->.
    unfold batch_iteration, try_finally, try_except, init_environment.
    rewrite run_bind. cbn match. fold (ready_batch st0). rewrite run_bind, Hdl.
    unfold rmtree_temp. unfold_monad. unfold advance. simpl.
    rewrite Hout, <- !app_assoc. simpl. rewrite Nat.add_0_r. reflexivity.
Qed.

(** A legacy edition of two pages for 2024-01-01 whose second page is
    missing: the current cover answers 404, the legacy cover carries two
    markers, page 1 is a readable PDF of 2048 bytes, and every other URL
    answers 404. *)
Definition site_one_of_two : World := fun _ url =>
  if String.eqb url (old_cover_url new_year_2024) then answer_html "nbs nbs"
  else if String.eqb url
            "http://paper.people.com.cn/rmrb/images/2024-01/01/rmrb2024010101.pdf"
       then answer_pdf (mkBlob 2048 true)
       else answer_status 404.

Definition is_merge_event (e : Event) : bool :=
  match e with
  | EvAppendPdf _ | EvSaveOutput _ => true
  | _ => false
  end.

Lemma partial_download_witness :
  snd (main_single site_one_of_two merge_pdfs new_year_2024 initial_state) = inl tt /\
  out_files (fst (main_single site_one_of_two merge_pdfs new_year_2024 initial_state))
  = out_files initial_state.
Proof.
  pose (st := ready_single initial_state).
  pose (loc := get_page_info site_one_of_two (old_cover_url new_year_2024)
                             (new_cover_url new_year_2024) st).
  pose (lp := fetch_loop site_one_of_two new_year_2024 2 false None
                         (advance (fst loc) 0 [EvLog Info (MsgDetected 2 false)])).
  destruct (partial_download_is_not_merged
              site_one_of_two new_year_2024 None st (fst loc) (fst lp) 2 1 false)
    as [_ [Hsingle _]].
  - reflexivity.
  - vm_compute. reflexivity.
  - vm_compute. reflexivity.
  - lia.
  - rewrite (Hsingle merge_pdfs initial_state eq_refl eq_refl).
    split; reflexivity.
Defined.

(** C1, counterexample: one page of two is downloaded, the assembly of the
    workspace as the download left it would succeed, and yet the run appends
    no page, saves nothing and leaves the download directory empty. *)
Lemma partial_download_never_assembled :
  let dl := download_edition site_one_of_two new_year_2024 None
                             (ready_single initial_state) in
  let run := main_single site_one_of_two merge_pdfs new_year_2024 initial_state in
  snd dl = inl false /\
  temp_files (fst dl) = [("rmrb2024010101.pdf", mkBlob 2048 true)] /\
  In (EvLog Warning (MsgPartial 1 2)) (trace (fst run)) /\
  snd (merge_pdfs (fst dl)) = inl true /\
  List.filter is_merge_event (trace (fst run)) = [] /\
  out_files (fst run) = ∅.
Proof.
  vm_compute. repeat split. do 15 right. left. reflexivity.
Qed.

(** ** An edition of zero pages *)

Lemma safe_request_advances site url st :
  exists k evs, fst (safe_request site url st) = advance st k evs.
Proof.
  unfold safe_request. rewrite safe_request_loop_run.
  destruct (request_story _ _ _ _) as [evs res]. eauto.
Qed.

Lemma get_page_info_advances site o n st :
  exists k evs, fst (get_page_info site o n st) = advance st k evs.
Proof.
  rewrite get_page_info_run.
  destruct (safe_request_advances site n st) as (k1 & e1 & H1).
  destruct (safe_request site n st) as [st1 res1]. simpl in H1. subst st1.
  assert (Hleg : exists k evs,
             fst (legacy_probe site o (advance st k1 e1)) = advance st k evs).
  { unfold legacy_probe.
    destruct (safe_request_advances site o (advance st k1 e1)) as (k2 & e2 & H2).
    destruct (safe_request site o (advance st k1 e1)) as [st2 res2].
    simpl in H2. subst st2.
    destruct res2 as [[r|]|e]; simpl; rewrite ?advance_advance; eauto. }
  destruct res1 as [[r|]|e]; [destruct (0 <? page_links r)| |]; simpl; eauto.
Qed.

(** C10: when the locator reports zero pages (a reachable legacy cover
    without a marker), the fetch loop does nothing, [download_edition]
    returns [True] with no page requested, and the merge that follows finds
    no file, logs the error and returns [False]: the run ends normally with
    the download directory as it was, so the date has no output. *)
Theorem zero_pages_success_without_output
        (site : World) (d : date) (outer : option Outer) (st st1 : State) :
  out_files st !! canonical_output d = None ->
  get_page_info site (old_cover_url d) (new_cover_url d) st = (st1, inl (0, false)) ->
  (forall s, fetch_loop site d 0 false outer s = (s, inl 0)) /\
  download_edition site d outer st
  = (advance st1 0 [EvLog Info (MsgDetected 0 false)], inl true) /\
  (forall merge st0, merge = merge_pdfs \/ merge = merge_pdfs_pypdf2 ->
     st = ready_single st0 -> outer = None ->
     main_single site merge d st0 =
     (mkState (requests_made st1) false [] (out_files st0)
              (trace st1 ++ [EvLog Info (MsgDetected 0 false);
                             EvLog Error MsgNoFiles; EvLog Error MsgMergeFailed;
                             EvRmtree; EvLog Info MsgDone]), inl tt)).
Proof.
  intros Hnone Hloc.
  assert (Hdl : download_edition site d outer st
                = (advance st1 0 [EvLog Info (MsgDetected 0 false)], inl true)).
  { rewrite download_edition_run by exact Hnone. rewrite Hloc. reflexivity. }
  split; [intros s; reflexivity|]. split; [exact Hdl|].
  intros merge st0 Hmerge -> ->.
  destruct (get_page_info_advances site (old_cover_url d) (new_cover_url d)
                                   (ready_single st0)) as (k & evs & Hadv).
  rewrite Hloc in Hadv. simpl in Hadv. subst st1.
  unfold main_single, main_handlers, try_except2, init_environment.
  rewrite run_bind. cbn match. rewrite run_bind.
  unfold log at 1, emit. cbn [requests_made temp_exists temp_files out_files trace].
  fold (ready_single st0). rewrite run_bind, Hdl.
  destruct Hmerge as [-> | ->];
    unfold when, merge_pdfs, merge_pdfs_pypdf2, sorted_pdf_files, listdir,
           rmtree_temp; unfold_monad; unfold advance; simpl;
    rewrite <- !app_assoc; simpl; rewrite Nat.add_0_r; reflexivity.
Qed.

(** An edition whose legacy cover is reachable but carries no marker. *)
Definition site_without_markers : World := fun _ url =>
  if String.eqb url (old_cover_url new_year_2024) then answer_html "<html></html>"
  else answer_status 404.

Lemma zero_pages_witness :
  snd (download_edition site_without_markers new_year_2024 None
                        (ready_single initial_state)) = inl true /\
  out_files (fst (main_single site_without_markers merge_pdfs new_year_2024
                              initial_state)) = ∅.
Proof.
  pose (st := ready_single initial_state).
  pose (loc := get_page_info site_without_markers (old_cover_url new_year_2024)
                             (new_cover_url new_year_2024) st).
  destruct (zero_pages_success_without_output
              site_without_markers new_year_2024 None st (fst loc))
    as [_ [Hdl Hrun]].
  - reflexivity.
  - vm_compute. reflexivity.
  - split.
    + fold st. rewrite Hdl. reflexivity.
    + rewrite (Hrun merge_pdfs initial_state (or_introl eq_refl) eq_refl eq_refl).
      reflexivity.
Defined.

(** ** [merge_pdfs] *)

(** The loop over the sorted files, told from the content of the workspace:
    its events and its result. *)
Fixpoint assemble (files : list (string * Blob)) (names : list string) (doc : Doc)
  : list Event * (option Doc + exn) :=
  match names with
  | [] => ([], inl (Some doc))
  | f :: rest =>
      match get_file f files with
      | None => ([], inr PyException)
      | Some b =>
          if blob_size b <? 1024 then
            let '(evs, res) := assemble files rest doc in
            (EvLog Warning (MsgSkipInvalid f) :: evs, res)
          else if blob_readable b then
            let '(evs, res) := assemble files rest (doc ++ [f])%list in
            (EvAppendPdf f :: evs, res)
          else ([EvLog Error (MsgFileMergeFailed f)], inl None)
      end
  end.

Lemma insert_pages_run names : forall doc st,
  insert_pages names doc st =
  let '(evs, res) := assemble (temp_files st) names doc in
  (advance st 0 evs, res).
Proof.
  induction names as [|f rest IH]; intros doc st.
  - simpl. rewrite run_ret, advance_0_nil. reflexivity.
  - cbn [insert_pages assemble]. rewrite run_bind. unfold getsize.
    destruct (get_file f (temp_files st)) as [b|] eqn:Ef;
      [|rewrite advance_0_nil; reflexivity].
    destruct (blob_size b <? 1024).
    + rewrite run_bind. unfold log, emit. rewrite <- advance_0_one.
      rewrite IH. cbn [temp_files advance].
      destruct (assemble (temp_files st) rest doc) as [evs res].
      rewrite advance_advance. reflexivity.
    + rewrite run_bind. unfold try_except. rewrite run_bind. unfold open_pdf.
      rewrite Ef. destruct (blob_readable b).
      * rewrite run_bind. unfold emit. rewrite <- advance_0_one. rewrite run_ret.
        rewrite IH. cbn [temp_files advance].
        destruct (assemble (temp_files st) rest (doc ++ [f])%list) as [evs res].
        rewrite advance_advance. reflexivity.
      * rewrite run_bind. unfold log, emit. rewrite <- advance_0_one.
        rewrite !run_ret. reflexivity.
Qed.

(** The files the assembly goes through, in order. *)
Definition merge_order (listing : list string) : option (list string) :=
  option_map (fun keyed => map snd (sort_keyed keyed))
             (with_keys (List.filter (PyStr.ends_with ".pdf") listing)).

Definition listing (st : State) : list string := map fst (temp_files st).

Lemma sorted_pdf_files_run st :
  temp_exists st = true ->
  sorted_pdf_files st =
  match merge_order (listing st) with
  | Some names => (st, inl names)
  | None => (st, inr PyException)
  end.
Proof.
  intros Hex. unfold sorted_pdf_files, listdir, merge_order, listing.
  rewrite run_bind, Hex.
  destruct (with_keys _); reflexivity.
Qed.

(** What a merge does to a workspace holding [files]: the events, the
    document saved (name and content) if any, and the result. *)
Definition merge_story (files : list (string * Blob))
  : list Event * option (string * Doc) * (bool + exn) :=
  match merge_order (map fst files) with
  | None => ([EvLog Critical MsgMergeCrashed], None, inl false)
  | Some [] => ([EvLog Error MsgNoFiles], None, inl false)
  | Some (first :: rest) =>
      match assemble files (first :: rest) [] with
      | (evs, inl (Some [])) =>
          ((evs ++ [EvLog Critical MsgMergeCrashed])%list, None, inl false)
      | (evs, inl (Some (p :: doc))) =>
          let name := output_name (PyStr.slice 4 12 first) in
          ((evs ++ [EvSaveOutput name; EvLog Info (MsgMerged name)])%list,
           Some (name, p :: doc), inl true)
      | (evs, inl None) => (evs, None, inl false)
      | (evs, inr PyException) =>
          ((evs ++ [EvLog Critical MsgMergeCrashed])%list, None, inl false)
      | (evs, inr e) => (evs, None, inr e)
      end
  end.

Definition merge_story_pypdf2 (files : list (string * Blob))
  : list Event * option (string * Doc) * (bool + exn) :=
  match merge_order (map fst files) with
  | None => ([EvLog Critical MsgMergeCrashed], None, inl false)
  | Some [] => ([EvLog Error MsgNoFiles], None, inl false)
  | Some (first :: rest) =>
      match assemble files (first :: rest) [] with
      | (evs, inl (Some [])) =>
          ((evs ++ [EvLog Error MsgNoValidFiles])%list, None, inl false)
      | (evs, inl (Some (p :: doc))) =>
          let name := output_name (PyStr.slice 4 12 p) in
          ((evs ++ [EvSaveOutput name; EvLog Info (MsgMerged name)])%list,
           Some (name, p :: doc), inl true)
      | (evs, inl None) => (evs, None, inl false)
      | (evs, inr PyException) =>
          ((evs ++ [EvLog Critical MsgMergeCrashed])%list, None, inl false)
      | (evs, inr e) => (evs, None, inr e)
      end
  end.

(** The state after a merge told by [story]. *)
Definition after_merge {R} (st : State)
           (story : list Event * option (string * Doc) * R) : State * R :=
  let '(evs, saved, res) := story in
  (mkState (requests_made st) (temp_exists st) (temp_files st)
           (match saved with
            | Some (name, doc) => <[name := doc]> (out_files st)
            | None => out_files st
            end)
           (trace st ++ evs), res).

Lemma merge_pdfs_run st :
  temp_exists st = true ->
  merge_pdfs st = after_merge st (merge_story (temp_files st)).
Proof.
  intros Hex. unfold merge_pdfs, merge_story, try_except.
  rewrite run_bind, (sorted_pdf_files_run _ Hex). fold (listing st).
  destruct (merge_order (listing st)) as [[|first rest]|]; try reflexivity.
  rewrite run_bind, insert_pages_run.
  destruct (assemble (temp_files st) (first :: rest) []) as [evs [[[|p doc]|]|[| |c]]];
    unfold after_merge, advance, fitz_save, write_output; unfold_monad; simpl;
    rewrite ?Nat.add_0_r, <- ?app_assoc; reflexivity.
Qed.

Lemma merge_pdfs_pypdf2_run st :
  temp_exists st = true ->
  merge_pdfs_pypdf2 st = after_merge st (merge_story_pypdf2 (temp_files st)).
Proof.
  intros Hex. unfold merge_pdfs_pypdf2, merge_story_pypdf2, try_except.
  rewrite run_bind, (sorted_pdf_files_run _ Hex). fold (listing st).
  destruct (merge_order (listing st)) as [[|first rest]|]; try reflexivity.
  rewrite run_bind, insert_pages_run.
  destruct (assemble (temp_files st) (first :: rest) []) as [evs [[[|p doc]|]|[| |c]]];
    unfold after_merge, advance, write_output; unfold_monad; simpl;
    rewrite ?Nat.add_0_r, <- ?app_assoc; reflexivity.
Qed.

(** ** The page order *)

Section PageOrder.

Definition key_le (a b : Z * string) : Prop := fst a <= fst b.
Definition key_lt (a b : Z * string) : Prop := fst a < fst b.

Lemma insert_keyed_perm x l : Permutation (insert_keyed x l) (x :: l).
Proof.
  induction l as [|y l IH]; simpl; [reflexivity|].
  destruct (fst x <=? fst y); [reflexivity|].
  rewrite IH. apply perm_swap.
Qed.

Lemma sort_keyed_perm l : Permutation (sort_keyed l) l.
Proof.
  induction l as [|x l IH]; simpl; [reflexivity|].
  rewrite insert_keyed_perm, IH. reflexivity.
Qed.

Lemma insert_keyed_sorted x l :
  StronglySorted key_le l -> StronglySorted key_le (insert_keyed x l).
Proof.
  induction 1 as [|y l Hs IH Hall]; simpl; [repeat constructor|].
  destruct (fst x <=? fst y) eqn:E.
  - apply Z.leb_le in E. constructor; [constructor; assumption|].
    constructor; [exact E|].
    eapply List.Forall_impl; [|exact Hall]. intros z Hz. unfold key_le in *. lia.
  - apply Z.leb_gt in E. constructor; [exact IH|].
    eapply Permutation_Forall; [symmetry; apply insert_keyed_perm|].
    constructor; [unfold key_le; lia | exact Hall].
Qed.

Lemma sort_keyed_sorted l : StronglySorted key_le (sort_keyed l).
Proof.
  induction l as [|x l IH]; simpl; [constructor|].
  apply insert_keyed_sorted, IH.
Qed.

(** Without ties there is one sorted arrangement. *)
Lemma strictly_sorted_unique (l1 : list (Z * string)) : forall l2,
  StronglySorted key_lt l1 -> StronglySorted key_lt l2 ->
  Permutation l1 l2 -> l1 = l2.
Proof.
  induction l1 as [|a l1 IH]; intros l2 H1 H2 Hp.
  - apply Permutation_nil in Hp. subst. reflexivity.
  - destruct l2 as [|b l2]; [apply Permutation_sym, Permutation_nil in Hp; discriminate|].
    inversion H1 as [|? ? Hs1 Ha]; subst. inversion H2 as [|? ? Hs2 Hb]; subst.
    assert (a = b) as <-.
    { assert (Hin_a : In a (b :: l2)).
      { eapply Permutation_in; [exact Hp | left; reflexivity]. }
      assert (Hin_b : In b (a :: l1)).
      { eapply Permutation_in; [symmetry; exact Hp | left; reflexivity]. }
      destruct Hin_a as [->|Hin_a]; [reflexivity|].
      destruct Hin_b as [->|Hin_b]; [reflexivity|].
      rewrite List.Forall_forall in Ha, Hb.
      specialize (Ha _ Hin_b). specialize (Hb _ Hin_a).
      unfold key_lt in *. lia. }
    f_equal. apply IH; [assumption..|].
    eapply Permutation_cons_inv; exact Hp.
Qed.

Lemma sorted_nodup_strict (l : list (Z * string)) :
  StronglySorted key_le l -> List.NoDup (map fst l) -> StronglySorted key_lt l.
Proof.
  induction 1 as [|a l Hs IH Hall]; intros Hnd; [constructor|].
  simpl in Hnd. inversion Hnd as [|? ? Hnotin Hnd']; subst.
  constructor; [apply IH; exact Hnd'|].
  rewrite List.Forall_forall in *. intros b Hb.
  specialize (Hall b Hb). unfold key_le, key_lt in *.
  assert (fst a <> fst b).
  { intros Heq. apply Hnotin. rewrite Heq. apply List.in_map. exact Hb. }
  lia.
Qed.

Lemma sort_keyed_order_free l1 l2 :
  Permutation l1 l2 -> List.NoDup (map fst l1) -> sort_keyed l1 = sort_keyed l2.
Proof.
  intros Hp Hnd.
  assert (Hp12 : Permutation (sort_keyed l1) (sort_keyed l2)).
  { rewrite !sort_keyed_perm. exact Hp. }
  apply strictly_sorted_unique; [| |exact Hp12].
  - apply sorted_nodup_strict; [apply sort_keyed_sorted|].
    eapply Permutation_NoDup; [|exact Hnd].
    apply Permutation_map. symmetry. apply sort_keyed_perm.
  - apply sorted_nodup_strict; [apply sort_keyed_sorted|].
    eapply Permutation_NoDup; [|exact Hnd].
    apply Permutation_map. rewrite sort_keyed_perm. exact Hp.
Qed.

End PageOrder.

(** A file name with its sort key (used on names whose key exists). *)
Definition keyed (f : string) : Z * string := (default 0 (page_key f), f).

(** [f] comes no later than [g] in page order. *)
Definition page_le (f g : string) : Prop :=
  exists a b, page_key f = Some a /\ page_key g = Some b /\ a <= b.

Definition is_pdf_name : string -> bool := PyStr.ends_with ".pdf".

Lemma with_keys_Some l : forall ks,
  with_keys l = Some ks ->
  ks = map keyed l /\ List.Forall (fun f => page_key f = Some (fst (keyed f))) l.
Proof.
  induction l as [|f l IH]; intros ks H; simpl in H.
  - injection H as <-. split; [reflexivity | constructor].
  - destruct (page_key f) as [k|] eqn:Ek; [|discriminate].
    destruct (with_keys l) as [ks'|]; [|discriminate].
    injection H as <-. destruct (IH ks' eq_refl) as [-> Hall].
    split; [cbn [map]; f_equal; unfold keyed; rewrite Ek; reflexivity|].
    constructor; [unfold keyed; rewrite Ek; reflexivity | exact Hall].
Qed.

Lemma with_keys_all l :
  List.Forall (fun f => page_key f = Some (fst (keyed f))) l ->
  with_keys l = Some (map keyed l).
Proof.
  induction 1 as [|f l Hf Hall IH]; simpl; [reflexivity|].
  rewrite IH. unfold keyed at 2. destruct (page_key f); [reflexivity | discriminate].
Qed.

Lemma filter_perm {A} (p : A -> bool) (l l' : list A) :
  Permutation l l' -> Permutation (List.filter p l) (List.filter p l').
Proof.
  induction 1 as [|x l l' Hp IH|x y l|l l' l'' H1 IH1 H2 IH2]; simpl.
  - reflexivity.
  - destruct (p x); [constructor|]; exact IH.
  - destruct (p x), (p y); try reflexivity. apply perm_swap.
  - etransitivity; eassumption.
Qed.

Lemma sorted_map_snd (l : list (Z * string)) :
  List.Forall (fun x => page_key (snd x) = Some (fst x)) l ->
  StronglySorted key_le l -> StronglySorted page_le (map snd l).
Proof.
  intros Hkeys Hs. induction Hs as [|x l Hs IH Hall]; simpl; [constructor|].
  inversion Hkeys as [|? ? Hx Hl]; subst.
  constructor; [apply IH; exact Hl|].
  rewrite List.Forall_forall in *. intros g Hg.
  apply List.in_map_iff in Hg as (y & <- & Hy).
  exists (fst x), (fst y). split; [exact Hx|]. split; [apply Hl; exact Hy|].
  apply Hall. exact Hy.
Qed.

Lemma merge_order_perm names order :
  merge_order names = Some order ->
  Permutation order (List.filter is_pdf_name names).
Proof.
  unfold merge_order. fold is_pdf_name.
  destruct (with_keys (List.filter is_pdf_name names)) as [ks|] eqn:E; [|discriminate].
  intros [= <-]. destruct (with_keys_Some _ _ E) as [-> _].
  rewrite sort_keyed_perm. rewrite List.map_map. simpl. rewrite List.map_id.
  reflexivity.
Qed.

Lemma merge_order_sorted names order :
  merge_order names = Some order -> StronglySorted page_le order.
Proof.
  unfold merge_order. fold is_pdf_name.
  destruct (with_keys (List.filter is_pdf_name names)) as [ks|] eqn:E; [|discriminate].
  intros [= <-]. destruct (with_keys_Some _ _ E) as [-> Hall].
  apply sorted_map_snd; [|apply sort_keyed_sorted].
  eapply Permutation_Forall; [symmetry; apply sort_keyed_perm|].
  rewrite List.Forall_forall in *. intros x Hx.
  apply List.in_map_iff in Hx as (f & <- & Hf). simpl. apply Hall. exact Hf.
Qed.

Lemma merge_order_any_listing names names' order :
  Permutation names names' ->
  List.NoDup (map page_key (List.filter is_pdf_name names)) ->
  merge_order names = Some order -> merge_order names' = Some order.
Proof.
  unfold merge_order. fold is_pdf_name. intros Hp Hnd.
  destruct (with_keys (List.filter is_pdf_name names)) as [ks|] eqn:E; [|discriminate].
  intros [= <-]. destruct (with_keys_Some _ _ E) as [-> Hall].
  assert (Hpf : Permutation (List.filter is_pdf_name names)
                            (List.filter is_pdf_name names'))
    by (apply filter_perm; exact Hp).
  rewrite (with_keys_all (List.filter is_pdf_name names'))
    by (eapply Permutation_Forall; [exact Hpf | exact Hall]).
  simpl. do 2 f_equal. symmetry. apply sort_keyed_order_free.
  - apply Permutation_map. exact Hpf.
  - rewrite List.map_map.
    assert (Hmap : map (fun f => fst (keyed f)) (List.filter is_pdf_name names)
                   = map (default 0) (map page_key (List.filter is_pdf_name names))).
    { rewrite List.map_map. reflexivity. }
    rewrite Hmap. clear Hmap.
    revert Hall Hnd. generalize (List.filter is_pdf_name names) as l.
    induction l as [|f l IH]; intros Hall Hnd; simpl; [constructor|].
    inversion Hall as [|? ? Hf Hl]; subst. simpl in Hnd.
    inversion Hnd as [|? ? Hnotin Hnd']; subst.
    constructor; [|apply IH; assumption].
    intros Hin. apply Hnotin. apply List.in_map_iff in Hin as (o & Ho & Hino).
    apply List.in_map_iff in Hino as (g & <- & Hg).
    rewrite List.Forall_forall in Hl. specialize (Hl g Hg).
    apply List.in_map_iff. exists g. split; [|exact Hg].
    rewrite Hl, Hf. unfold keyed in *. simpl in *. rewrite Hl in Ho. simpl in Ho.
    rewrite Hf. simpl. f_equal. rewrite Hf in *. simpl in *. exact Ho.
Qed.

(** ** The assembly loop *)

(** A file of at least 1 KB. *)
Definition big (files : list (string * Blob)) (f : string) : bool :=
  match get_file f files with
  | Some b => 1024 <=? blob_size b
  | None => false
  end.

(** A file that does not stop the assembly: under 1 KB, or readable. *)
Definition sound (files : list (string * Blob)) (f : string) : bool :=
  match get_file f files with
  | Some b => (blob_size b <? 1024) || blob_readable b
  | None => false
  end.

Definition listed (files : list (string * Blob)) (f : string) : Prop :=
  is_Some (get_file f files).

(** The file an event of the loop is about. *)
Definition file_of (e : Event) : option string :=
  match e with
  | EvLog Warning (MsgSkipInvalid f) => Some f
  | EvAppendPdf f => Some f
  | EvLog Error (MsgFileMergeFailed f) => Some f
  | _ => None
  end.

Definition appended_of (e : Event) : option string :=
  match e with EvAppendPdf f => Some f | _ => None end.

Definition skipped_of (e : Event) : option string :=
  match e with EvLog Warning (MsgSkipInvalid f) => Some f | _ => None end.

Definition saved_of (e : Event) : option string :=
  match e with EvSaveOutput n => Some n | _ => None end.

Fixpoint pick (sel : Event -> option string) (evs : list Event) : list string :=
  match evs with
  | [] => []
  | e :: rest =>
      match sel e with
      | Some x => x :: pick sel rest
      | None => pick sel rest
      end
  end.

Definition processed (evs : list Event) : list string := pick file_of evs.
Definition appended (evs : list Event) : list string := pick appended_of evs.
Definition skipped (evs : list Event) : list string := pick skipped_of evs.
Definition saved (evs : list Event) : list string := pick saved_of evs.

Lemma pick_app sel e1 e2 : pick sel (e1 ++ e2) = (pick sel e1 ++ pick sel e2)%list.
Proof.
  induction e1 as [|e e1 IH]; simpl; [reflexivity|].
  destruct (sel e); simpl; rewrite IH; reflexivity.
Qed.

Definition walk_events (files : list (string * Blob)) (names : list string) : list Event :=
  map (fun f => if big files f then EvAppendPdf f else EvLog Warning (MsgSkipInvalid f))
      names.

Lemma get_file_listed files f : In f (map fst files) -> listed files f.
Proof.
  induction files as [|[n c] files IH]; simpl; [intros []|].
  intros [<-|Hin]; unfold listed; simpl.
  - rewrite String.eqb_refl. eauto.
  - destruct (String.eqb n f); [eauto | apply IH; exact Hin].
Qed.

Lemma big_of_file files f b :
  get_file f files = Some b -> big files f = (1024 <=? blob_size b).
Proof. intros H. unfold big. rewrite H. reflexivity. Qed.

Lemma assemble_sound files names : forall doc,
  forallb (sound files) names = true ->
  assemble files names doc =
  (walk_events files names, inl (Some (doc ++ List.filter (big files) names)%list)).
Proof.
  induction names as [|f rest IH]; intros doc Hs.
  - simpl. rewrite app_nil_r. reflexivity.
  - cbn [forallb] in Hs. apply andb_true_iff in Hs as [Hf Hrest].
    unfold sound in Hf.
    destruct (get_file f files) as [b|] eqn:Eg; [|discriminate].
    cbn [assemble walk_events map List.filter]. fold (walk_events files rest).
    rewrite Eg, (big_of_file _ _ _ Eg).
    destruct (blob_size b <? 1024) eqn:Esz.
    + assert ((1024 <=? blob_size b) = false) as -> by (apply Z.ltb_lt in Esz; lia).
      rewrite (IH doc Hrest). reflexivity.
    + assert ((1024 <=? blob_size b) = true) as -> by (apply Z.ltb_ge in Esz; lia).
      simpl in Hf. rewrite Hf. rewrite (IH _ Hrest). rewrite <- app_assoc. reflexivity.
Qed.

Lemma assemble_unsound files names : forall doc,
  List.Forall (listed files) names ->
  forallb (sound files) names = false ->
  snd (assemble files names doc) = inl None /\
  saved (fst (assemble files names doc)) = [].
Proof.
  induction names as [|f rest IH]; intros doc Hl Hs; simpl in *; [discriminate|].
  inversion Hl as [|? ? [b Hb] Hl']; subst.
  unfold sound in Hs at 1. rewrite Hb in *.
  destruct (blob_size b <? 1024) eqn:Esz; simpl in Hs.
  - destruct (IH doc Hl' Hs) as [H1 H2].
    destruct (assemble files rest doc) as [evs res]. simpl in *. auto.
  - destruct (blob_readable b); simpl in Hs.
    + destruct (IH (doc ++ [f])%list Hl' Hs) as [H1 H2].
      destruct (assemble files rest (doc ++ [f])%list) as [evs res]. simpl in *. auto.
    + split; reflexivity.
Qed.

Lemma assemble_prefix files names : forall doc,
  List.Forall (listed files) names ->
  processed (fst (assemble files names doc)) `prefix_of` names.
Proof.
  induction names as [|f rest IH]; intros doc Hl; simpl; [reflexivity|].
  inversion Hl as [|? ? [b Hb] Hl']; subst. rewrite Hb.
  destruct (blob_size b <? 1024).
  - specialize (IH doc Hl'). destruct (assemble files rest doc) as [evs res].
    simpl in *. apply prefix_cons. exact IH.
  - destruct (blob_readable b).
    + specialize (IH (doc ++ [f])%list Hl').
      destruct (assemble files rest (doc ++ [f])%list) as [evs res].
      simpl in *. apply prefix_cons. exact IH.
    + simpl. apply prefix_cons. apply prefix_nil.
Qed.

Lemma walk_events_processed files names : processed (walk_events files names) = names.
Proof.
  unfold processed, walk_events.
  induction names as [|f rest IH]; simpl; [reflexivity|].
  destruct (big files f); simpl; rewrite IH; reflexivity.
Qed.

Lemma walk_events_appended files names :
  appended (walk_events files names) = List.filter (big files) names.
Proof.
  unfold appended, walk_events.
  induction names as [|f rest IH]; simpl; [reflexivity|].
  destruct (big files f); simpl; rewrite IH; reflexivity.
Qed.

Lemma walk_events_skipped files names :
  skipped (walk_events files names) = List.filter (fun f => negb (big files f)) names.
Proof.
  unfold skipped, walk_events.
  induction names as [|f rest IH]; simpl; [reflexivity|].
  destruct (big files f); simpl; rewrite IH; reflexivity.
Qed.

Lemma walk_events_saved files names : saved (walk_events files names) = [].
Proof.
  unfold saved, walk_events.
  induction names as [|f rest IH]; simpl; [reflexivity|].
  destruct (big files f); simpl; exact IH.
Qed.

Lemma merge_order_listed files order :
  merge_order (map fst files) = Some order -> List.Forall (listed files) order.
Proof.
  intros Ho. apply List.Forall_forall. intros f Hf.
  apply get_file_listed.
  eapply Permutation_in in Hf; [|apply merge_order_perm; exact Ho].
  apply List.filter_In in Hf as [Hf _]. exact Hf.
Qed.

Definition story_events {R} (story : list Event * option (string * Doc) * R)
  : list Event := fst (fst story).
Definition story_saved {R} (story : list Event * option (string * Doc) * R)
  : option (string * Doc) := snd (fst story).
Definition story_result {R} (story : list Event * option (string * Doc) * R) : R :=
  snd story.

Lemma new_events_after_merge {R} st (story : list Event * option (string * Doc) * R) :
  new_events st (after_merge st story) = story_events story.
Proof.
  destruct story as [[evs sv] res]. unfold new_events, after_merge, story_events.
  cbn [fst trace]. rewrite skipn_app, Nat.sub_diag, skipn_all. reflexivity.
Qed.

(** Both scripts, in one statement. *)
Definition either_story (P : (list (string * Blob) ->
                              list Event * option (string * Doc) * (bool + exn)) -> Prop)
  : Prop := P merge_story /\ P merge_story_pypdf2.

Lemma pick_tail sel evs tail :
  pick sel tail = [] -> pick sel (evs ++ tail) = pick sel evs.
Proof. intros H. rewrite pick_app, H, app_nil_r. reflexivity. Qed.

Ltac drop_tail :=
  unfold story_events, processed, appended, skipped, saved; cbn [fst];
  rewrite ?pick_tail by reflexivity.

Lemma merge_story_walk files order :
  merge_order (map fst files) = Some order ->
  either_story (fun story =>
    processed (story_events (story files)) `prefix_of` order /\
    (forallb (sound files) order = true ->
     processed (story_events (story files)) = order /\
     appended (story_events (story files)) = List.filter (big files) order /\
     skipped (story_events (story files))
     = List.filter (fun f => negb (big files f)) order)).
Proof.
  intros Ho. pose proof (merge_order_listed _ _ Ho) as Hl.
  unfold either_story, merge_story, merge_story_pypdf2. rewrite Ho.
  destruct order as [|first rest].
  { split; (split; [apply prefix_nil | intros _; repeat split]). }
  cbn match.
  pose proof (assemble_prefix files (first :: rest) [] Hl) as Hpre.
  pose proof (assemble_sound files (first :: rest) []) as Hsound.
  set (names := first :: rest) in *.
  destruct (assemble files names []) as [evs res].
  cbn [fst] in Hpre.
  assert (Hgo : forallb (sound files) names = true ->
                evs = walk_events files names /\
                res = inl (Some (List.filter (big files) names))).
  { intros Hs. specialize (Hsound Hs). injection Hsound as -> ->. split; reflexivity. }
  split.
  - split.
    + destruct res as [[[|p doc]|]|[| |c]]; drop_tail; exact Hpre.
    + intros Hs. destruct (Hgo Hs) as [-> ->].
      destruct (List.filter (big files) names) eqn:Ef; drop_tail;
        fold (processed (walk_events files names));
        fold (appended (walk_events files names));
        fold (skipped (walk_events files names));
        rewrite walk_events_processed, walk_events_appended, walk_events_skipped, ?Ef;
        repeat split.
  - split.
    + destruct res as [[[|p doc]|]|[| |c]]; drop_tail; exact Hpre.
    + intros Hs. destruct (Hgo Hs) as [-> ->].
      destruct (List.filter (big files) names) eqn:Ef; drop_tail;
        fold (processed (walk_events files names));
        fold (appended (walk_events files names));
        fold (skipped (walk_events files names));
        rewrite walk_events_processed, walk_events_appended, walk_events_skipped, ?Ef;
        repeat split.
Qed.

(** A workspace holding [files], in the enumeration order of the list. *)
Definition workspace (files : list (string * Blob)) : State :=
  mkState 0 true files ∅ [].

Definition good_page : Blob := mkBlob 2048 true.
Definition stub_page : Blob := mkBlob 100 true.
Definition torn_page : Blob := mkBlob 2048 false.

Definition pages_07_02_10 : list (string * Blob) :=
  [("rmrb2024010107.pdf", good_page); ("rmrb2024010102.pdf", good_page);
   ("rmrb2024010110.pdf", good_page)].

Definition pages_with_stub : list (string * Blob) :=
  [("rmrb2024010107.pdf", good_page); ("rmrb2024010102.pdf", stub_page);
   ("rmrb2024010110.pdf", good_page)].

Ltac each_permutation H :=
  apply permutations_Permutation in H;
  match type of H with
  | _ ∈ permutations ?l =>
      let ps := eval vm_compute in (permutations l) in
      change (permutations l) with ps in H
  end;
  repeat (apply elem_of_cons in H as [->|H]);
  [..|apply elem_of_nil in H; destruct H].

(** C9: the assembly goes through the .pdf files of the workspace in
    ascending order of the integer read from the two characters before
    ".pdf", whatever the order in which the directory lists them; a file
    under 1 KB is skipped with a warning and the loop goes on with the next
    file.  In particular pages 07, 02, 10 are merged as 02, 07, 10 under
    every enumeration order, and an undersized page 02 among them is skipped
    while 07 and 10 are still merged. *)
Theorem merge_follows_page_order :
  (forall (st : State) (order : list string),
     temp_exists st = true ->
     merge_order (listing st) = Some order ->
     (Permutation order (List.filter is_pdf_name (listing st)) /\
      StronglySorted page_le order) /\
     (forall names',
        Permutation (listing st) names' ->
        List.NoDup (map page_key (List.filter is_pdf_name (listing st))) ->
        merge_order names' = Some order) /\
     (forall merge, merge = merge_pdfs \/ merge = merge_pdfs_pypdf2 ->
        processed (new_events st (merge st)) `prefix_of` order /\
        (forallb (sound (temp_files st)) order = true ->
         processed (new_events st (merge st)) = order /\
         appended (new_events st (merge st))
         = List.filter (big (temp_files st)) order /\
         skipped (new_events st (merge st))
         = List.filter (fun f => negb (big (temp_files st) f)) order))) /\
  (forall files merge,
     Permutation pages_07_02_10 files ->
     merge = merge_pdfs \/ merge = merge_pdfs_pypdf2 ->
     snd (merge (workspace files)) = inl true /\
     processed (new_events (workspace files) (merge (workspace files)))
     = ["rmrb2024010102.pdf"; "rmrb2024010107.pdf"; "rmrb2024010110.pdf"] /\
     out_files (fst (merge (workspace files))) !! "People's.Daily.20240101.pdf"
     = Some ["rmrb2024010102.pdf"; "rmrb2024010107.pdf"; "rmrb2024010110.pdf"]) /\
  (forall files merge,
     Permutation pages_with_stub files ->
     merge = merge_pdfs \/ merge = merge_pdfs_pypdf2 ->
     snd (merge (workspace files)) = inl true /\
     processed (new_events (workspace files) (merge (workspace files)))
     = ["rmrb2024010102.pdf"; "rmrb2024010107.pdf"; "rmrb2024010110.pdf"] /\
     skipped (new_events (workspace files) (merge (workspace files)))
     = ["rmrb2024010102.pdf"] /\
     out_files (fst (merge (workspace files))) !! "People's.Daily.20240101.pdf"
     = Some ["rmrb2024010107.pdf"; "rmrb2024010110.pdf"]).
Proof.
  split; [|split].
  - intros st order Hex Ho. split; [|split].
    + split; [apply merge_order_perm | eapply merge_order_sorted]; exact Ho.
    + intros names' Hp Hnd. eapply merge_order_any_listing; eassumption.
    + intros merge Hmerge.
      destruct (merge_story_walk (temp_files st) order Ho) as [Hfitz Hpy].
      destruct Hmerge as [-> | ->].
      * rewrite (merge_pdfs_run _ Hex), new_events_after_merge. exact Hfitz.
      * rewrite (merge_pdfs_pypdf2_run _ Hex), new_events_after_merge. exact Hpy.
  - intros files merge Hp Hmerge. each_permutation Hp;
      destruct Hmerge as [-> | ->]; vm_compute; repeat split.
  - intros files merge Hp Hmerge. each_permutation Hp;
      destruct Hmerge as [-> | ->]; vm_compute; repeat split.
Qed.

Lemma merge_order_witness :
  processed (new_events (workspace pages_with_stub)
                        (merge_pdfs (workspace pages_with_stub)))
  = ["rmrb2024010102.pdf"; "rmrb2024010107.pdf"; "rmrb2024010110.pdf"].
Proof.
  destruct (proj1 merge_follows_page_order (workspace pages_with_stub)
              ["rmrb2024010102.pdf"; "rmrb2024010107.pdf"; "rmrb2024010110.pdf"]
              eq_refl eq_refl) as [_ [_ Hwalk]].
  destruct (Hwalk merge_pdfs (or_introl eq_refl)) as [_ Hsound].
  exact (proj1 (Hsound eq_refl)).
Defined.

(** ** When the output is written *)

Lemma forallb_perm {A} (p : A -> bool) (l l' : list A) :
  Permutation l l' -> forallb p l = forallb p l'.
Proof.
  induction 1 as [|x l l' Hp IH|x y l|l l' l'' H1 IH1 H2 IH2]; simpl.
  - reflexivity.
  - rewrite IH. reflexivity.
  - destruct (p x), (p y); reflexivity.
  - congruence.
Qed.

Lemma existsb_perm {A} (p : A -> bool) (l l' : list A) :
  Permutation l l' -> existsb p l = existsb p l'.
Proof.
  induction 1 as [|x l l' Hp IH|x y l|l l' l'' H1 IH1 H2 IH2]; simpl.
  - reflexivity.
  - rewrite IH. reflexivity.
  - destruct (p x), (p y); reflexivity.
  - congruence.
Qed.

Lemma existsb_filter {A} (p : A -> bool) (l : list A) :
  existsb p l = match List.filter p l with [] => false | _ :: _ => true end.
Proof.
  induction l as [|x l IH]; simpl; [reflexivity|].
  destruct (p x); [reflexivity | exact IH].
Qed.

(** The .pdf files of the workspace. *)
Definition pdf_files_of (st : State) : list string :=
  List.filter is_pdf_name (listing st).

(** Some .pdf file has at least 1 KB. *)
Definition has_big_file (st : State) : bool :=
  existsb (big (temp_files st)) (pdf_files_of st).

(** No .pdf file of at least 1 KB is unreadable. *)
Definition no_torn_file (st : State) : bool :=
  forallb (sound (temp_files st)) (pdf_files_of st).

Lemma merge_story_writes files order :
  merge_order (map fst files) = Some order ->
  either_story (fun story =>
    if existsb (big files) order && forallb (sound files) order
    then exists name,
           story_result (story files) = inl true /\
           saved (story_events (story files)) = [name] /\
           story_saved (story files) = Some (name, List.filter (big files) order)
    else story_result (story files) = inl false /\
         saved (story_events (story files)) = [] /\
         story_saved (story files) = None).
Proof.
  intros Ho. pose proof (merge_order_listed _ _ Ho) as Hl.
  unfold either_story, merge_story, merge_story_pypdf2. rewrite Ho.
  destruct order as [|first rest]; [split; repeat split|].
  cbn match.
  pose proof (assemble_unsound files (first :: rest) [] Hl) as Hbad.
  pose proof (assemble_sound files (first :: rest) []) as Hgood.
  set (names := first :: rest) in *.
  rewrite existsb_filter.
  destruct (forallb (sound files) names) eqn:Es.
  - rewrite (Hgood eq_refl). cbn [app].
    destruct (List.filter (big files) names) as [|p doc]; cbn [andb].
    + split; (split; [reflexivity|]; split; [|reflexivity]);
        drop_tail; apply walk_events_saved.
    + split; eexists; (split; [reflexivity|]); (split; [|reflexivity]);
        unfold story_events, saved; cbn [fst]; rewrite pick_app;
        fold (saved (walk_events files names)); rewrite walk_events_saved;
        reflexivity.
  - rewrite andb_false_r. destruct (Hbad eq_refl) as [Hres Hsaved].
    destruct (assemble files names []) as [evs res]. cbn [fst snd] in *. subst res.
    split; (split; [reflexivity|]; split; [exact Hsaved | reflexivity]).
Qed.

Lemma after_merge_facts st
      (story : list Event * option (string * Doc) * (bool + exn)) :
  new_events st (after_merge st story) = story_events story /\
  snd (after_merge st story) = story_result story /\
  out_files (fst (after_merge st story))
  = match story_saved story with
    | Some (name, doc) => <[name := doc]> (out_files st)
    | None => out_files st
    end.
Proof.
  split; [apply new_events_after_merge|].
  destruct story as [[evs sv] res]. split; reflexivity.
Qed.

(** C2, as amended: for a workspace whose .pdf files carry a page number as
    the program's own files do, a merge (of either script) writes the output
    if and only if some .pdf file has at least 1 KB and no .pdf file of at
    least 1 KB is unreadable.  When it writes, it returns [True] and saves
    once, under one name, the files of at least 1 KB in page order; otherwise
    it returns [False], saves nothing and leaves the download directory as it
    was. *)
Theorem merge_writes_output_iff
        (st : State) (order : list string) (merge : M bool) :
  temp_exists st = true ->
  merge_order (listing st) = Some order ->
  merge = merge_pdfs \/ merge = merge_pdfs_pypdf2 ->
  let out := merge st in
  if has_big_file st && no_torn_file st
  then exists name,
         snd out = inl true /\
         saved (new_events st out) = [name] /\
         out_files (fst out)
         = <[name := List.filter (big (temp_files st)) order]> (out_files st)
  else snd out = inl false /\
       saved (new_events st out) = [] /\
       out_files (fst out) = out_files st.
Proof.
  intros Hex Ho Hmerge out. subst out.
  pose proof (merge_order_perm _ _ Ho) as Hperm.
  unfold has_big_file, no_torn_file, pdf_files_of.
  rewrite <- (existsb_perm _ _ _ Hperm), <- (forallb_perm _ _ _ Hperm).
  destruct (merge_story_writes (temp_files st) order Ho) as [Hfitz Hpy].
  destruct Hmerge as [-> | ->].
  - rewrite (merge_pdfs_run _ Hex).
    destruct (after_merge_facts st (merge_story (temp_files st))) as (-> & -> & ->).
    destruct (existsb _ _ && forallb _ _).
    + destruct Hfitz as (name & Hres & Hsaved & ->). exists name. auto.
    + destruct Hfitz as (Hres & Hsaved & ->). auto.
  - rewrite (merge_pdfs_pypdf2_run _ Hex).
    destruct (after_merge_facts st (merge_story_pypdf2 (temp_files st)))
      as (-> & -> & ->).
    destruct (existsb _ _ && forallb _ _).
    + destruct Hpy as (name & Hres & Hsaved & ->). exists name. auto.
    + destruct Hpy as (Hres & Hsaved & ->). auto.
Qed.

Definition pages_with_torn : list (string * Blob) :=
  [("rmrb2024010101.pdf", good_page); ("rmrb2024010102.pdf", torn_page)].

Lemma merge_writes_witness :
  exists name,
    snd (merge_pdfs (workspace pages_with_stub)) = inl true /\
    saved (new_events (workspace pages_with_stub)
                      (merge_pdfs (workspace pages_with_stub))) = [name] /\
    out_files (fst (merge_pdfs (workspace pages_with_stub)))
    = <[name := ["rmrb2024010107.pdf"; "rmrb2024010110.pdf"]]> ∅.
Proof.
  exact (merge_writes_output_iff
           (workspace pages_with_stub)
           ["rmrb2024010102.pdf"; "rmrb2024010107.pdf"; "rmrb2024010110.pdf"]
           merge_pdfs eq_refl eq_refl (or_introl eq_refl)).
Defined.

(** C2, counterexample: page 1 is a valid file of 2 KB, page 2 has 2 KB but
    cannot be read; neither script writes anything. *)
Lemma valid_page_but_no_output :
  big pages_with_torn "rmrb2024010101.pdf" = true /\
  get_file "rmrb2024010101.pdf" pages_with_torn = Some good_page /\
  snd (merge_pdfs (workspace pages_with_torn)) = inl false /\
  out_files (fst (merge_pdfs (workspace pages_with_torn))) = ∅ /\
  saved (trace (fst (merge_pdfs (workspace pages_with_torn)))) = [] /\
  snd (merge_pdfs_pypdf2 (workspace pages_with_torn)) = inl false /\
  out_files (fst (merge_pdfs_pypdf2 (workspace pages_with_torn))) = ∅ /\
  saved (trace (fst (merge_pdfs_pypdf2 (workspace pages_with_torn)))) = [].
Proof. vm_compute. repeat split. Qed.

(** ** Cleanup of the workspace *)

(** The batch turn removes the workspace whatever happens in it. *)
Lemma batch_iteration_removes_workspace site merge outer d st :
  temp_exists (fst (batch_iteration site merge outer d st)) = false.
Proof.
  unfold batch_iteration, try_finally.
  destruct (try_except _ _ st) as [st1 r]. reflexivity.
Qed.

(** The single-date run removes it whenever [download_edition] returns. *)
Lemma main_single_removes_workspace_on_return site merge d st st1 ok :
  download_edition site d None (ready_single st) = (st1, inl ok) ->
  (forall s, exists s' b, merge s = (s', inl b)) ->
  temp_exists (fst (main_single site merge d st)) = false /\
  snd (main_single site merge d st) = inl tt.
Proof.
  intros Hdl Hmerge.
  assert (Hrun : exists s', main_single site merge d st = (s', inl tt) /\
                            temp_exists s' = false).
  { unfold main_single, main_handlers, try_except2, init_environment.
    rewrite run_bind. cbn match. rewrite run_bind.
    unfold log at 1, emit. cbn [requests_made temp_exists temp_files out_files trace].
    fold (ready_single st). rewrite run_bind, Hdl. rewrite run_bind.
    destruct ok; unfold when.
    - rewrite run_bind. destruct (Hmerge st1) as (s' & b & ->).
      destruct b; unfold rmtree_temp; unfold_monad; simpl; eauto.
    - unfold rmtree_temp; unfold_monad; simpl; eauto. }
  destruct Hrun as (s' & -> & Hs'). split; [exact Hs' | reflexivity].
Qed.

Definition site_all_404 : World := fun _ _ => answer_status 404.

(** The first request is interrupted by the user. *)
Definition site_interrupted : World := fun _ _ => Interrupted.

(** C6, the code's behaviour where it departs from the claim: in
    single-date mode, when neither cover can be fetched the process exits
    with status 1, and when the user interrupts the locate phase it exits
    with status 130; both times the workspace created by [init_environment]
    is still there and no [rmtree] has run.  The batch turn differs: its
    [finally] clause removes the workspace on those same inputs. *)
Theorem single_date_exit_leaves_workspace :
  let lost := main_single site_all_404 merge_pdfs new_year_2024 initial_state in
  let stopped := main_single site_interrupted merge_pdfs new_year_2024 initial_state in
  (snd lost = inr (SystemExit 1) /\
   temp_exists (fst lost) = true /\ ~ In EvRmtree (trace (fst lost))) /\
  (snd stopped = inr (SystemExit 130) /\
   temp_exists (fst stopped) = true /\ ~ In EvRmtree (trace (fst stopped))) /\
  (let turn := batch_iteration site_all_404 merge_pdfs (mkOuter 0 true)
                               new_year_2024 initial_state in
   snd turn = inr (SystemExit 1) /\
   temp_exists (fst turn) = false /\ In EvRmtree (trace (fst turn))).
Proof.
  vm_compute. repeat split; try discriminate.
  - intros H. repeat (destruct H as [H|H]; [discriminate H|]). exact H.
  - intros H. repeat (destruct H as [H|H]; [discriminate H|]). exact H.
  - do 3 right. left. reflexivity.
Qed.

(** ** Dates and the range loop *)

Section Calendar.

Lemma days_in_month_bounds y m : 28 <= days_in_month y m <= 31.
Proof.
  unfold days_in_month.
  destruct (m =? 2); [destruct (is_leap y); lia|].
  destruct ((m =? 4) || (m =? 6) || (m =? 9) || (m =? 11)); lia.
Qed.

Lemma valid_date_iff d :
  valid_date d = true <->
  1 <= year d <= 9999 /\ 1 <= month d <= 12 /\
  1 <= day d <= days_in_month (year d) (month d).
Proof.
  unfold valid_date. rewrite !andb_true_iff, !Z.leb_le. lia.
Qed.

Lemma date_ltb_iff a b :
  date_ltb a b = true <->
  year a < year b \/
  (year a = year b /\ (month a < month b \/ (month a = month b /\ day a < day b))).
Proof.
  unfold date_ltb.
  rewrite !orb_true_iff, !andb_true_iff, !orb_true_iff, !andb_true_iff,
          !Z.ltb_lt, !Z.eqb_eq. tauto.
Qed.

Lemma date_eqb_iff a b : date_eqb a b = true <-> a = b.
Proof.
  unfold date_eqb. rewrite !andb_true_iff, !Z.eqb_eq.
  destruct a, b; simpl. split; [intros [[-> ->] ->]; reflexivity|].
  intros [= -> -> ->]. auto.
Qed.

Lemma date_leb_iff a b : date_leb a b = true <-> date_lt a b \/ a = b.
Proof.
  unfold date_leb, date_lt. rewrite orb_true_iff, date_eqb_iff. tauto.
Qed.

Lemma date_ltb_false_iff a b : date_ltb a b = false <-> date_le b a.
Proof.
  unfold date_le. rewrite date_leb_iff. unfold date_lt.
  rewrite <- not_true_iff_false, !date_ltb_iff.
  destruct a as [ya ma da], b as [yb mb db]; simpl.
  split.
  - intros H.
    destruct (Z.eq_dec ya yb) as [->|], (Z.eq_dec ma mb) as [->|],
             (Z.eq_dec da db) as [->|]; try (right; reflexivity); left; lia.
  - intros [H|[= -> -> ->]]; lia.
Qed.

Lemma date_leb_false_iff a b : date_leb a b = false <-> date_lt b a.
Proof.
  rewrite <- not_true_iff_false, date_leb_iff. unfold date_lt.
  rewrite !date_ltb_iff.
  destruct a as [ya ma da], b as [yb mb db]; simpl.
  split.
  - intros H.
    destruct (Z.eq_dec ya yb) as [->|], (Z.eq_dec ma mb) as [->|],
             (Z.eq_dec da db) as [->|]; try lia.
    exfalso. apply H. right. reflexivity.
  - intros H [H'|[= -> -> ->]]; lia.
Qed.

Lemma date_lt_trans a b c : date_lt a b -> date_lt b c -> date_lt a c.
Proof. unfold date_lt. rewrite !date_ltb_iff. lia. Qed.

Lemma date_le_trans a b c : date_le a b -> date_le b c -> date_le a c.
Proof.
  unfold date_le. rewrite !date_leb_iff.
  intros [H1| ->] [H2| ->]; auto. left. eapply date_lt_trans; eassumption.
Qed.

Lemma date_lt_le_trans a b c : date_lt a b -> date_le b c -> date_lt a c.
Proof.
  unfold date_le. rewrite date_leb_iff.
  intros H1 [H2| ->]; [eapply date_lt_trans; eassumption | exact H1].
Qed.

Lemma date_lt_irrefl a : ~ date_lt a a.
Proof. unfold date_lt. rewrite date_ltb_iff. lia. Qed.

Lemma rank_lt a b :
  valid_date a = true -> valid_date b = true -> date_lt a b -> rank a < rank b.
Proof.
  rewrite !valid_date_iff. unfold date_lt. rewrite date_ltb_iff. unfold rank.
  pose proof (days_in_month_bounds (year a) (month a)).
  pose proof (days_in_month_bounds (year b) (month b)). lia.
Qed.

Definition date_max : date := mkdate 9999 12 31.

(** The day after [cur]: valid, later, and with no valid date in between. *)
Lemma add_one_day_next cur :
  valid_date cur = true -> date_lt cur date_max ->
  exists next,
    add_one_day cur = Some next /\ valid_date next = true /\ date_lt cur next /\
    (forall d, valid_date d = true -> date_lt cur d -> date_le next d).
Proof.
  intros Hv Hmax. apply valid_date_iff in Hv.
  unfold date_lt in Hmax. apply date_ltb_iff in Hmax.
  destruct cur as [y m dd]. simpl in *.
  pose proof (days_in_month_bounds y m) as Hb.
  unfold add_one_day. simpl.
  destruct (dd <? days_in_month y m) eqn:Ed.
  - apply Z.ltb_lt in Ed. eexists. split; [reflexivity|].
    split; [apply valid_date_iff; simpl; lia|].
    split; [unfold date_lt; apply date_ltb_iff; simpl; lia|].
    intros [y' m' d'] Hd Hlt. apply valid_date_iff in Hd.
    unfold date_lt in Hlt. apply date_ltb_iff in Hlt. simpl in *.
    unfold date_le. apply date_leb_iff. unfold date_lt. rewrite date_ltb_iff. simpl.
    destruct (Z.eq_dec y' y) as [->|], (Z.eq_dec m' m) as [->|];
      try (left; lia).
    destruct (Z.eq_dec d' (dd + 1)) as [->|]; [right; reflexivity | left; lia].
  - apply Z.ltb_ge in Ed.
    destruct (m <? 12) eqn:Em.
    + apply Z.ltb_lt in Em. eexists. split; [reflexivity|].
      pose proof (days_in_month_bounds y (m + 1)).
      split; [apply valid_date_iff; simpl; lia|].
      split; [unfold date_lt; apply date_ltb_iff; simpl; lia|].
      intros [y' m' d'] Hd Hlt. apply valid_date_iff in Hd.
      unfold date_lt in Hlt. apply date_ltb_iff in Hlt. simpl in *.
      unfold date_le. apply date_leb_iff. unfold date_lt. rewrite date_ltb_iff. simpl.
      destruct (Z.eq_dec y' y) as [->|]; [|left; lia].
      destruct (Z.eq_dec m' m) as [->|]; [lia|].
      destruct (Z.eq_dec m' (m + 1)) as [->|]; [|left; lia].
      destruct (Z.eq_dec d' 1) as [->|]; [right; reflexivity | left; lia].
    + apply Z.ltb_ge in Em.
      assert (m = 12) as -> by lia.
      assert (days_in_month y 12 = 31) as Hdec by reflexivity.
      rewrite Hdec in *.
      assert (y < 9999) as Hy by lia.
      apply Z.ltb_lt in Hy. rewrite Hy. apply Z.ltb_lt in Hy.
      eexists. split; [reflexivity|].
      pose proof (days_in_month_bounds (y + 1) 1).
      split; [apply valid_date_iff; simpl; lia|].
      split; [unfold date_lt; apply date_ltb_iff; simpl; lia|].
      intros [y' m' d'] Hd Hlt. apply valid_date_iff in Hd.
      unfold date_lt in Hlt. apply date_ltb_iff in Hlt. simpl in *.
      unfold date_le. apply date_leb_iff. unfold date_lt. rewrite date_ltb_iff. simpl.
      destruct (Z.eq_dec y' y) as [->|].
      { destruct (Z.eq_dec m' 12) as [->|]; [rewrite Hdec in Hd|]; lia. }
      destruct (Z.eq_dec y' (y + 1)) as [->|]; [|left; lia].
      destruct (Z.eq_dec m' 1) as [->|]; [|left; lia].
      destruct (Z.eq_dec d' 1) as [->|]; [right; reflexivity | left; lia].
Qed.

End Calendar.

Lemma rank_le a b :
  valid_date a = true -> valid_date b = true -> date_le a b -> rank a <= rank b.
Proof.
  intros Ha Hb Hle. apply date_leb_iff in Hle as [Hlt| ->]; [|lia].
  pose proof (rank_lt a b Ha Hb Hlt). lia.
Qed.

Lemma date_loop_spec fuel : forall cur end_date acc,
  valid_date cur = true -> valid_date end_date = true ->
  date_lt end_date date_max ->
  (date_le cur end_date -> rank end_date - rank cur + 1 <= Z.of_nat fuel) ->
  exists l,
    date_loop fuel cur end_date acc = Some (Some (acc ++ l)%list) /\
    StronglySorted date_lt l /\
    (forall d, In d l <->
               valid_date d = true /\ date_le cur d /\ date_le d end_date).
Proof.
  induction fuel as [|fuel IH]; intros cur end_date acc Hc He Hmax Hfuel.
  - simpl. destruct (date_leb cur end_date) eqn:Ele.
    + pose proof (rank_le _ _ Hc He Ele). specialize (Hfuel Ele). lia.
    + exists []. rewrite app_nil_r. split; [reflexivity|]. split; [constructor|].
      intros d. split; [intros []|]. intros (_ & H1 & H2).
      apply date_leb_false_iff in Ele.
      pose proof (date_le_trans _ _ _ H1 H2) as Hle.
      apply date_leb_iff in Hle as [Hlt| ->].
      * exfalso. eapply date_lt_irrefl, date_lt_trans; eassumption.
      * exfalso. eapply date_lt_irrefl; eassumption.
  - cbn [date_loop]. destruct (date_leb cur end_date) eqn:Ele.
    + assert (Hcmax : date_lt cur date_max) by
        (apply date_leb_iff in Ele as [Hlt| ->];
         [eapply date_lt_trans; eassumption | exact Hmax]).
      destruct (add_one_day_next cur Hc Hcmax) as (next & -> & Hn & Hlt & Hgap).
      destruct (IH next end_date (acc ++ [cur])%list Hn He Hmax) as (l & Hrun & Hs & Hin).
      { intros Hle. pose proof (rank_lt _ _ Hc Hn Hlt). specialize (Hfuel Ele). lia. }
      exists (cur :: l). rewrite Hrun, <- app_assoc. split; [reflexivity|].
      split.
      * constructor; [exact Hs|]. apply List.Forall_forall. intros d Hd.
        apply Hin in Hd as (_ & Hnd & _). eapply date_lt_le_trans; eassumption.
      * intros d. simpl. rewrite Hin. split.
        -- intros [<-|(Hv & H1 & H2)].
           ++ split; [exact Hc|]. split; [|exact Ele].
              apply date_leb_iff. right. reflexivity.
           ++ split; [exact Hv|]. split; [|exact H2].
              apply date_leb_iff. left. eapply date_lt_le_trans; eassumption.
        -- intros (Hv & H1 & H2). apply date_leb_iff in H1 as [H1| ->];
             [right | left; reflexivity].
           split; [exact Hv|]. split; [apply Hgap; assumption | exact H2].
    + exists []. rewrite app_nil_r. split; [reflexivity|]. split; [constructor|].
      intros d. split; [intros []|]. intros (_ & H1 & H2).
      apply date_leb_false_iff in Ele.
      pose proof (date_le_trans _ _ _ H1 H2) as Hle.
      apply date_leb_iff in Hle as [Hlt| ->].
      * exfalso. eapply date_lt_irrefl, date_lt_trans; eassumption.
      * exfalso. eapply date_lt_irrefl; eassumption.
Qed.

Lemma strptime_valid s d : strptime_Ymd s = Some d -> valid_date d = true.
Proof.
  unfold strptime_Ymd. destruct (_ && _); [|discriminate].
  destruct (valid_date _) eqn:E; [|discriminate]. intros [= <-]. exact E.
Qed.

Lemma keep_digits_only s : PyStr.all_chars PyStr.is_digit (PyStr.keep PyStr.is_digit s) = true.
Proof.
  induction s as [|c s IH]; simpl; [reflexivity|].
  destruct (PyStr.is_digit c) eqn:E; simpl; [rewrite E, IH; reflexivity | exact IH].
Qed.

Lemma keep_is_filter p s :
  list_ascii_of_string (PyStr.keep p s) = List.filter p (list_ascii_of_string s).
Proof.
  induction s as [|c s IH]; [reflexivity|].
  cbn [PyStr.keep list_ascii_of_string List.filter].
  destruct (p c); [cbn [list_ascii_of_string]; rewrite IH; reflexivity | exact IH].
Qed.

(** The result depends on the input through its digits only. *)
Lemma validate_date_range_digits today s s' :
  PyStr.keep PyStr.is_digit s = PyStr.keep PyStr.is_digit s' ->
  validate_date_range today s = validate_date_range today s'.
Proof. intros H. unfold validate_date_range. rewrite H. reflexivity. Qed.

Lemma is_digit_codes c :
  PyStr.is_digit c = true <-> (48 <= nat_of_ascii c <= 57)%nat.
Proof.
  unfold PyStr.is_digit. cbv zeta.
  rewrite andb_true_iff, !Nat.leb_le. reflexivity.
Qed.

Definition first_days_of_2024 : list date :=
  [mkdate 2024 1 1; mkdate 2024 1 2; mkdate 2024 1 3; mkdate 2024 1 4; mkdate 2024 1 5].

(** C8: [validate_date_range] keeps the digits of its input and nothing
    else; it returns a list exactly when 16 digits remain, both halves of 8
    digits are dates, start <= end, end <= today and the start year is at
    least 2003, and fails fatally otherwise; the list holds every calendar
    day from start to end inclusive, in ascending order.  In particular
    "2024010120240105" gives the five days 2024-01-01 .. 2024-01-05.
    What is kept of the input is the sequence of all its characters
    "0" .. "9" (codes 48 to 57), in their order, wherever they stand: the
    same range written "2024-01-01 ~ 2024-01-05" gives the same five days.
    ([today] is any day before [date.max], the last day Python can add to.) *)
Theorem validate_date_range_spec (today : date) (range_str : string) :
  date_lt today date_max ->
  let clean_str := PyStr.keep PyStr.is_digit range_str in
  PyStr.all_chars PyStr.is_digit clean_str = true /\
  match validate_date_range today range_str with
  | RangeOk l =>
      PyStr.len clean_str = 16 /\
      exists start_date end_date,
        strptime_Ymd (PyStr.slice_to 8 clean_str) = Some start_date /\
        strptime_Ymd (PyStr.slice_from 8 clean_str) = Some end_date /\
        date_le start_date end_date /\ date_le end_date today /\
        2003 <= year start_date /\
        StronglySorted date_lt l /\
        (forall d, In d l <->
                   valid_date d = true /\ date_le start_date d /\ date_le d end_date)
  | RangeFatal =>
      PyStr.len clean_str <> 16 \/
      strptime_Ymd (PyStr.slice_to 8 clean_str) = None \/
      strptime_Ymd (PyStr.slice_from 8 clean_str) = None \/
      exists start_date end_date,
        strptime_Ymd (PyStr.slice_to 8 clean_str) = Some start_date /\
        strptime_Ymd (PyStr.slice_from 8 clean_str) = Some end_date /\
        (date_lt end_date start_date \/ date_lt today end_date \/
         year start_date < 2003)
  | RangeLoopUnfinished => False
  end /\
  (date_le (mkdate 2024 1 5) today ->
   validate_date_range today "2024010120240105" = RangeOk first_days_of_2024) /\
  list_ascii_of_string clean_str
  = List.filter PyStr.is_digit (list_ascii_of_string range_str) /\
  (forall c, PyStr.is_digit c = true <-> (48 <= nat_of_ascii c <= 57)%nat) /\
  (date_le (mkdate 2024 1 5) today ->
   validate_date_range today "2024-01-01 ~ 2024-01-05" = RangeOk first_days_of_2024).
Proof.
  intros Hmax clean_str. split; [apply keep_digits_only|].
  assert (Hplain : date_le (mkdate 2024 1 5) today ->
                   validate_date_range today "2024010120240105"
                   = RangeOk first_days_of_2024).
  { intros Hle. apply date_ltb_false_iff in Hle.
      unfold validate_date_range.
      change (PyStr.keep PyStr.is_digit "2024010120240105") with "2024010120240105".
      change (negb (PyStr.len "2024010120240105" =? 16)) with false. cbv iota.
      change (PyStr.slice_to 8 "2024010120240105") with "20240101".
      change (PyStr.slice_from 8 "2024010120240105") with "20240105".
      change (strptime_Ymd "20240101") with (Some (mkdate 2024 1 1)).
      change (strptime_Ymd "20240105") with (Some (mkdate 2024 1 5)).
      cbv iota.
      change (date_ltb (mkdate 2024 1 5) (mkdate 2024 1 1)) with false.
      rewrite Hle. reflexivity. }
  split; [|split; [exact Hplain|]].
  - unfold validate_date_range. fold clean_str.
    destruct (PyStr.len clean_str =? 16) eqn:Elen; cbn [negb].
    2:{ left. apply Z.eqb_neq in Elen. exact Elen. }
    apply Z.eqb_eq in Elen.
    destruct (strptime_Ymd (PyStr.slice_to 8 clean_str)) as [start_date|] eqn:Es;
      [|right; left; reflexivity].
    destruct (strptime_Ymd (PyStr.slice_from 8 clean_str)) as [end_date|] eqn:Ee;
      [|right; right; left; reflexivity].
    pose proof (strptime_valid _ _ Es) as Hvs.
    pose proof (strptime_valid _ _ Ee) as Hve.
    destruct (date_ltb end_date start_date) eqn:E1.
    { right; right; right. exists start_date, end_date. auto. }
    destruct (date_ltb today end_date) eqn:E2.
    { right; right; right. exists start_date, end_date. auto. }
    destruct (year start_date <? 2003) eqn:E3.
    { right; right; right. exists start_date, end_date.
      apply Z.ltb_lt in E3. auto. }
    apply date_ltb_false_iff in E1, E2. apply Z.ltb_ge in E3.
    assert (Hemax : date_lt end_date date_max).
    { apply date_leb_iff in E2 as [Hlt| ->];
        [eapply date_lt_trans; eassumption | exact Hmax]. }
    destruct (date_loop_spec (Z.to_nat (rank end_date - rank start_date + 1))
                             start_date end_date [] Hvs Hve Hemax)
      as (l & -> & Hs & Hin).
    { intros Hle. pose proof (rank_le _ _ Hvs Hve Hle). lia. }
    cbn [app]. split; [exact Elen|].
    exists start_date, end_date. repeat split; try assumption; apply Hin; assumption.
  - split; [apply keep_is_filter|]. split; [apply is_digit_codes|].
    intros Hle.
    rewrite (validate_date_range_digits today "2024-01-01 ~ 2024-01-05"
                                        "2024010120240105");
      [exact (Hplain Hle) | vm_compute; reflexivity].
Qed.

Lemma validate_date_range_witness :
  validate_date_range (mkdate 2026 11 3) "2024010120240105"
  = RangeOk first_days_of_2024.
Proof.
  assert (Hmax : date_lt (mkdate 2026 11 3) date_max) by reflexivity.
  assert (Hle : date_le (mkdate 2024 1 5) (mkdate 2026 11 3)) by reflexivity.
  exact (proj1 (proj2 (proj2 (validate_date_range_spec (mkdate 2026 11 3)
                                "2024010120240105" Hmax))) Hle).
Defined.

(** * Further properties *)

(** ** What a computation may cost and what may escape from it *)

(** [m] sends at most [n] requests. *)
Definition bounded {A} (n : nat) (m : M A) : Prop :=
  forall st, (requests_made st <= requests_made (fst (m st)) <= requests_made st + n)%nat.

(** Nothing but a [KeyboardInterrupt] escapes from [m]. *)
Definition contained {A} (m : M A) : Prop :=
  forall st, match snd (m st) with
             | inr PyException | inr (SystemExit _) => False
             | _ => True
             end.

(** [m] leaves the scratch directory as it is. *)
Definition keeps_workspace {A} (m : M A) : Prop :=
  forall st, temp_exists (fst (m st)) = temp_exists st /\
             temp_files (fst (m st)) = temp_files st.

Lemma bounded_weaken {A} (n n' : nat) (m : M A) :
  (n <= n')%nat -> bounded n m -> bounded n' m.
Proof. intros Hle Hb st. specialize (Hb st). lia. Qed.

Lemma bounded_ret {A} (a : A) : bounded 0 (mret a : M A).
Proof. intros st. simpl. lia. Qed.

Lemma bounded_raise {A} (e : exn) : bounded 0 (raise e : M A).
Proof. intros st. simpl. lia. Qed.

Lemma bounded_emit (e : Event) : bounded 0 (emit e).
Proof. intros st. simpl. lia. Qed.

Lemma bounded_bind {A B} (a b : nat) (m : M A) (f : A -> M B) :
  bounded a m -> (forall x, bounded b (f x)) -> bounded (a + b) (m ≫= f).
Proof.
  intros Hm Hf st. rewrite run_bind. specialize (Hm st).
  destruct (m st) as [st1 [x|e]]; simpl in *; [|lia].
  specialize (Hf x st1). lia.
Qed.

Lemma bounded_try_except {A} (a b : nat) (body handler : M A) :
  bounded a body -> bounded b handler -> bounded (a + b) (try_except body handler).
Proof.
  intros Hb Hh st. unfold try_except. specialize (Hb st).
  destruct (body st) as [st1 [x|[| |c]]]; simpl in *; try lia.
  specialize (Hh st1). lia.
Qed.

Lemma bounded_requests_get site url : bounded 1 (requests_get site url).
Proof. intros st. unfold requests_get. destruct (site _ _); simpl; lia. Qed.

Lemma bounded_write_temp f b : bounded 0 (write_temp f b).
Proof. intros st. unfold write_temp. destruct (temp_exists st); simpl; lia. Qed.

Lemma bounded_getsize f : bounded 0 (getsize f).
Proof. intros st. unfold getsize. destruct (get_file _ _); simpl; lia. Qed.

Lemma contained_ret {A} (a : A) : contained (mret a : M A).
Proof. intros st. exact I. Qed.

Lemma contained_emit (e : Event) : contained (emit e).
Proof. intros st. exact I. Qed.

Lemma contained_bind {A B} (m : M A) (f : A -> M B) :
  contained m -> (forall x, contained (f x)) -> contained (m ≫= f).
Proof.
  intros Hm Hf st. rewrite run_bind. specialize (Hm st).
  destruct (m st) as [st1 [x|e]]; simpl in *; [apply Hf | exact Hm].
Qed.

(** A handler for [Exception] contains whatever the body raises short of a
    [SystemExit]. *)
Lemma contained_try_except {A} (body handler : M A) :
  (forall st c, snd (body st) <> inr (SystemExit c)) ->
  contained handler -> contained (try_except body handler).
Proof.
  intros Hb Hh st. unfold try_except. specialize (Hb st).
  destruct (body st) as [st1 [x|[| |c]]]; simpl in *; try exact I.
  - apply Hh.
  - exact (Hb c eq_refl).
Qed.

(** ** Files of the scratch directory *)

Lemma get_put_same f b files : get_file f (put_file f b files) = Some b.
Proof.
  induction files as [|[n c] files IH]; simpl.
  - rewrite String.eqb_refl. reflexivity.
  - destruct (String.eqb n f) eqn:E; simpl.
    + rewrite String.eqb_refl. reflexivity.
    + rewrite E. exact IH.
Qed.

Lemma get_put_other f g b files :
  g <> f -> get_file g (put_file f b files) = get_file g files.
Proof.
  intros Hne. induction files as [|[n c] files IH]; simpl.
  - destruct (String.eqb f g) eqn:E; [|reflexivity].
    apply String.eqb_eq in E. congruence.
  - destruct (String.eqb n f) eqn:E; simpl.
    + apply String.eqb_eq in E. subst n.
      destruct (String.eqb f g) eqn:E'; [|reflexivity].
      apply String.eqb_eq in E'. congruence.
    + destruct (String.eqb n g); [reflexivity | exact IH].
Qed.

Lemma put_file_names f b files g :
  In g (map fst (put_file f b files)) <-> g = f \/ In g (map fst files).
Proof.
  induction files as [|[n c] files IH]; simpl.
  - split; [intros [<-|[]]; auto | intros [->|[]]; auto].
  - destruct (String.eqb n f) eqn:E; simpl.
    + apply String.eqb_eq in E. subst n. split; [intros [<-|H]; auto | ].
      intros [->|[<-|H]]; auto.
    + rewrite IH. split; [intros [<-|[->|H]]; auto | intros [->|[<-|H]]; auto].
Qed.

Lemma put_file_nodup f b files :
  List.NoDup (map fst files) -> List.NoDup (map fst (put_file f b files)).
Proof.
  induction files as [|[n c] files IH]; simpl; intros Hnd.
  - constructor; [intros [] | constructor].
  - inversion Hnd as [|? ? Hnotin Hnd']; subst.
    destruct (String.eqb n f) eqn:E; simpl.
    + apply String.eqb_eq in E. subst n. constructor; assumption.
    + constructor; [|apply IH; exact Hnd'].
      rewrite put_file_names. intros [->|H]; [|contradiction].
      rewrite String.eqb_refl in E. discriminate.
Qed.

(** ** [download_pdf], one attempt *)

(** What the workspace may look like after code that writes at most the
    file [f]: every other file is as before, no new name but [f] appears,
    and names stay distinct. *)
Definition touches_only (f : string) (before after : State) : Prop :=
  temp_exists after = temp_exists before /\
  out_files after = out_files before /\
  (forall g, g <> f -> get_file g (temp_files after) = get_file g (temp_files before)) /\
  (forall g, In g (map fst (temp_files after)) -> g = f \/ In g (map fst (temp_files before))) /\
  (List.NoDup (map fst (temp_files before)) -> List.NoDup (map fst (temp_files after))).

Lemma touches_only_refl f st : touches_only f st st.
Proof. unfold touches_only. repeat split; auto. Qed.

Lemma touches_only_trans f a b c :
  touches_only f a b -> touches_only f b c -> touches_only f a c.
Proof.
  intros (E1 & O1 & G1 & N1 & D1) (E2 & O2 & G2 & N2 & D2).
  unfold touches_only. repeat split.
  - congruence.
  - congruence.
  - intros g Hg. rewrite G2, G1 by exact Hg. reflexivity.
  - intros g Hg. destruct (N2 g Hg) as [->|H]; auto.
  - auto.
Qed.

Lemma touches_only_trace f st evs k :
  touches_only f st (mkState k (temp_exists st) (temp_files st) (out_files st) evs).
Proof. unfold touches_only. simpl. repeat split; auto. Qed.

Lemma touches_only_write f c st evs k :
  touches_only f st (mkState k (temp_exists st) (put_file f c (temp_files st))
                             (out_files st) evs).
Proof.
  unfold touches_only. simpl. repeat split.
  - intros g Hg. apply get_put_other. exact Hg.
  - intros g Hg. apply put_file_names in Hg. exact Hg.
  - apply put_file_nodup.
Qed.

(** Every attempt sends one request; it ends the call ([Some _]), asks for
    another turn ([None]) or is interrupted; it writes at most the page file;
    and it says [True] only above a file of at least 1 KB. *)
Lemma download_pdf_attempt_cases site retry url f st :
  let out := download_pdf_attempt site retry url f st in
  requests_made (fst out) = S (requests_made st) /\
  touches_only f st (fst out) /\
  (snd out = inr KeyboardInterrupt \/ exists r, snd out = inl r) /\
  (snd out = inl (Some true) ->
   temp_exists (fst out) = true /\
   exists b, get_file f (temp_files (fst out)) = Some b /\ 1024 <= blob_size b).
Proof.
  unfold download_pdf_attempt, requests_get, raise_for_status, save_body,
         write_temp, getsize.
  unfold_monad.
  destruct (site (requests_made st) url) as [r| |]; cbn.
  2:{ split; [reflexivity|]. split; [apply touches_only_trace|].
      split; [eauto | discriminate]. }
  2:{ split; [reflexivity|]. split; [apply touches_only_trace|].
      split; [eauto | discriminate]. }
  destruct ((400 <=? status_code r) && (status_code r <? 600)); cbn.
  { split; [reflexivity|]. split; [apply touches_only_trace|].
    split; [eauto | discriminate]. }
  destruct (negb (PyStr.contains "application/pdf" (header_or_empty (content_type r)))); cbn.
  { split; [reflexivity|]. split; [apply touches_only_trace|].
    split; [eauto | discriminate]. }
  destruct (body r) as [c|[c|]]; cbn.
  - destruct (temp_exists st) eqn:Eex; cbn.
    + rewrite get_put_same. cbn.
      destruct (1024 <=? blob_size c) eqn:Esz; cbn.
      * split; [reflexivity|].
        split; [rewrite <- Eex; apply touches_only_write|].
        split; [eauto|].
        intros _. split; [reflexivity|].
        exists c. split; [apply get_put_same | lia].
      * split; [reflexivity|].
        split; [rewrite <- Eex; apply touches_only_write|].
        split; [eauto | discriminate].
    + split; [reflexivity|].
      split; [rewrite <- Eex at 1; apply touches_only_trace|].
      split; [eauto | discriminate].
  - destruct (temp_exists st) eqn:Eex; cbn.
    + split; [reflexivity|].
      split; [rewrite <- Eex; apply touches_only_write|].
      split; [eauto | discriminate].
    + split; [reflexivity|].
      split; [rewrite <- Eex at 1; apply touches_only_trace|].
      split; [eauto | discriminate].
  - split; [reflexivity|]. split; [apply touches_only_trace|].
    split; [eauto | discriminate].
Qed.

(** ** [download_pdf], the whole call *)

Lemma download_pdf_loop_cases site turns : forall retry url f st,
  let out := download_pdf_loop site turns retry url f st in
  (requests_made st <= requests_made (fst out) <= requests_made st + turns)%nat /\
  touches_only f st (fst out) /\
  (snd out = inr KeyboardInterrupt \/ exists b, snd out = inl b) /\
  (snd out = inl true ->
   temp_exists (fst out) = true /\
   exists b, get_file f (temp_files (fst out)) = Some b /\ 1024 <= blob_size b).
Proof.
  induction turns as [|turns IH]; intros retry url f st; cbv zeta;
    cbn [download_pdf_loop].
  - rewrite run_ret. cbn. split; [lia|]. split; [apply touches_only_refl|].
    split; [eauto | discriminate].
  - rewrite run_bind.
    pose proof (download_pdf_attempt_cases site retry url f st) as (Hreq & Htouch & Hres & Hbig).
    destruct (download_pdf_attempt site retry url f st) as [st1 [[b|]|e]]; cbn in *.
    + split; [lia|]. split; [exact Htouch|].
      split; [eauto|]. intros [= ->]. apply Hbig. reflexivity.
    + specialize (IH (S retry) url f st1).
      destruct (download_pdf_loop site turns (S retry) url f st1) as [st2 res].
      cbn in *. destruct IH as (Hreq2 & Htouch2 & Hres2 & Hbig2).
      split; [lia|]. split; [eapply touches_only_trans; eassumption|].
      split; assumption.
    + split; [lia|]. split; [exact Htouch|].
      split; [|discriminate].
      destruct Hres as [[= ->]|[r Hr]]; [left; reflexivity | discriminate].
Qed.

(** X: [download_pdf] answers [True] only when the page file is in the
    workspace with at least 1 KB. *)
Theorem download_pdf_true_means_file
        (site : World) (url filename : string) (st st' : State) :
  download_pdf site url filename st = (st', inl true) ->
  temp_exists st' = true /\
  exists b, get_file filename (temp_files st') = Some b /\ 1024 <= blob_size b.
Proof.
  intros Hrun. unfold download_pdf in Hrun.
  pose proof (download_pdf_loop_cases site MAX_RETRIES 0 url filename st)
    as (_ & _ & _ & Hbig).
  rewrite Hrun in Hbig. cbn [fst snd] in Hbig. exact (Hbig eq_refl).
Qed.

Lemma download_pdf_true_witness :
  exists b, get_file "rmrb2024010101.pdf"
              (temp_files (fst (download_pdf (fun _ _ => answer_pdf good_page) "u"
                                             "rmrb2024010101.pdf" (workspace []))))
            = Some b /\ 1024 <= blob_size b.
Proof.
  exact (proj2 (download_pdf_true_means_file
                  (fun _ _ => answer_pdf good_page) "u" "rmrb2024010101.pdf"
                  (workspace [])
                  (fst (download_pdf (fun _ _ => answer_pdf good_page) "u"
                                     "rmrb2024010101.pdf" (workspace [])))
                  eq_refl)).
Defined.

(** X: [download_pdf] sends at most 3 requests, lets nothing escape but a
    [KeyboardInterrupt], writes no file of the workspace but the page file
    and never touches the download directory. *)
Theorem download_pdf_is_bounded (site : World) (url filename : string) :
  bounded 3 (download_pdf site url filename) /\
  contained (download_pdf site url filename) /\
  (forall st, touches_only filename st (fst (download_pdf site url filename st))).
Proof.
  split; [|split].
  - intros st.
    pose proof (download_pdf_loop_cases site MAX_RETRIES 0 url filename st)
      as (H & _). exact H.
  - intros st.
    pose proof (download_pdf_loop_cases site MAX_RETRIES 0 url filename st)
      as (_ & _ & [H|[b H]] & _); unfold download_pdf; rewrite H; exact I.
  - intros st.
    pose proof (download_pdf_loop_cases site MAX_RETRIES 0 url filename st)
      as (_ & H & _). exact H.
Qed.

(** A reply on which the attempt raises before anything is written: the
    request itself fails, or [raise_for_status] refuses the status. *)
Definition fails_clean (rp : Reply) : bool :=
  match rp with
  | Failed => true
  | Answered r => (400 <=? status_code r) && (status_code r <? 600)
  | Interrupted => false
  end.

(** A reply that delivers the whole body [c] as a PDF. *)
Definition delivers (rp : Reply) (c : Blob) : Prop :=
  exists r, rp = Answered r /\
            (400 <=? status_code r) && (status_code r <? 600) = false /\
            PyStr.contains "application/pdf" (header_or_empty (content_type r)) = true /\
            body r = BodyComplete c.

Lemma download_pdf_attempt_fails site retry url f st :
  fails_clean (site (requests_made st) url) = true ->
  download_pdf_attempt site retry url f st =
  (advance st 1 [EvHttpGet url; EvLog Warning (MsgDownloadFailed (retry + 1) f);
                 EvSleep 1], inl None).
Proof.
  intros Hf. unfold download_pdf_attempt, requests_get, raise_for_status.
  unfold_monad. unfold advance.
  destruct (site (requests_made st) url) as [r| |]; cbn in *; try discriminate.
  - rewrite Hf. cbn. rewrite <- !app_assoc, !Nat.add_1_r. reflexivity.
  - rewrite <- !app_assoc, !Nat.add_1_r. reflexivity.
Qed.

Lemma download_pdf_attempt_small site retry url f st c :
  temp_exists st = true ->
  delivers (site (requests_made st) url) c -> blob_size c < 1024 ->
  download_pdf_attempt site retry url f st =
  (mkState (requests_made st + 1) true (put_file f c (temp_files st)) (out_files st)
           (trace st ++ [EvHttpGet url; EvWriteTemp f]), inl None).
Proof.
  intros Hex (r & Hr & Hst & Hty & Hbody) Hsz.
  unfold download_pdf_attempt, requests_get, raise_for_status, save_body,
         write_temp, getsize.
  unfold_monad. rewrite Hr. cbn. rewrite Hst, Hty. cbn. rewrite Hbody, Hex. cbn.
  rewrite get_put_same. cbn.
  assert ((1024 <=? blob_size c) = false) as -> by lia.
  rewrite <- !app_assoc. replace (S (requests_made st)) with (requests_made st + 1)%nat by lia.
  reflexivity.
Qed.

(** X: when each of the three attempts fails cleanly (network error or HTTP
    error status), [download_pdf] returns [False] after exactly three
    requests, three warnings numbered 1 to 3 and three pauses of one second,
    and the workspace is as before. *)
Theorem download_pdf_gives_up (site : World) (url filename : string) (st : State) :
  (forall j, (j < 3)%nat -> fails_clean (site (requests_made st + j)%nat url) = true) ->
  download_pdf site url filename st =
  (advance st 3
     [EvHttpGet url; EvLog Warning (MsgDownloadFailed 1 filename); EvSleep 1;
      EvHttpGet url; EvLog Warning (MsgDownloadFailed 2 filename); EvSleep 1;
      EvHttpGet url; EvLog Warning (MsgDownloadFailed 3 filename); EvSleep 1],
   inl false).
Proof.
  intros H.
  pose proof (H 0%nat ltac:(lia)) as H0. rewrite Nat.add_0_r in H0.
  pose proof (H 1%nat ltac:(lia)) as H1.
  pose proof (H 2%nat ltac:(lia)) as H2.
  unfold download_pdf, MAX_RETRIES. cbn [download_pdf_loop].
  rewrite run_bind, (download_pdf_attempt_fails _ _ _ _ _ H0).
  rewrite run_bind, download_pdf_attempt_fails by exact H1.
  rewrite run_bind, download_pdf_attempt_fails
    by (cbn [advance requests_made];
        replace (requests_made st + 1 + 1)%nat with (requests_made st + 2)%nat by lia;
        exact H2).
  rewrite run_ret, !advance_advance. reflexivity.
Qed.

Lemma download_pdf_gives_up_witness :
  snd (download_pdf site_all_404 "u" "rmrb2024010101.pdf" initial_state) = inl false.
Proof.
  rewrite (download_pdf_gives_up site_all_404 "u" "rmrb2024010101.pdf" initial_state
             (fun j _ => eq_refl)).
  reflexivity.
Defined.

(** X: a complete PDF body under 1 KB is written and then neither logged
    nor paused upon: the next attempt follows at once, and after three such
    bodies [download_pdf] returns [False] and leaves the last undersized
    file in the workspace. *)
Theorem download_pdf_undersized
        (site : World) (url filename : string) (st : State) (c0 c1 c2 : Blob) :
  temp_exists st = true ->
  delivers (site (requests_made st) url) c0 -> blob_size c0 < 1024 ->
  delivers (site (requests_made st + 1)%nat url) c1 -> blob_size c1 < 1024 ->
  delivers (site (requests_made st + 2)%nat url) c2 -> blob_size c2 < 1024 ->
  let out := download_pdf site url filename st in
  snd out = inl false /\
  requests_made (fst out) = (requests_made st + 3)%nat /\
  new_events st out = [EvHttpGet url; EvWriteTemp filename;
                       EvHttpGet url; EvWriteTemp filename;
                       EvHttpGet url; EvWriteTemp filename] /\
  get_file filename (temp_files (fst out)) = Some c2.
Proof.
  intros Hex D0 S0 D1 S1 D2 S2 out. subst out.
  unfold download_pdf, MAX_RETRIES. cbn [download_pdf_loop].
  rewrite run_bind, (download_pdf_attempt_small _ _ _ _ _ _ Hex D0 S0).
  rewrite run_bind, (download_pdf_attempt_small _ _ _ _ _ c1) by (cbn; auto).
  rewrite run_bind, (download_pdf_attempt_small _ _ _ _ _ c2)
    by (cbn; auto;
        replace (requests_made st + 1 + 1)%nat with (requests_made st + 2)%nat by lia;
        auto).
  rewrite run_ret. cbn [fst snd requests_made temp_files].
  split; [reflexivity|]. split; [lia|]. split; [|apply get_put_same].
  unfold new_events. cbn [fst trace]. rewrite <- !app_assoc.
  rewrite skipn_app, Nat.sub_diag, skipn_all. reflexivity.
Qed.

Lemma download_pdf_undersized_witness :
  get_file "rmrb2024010101.pdf"
    (temp_files (fst (download_pdf (fun _ _ => answer_pdf stub_page) "u"
                                   "rmrb2024010101.pdf" (workspace []))))
  = Some stub_page.
Proof.
  assert (D : forall n, delivers ((fun (_ : nat) (_ : string) => answer_pdf stub_page) n "u")
                                 stub_page).
  { intros n. eexists. repeat split; reflexivity. }
  exact (proj2 (proj2 (proj2
    (download_pdf_undersized (fun _ _ => answer_pdf stub_page) "u"
       "rmrb2024010101.pdf" (workspace []) stub_page stub_page stub_page
       eq_refl (D 0%nat) eq_refl (D 1%nat) eq_refl (D 2%nat) eq_refl)))).
Defined.

(** ** [safe_request] and [get_page_info]: cost, escapes, postconditions *)

Lemma story_outcome site url turns : forall n,
  match snd (request_story site turns url n) with
  | inl (Some r) => status_code r = 200
  | inl None => True
  | inr KeyboardInterrupt => True
  | inr _ => False
  end.
Proof.
  induction turns as [|t IH]; intros n; cbn [request_story]; [exact I|].
  specialize (IH (S n)).
  destruct (site n url) as [r| |].
  - destruct (status_code r =? 200) eqn:E2; [apply Z.eqb_eq in E2; exact E2|].
    destruct (status_code r =? 404); [exact I|].
    destruct (request_story site t url (S n)) as [evs res]. exact IH.
  - destruct (request_story site t url (S n)) as [evs res]. exact IH.
  - exact I.
Qed.

Lemma safe_request_shape site url st :
  exists k evs res,
    safe_request site url st = (advance st k evs, res) /\ (k <= 3)%nat /\
    match res with
    | inl (Some r) => status_code r = 200
    | inl None => True
    | inr KeyboardInterrupt => True
    | inr _ => False
    end.
Proof.
  unfold safe_request, MAX_RETRIES. rewrite safe_request_loop_run.
  pose proof (story_gets_le site url 3 (requests_made st)) as Hle.
  pose proof (story_outcome site url 3 (requests_made st)) as Hout.
  destruct (request_story site 3 url (requests_made st)) as [evs res].
  exists (count_gets evs), evs, res. auto.
Qed.

(** X: [safe_request] hands back a response only when its status is 200;
    it sends at most 3 requests, lets nothing escape but a
    [KeyboardInterrupt], and leaves both directories as they are. *)
Theorem safe_request_postcondition (site : World) (url : string) :
  bounded 3 (safe_request site url) /\
  contained (safe_request site url) /\
  keeps_workspace (safe_request site url) /\
  keeps_outputs (safe_request site url) /\
  (forall st r, snd (safe_request site url st) = inl (Some r) -> status_code r = 200).
Proof.
  split; [|split; [|split; [|split]]].
  - intros st. destruct (safe_request_shape site url st) as (k & evs & res & -> & Hk & _).
    cbn. lia.
  - intros st. destruct (safe_request_shape site url st) as (k & evs & res & -> & _ & H).
    cbn. destruct res as [[r|]|[| |c]]; auto.
  - intros st. destruct (safe_request_shape site url st) as (k & evs & res & -> & _).
    split; reflexivity.
  - apply keeps_safe_request.
  - intros st r Hr.
    destruct (safe_request_shape site url st) as (k & evs & res & E & _ & H).
    rewrite E in Hr. cbn in Hr. subst res. exact H.
Qed.

Lemma get_page_info_shape site o n st :
  exists k evs res,
    get_page_info site o n st = (advance st k evs, res) /\ (k <= 6)%nat /\
    match res with
    | inl (pages, true) => 1 <= pages
    | inl (pages, false) => 0 <= pages
    | inr (SystemExit c) => c = 1
    | inr KeyboardInterrupt => True
    | inr PyException => False
    end.
Proof.
  rewrite get_page_info_run.
  destruct (safe_request_shape site n st) as (k1 & e1 & r1 & -> & Hk1 & H1).
  assert (Hleg : exists k evs res,
             legacy_probe site o (advance st k1 e1) = (advance st k evs, res) /\
             (k <= 6)%nat /\
             match res with
             | inl (pages, true) => 1 <= pages
             | inl (pages, false) => 0 <= pages
             | inr (SystemExit c) => c = 1
             | inr KeyboardInterrupt => True
             | inr PyException => False
             end).
  { unfold legacy_probe.
    destruct (safe_request_shape site o (advance st k1 e1)) as (k2 & e2 & r2 & -> & Hk2 & H2).
    destruct r2 as [[r|]|[| |c]]; try contradiction; rewrite ?advance_advance.
    - eexists _, _, _. split; [reflexivity|]. split; [lia|]. unfold legacy_marks. lia.
    - eexists _, _, _. split; [reflexivity|]. split; [lia|]. reflexivity.
    - eexists _, _, _. split; [reflexivity|]. split; [lia|]. exact I. }
  destruct r1 as [[r|]|[| |c]]; try contradiction.
  - destruct (0 <? page_links r) eqn:Epos; [|exact Hleg].
    apply Z.ltb_lt in Epos.
    eexists _, _, _. split; [reflexivity|]. split; [lia|]. lia.
  - exact Hleg.
  - eexists _, _, _. split; [reflexivity|]. split; [lia|]. exact I.
Qed.

(** X: [get_page_info] sends at most 6 requests and touches neither
    directory; it ends by returning a page count (at least 1 for the current
    layout, at least 0 for the legacy one), by [sys.exit(1)], or by a
    [KeyboardInterrupt]; no other exception escapes. *)
Theorem get_page_info_postcondition (site : World) (old_url new_url : string) :
  bounded 6 (get_page_info site old_url new_url) /\
  keeps_workspace (get_page_info site old_url new_url) /\
  keeps_outputs (get_page_info site old_url new_url) /\
  (forall st, match snd (get_page_info site old_url new_url st) with
              | inl (pages, true) => 1 <= pages
              | inl (pages, false) => 0 <= pages
              | inr (SystemExit c) => c = 1
              | inr KeyboardInterrupt => True
              | inr PyException => False
              end).
Proof.
  split; [|split; [|split]].
  - intros st.
    destruct (get_page_info_shape site old_url new_url st) as (k & evs & res & -> & Hk & _).
    cbn. lia.
  - intros st.
    destruct (get_page_info_shape site old_url new_url st) as (k & evs & res & -> & _).
    split; reflexivity.
  - apply keeps_get_page_info.
  - intros st.
    destruct (get_page_info_shape site old_url new_url st) as (k & evs & res & -> & _ & H).
    exact H.
Qed.

(** ** The fetch loop *)

(** The part of one turn of the loop that fetches the page. *)
Definition fetch_one (site : World) (page : Z) (old_fmt file_fmt new_fmt : string)
           (is_new : bool) : M bool :=
  let filename := page_filename file_fmt page in
  if is_new then
    let node_url := "http://paper.people.com.cn/rmrb/pc/layout/" +:+ new_fmt
                    +:+ "/node_" +:+ PyStr.pad 2 page +:+ ".html" in
    response ← safe_request site node_url;
    match response with
    | None => mret false
    | Some r =>
        match first_attachment (text r) with
        | Some m =>
            download_pdf site ("http://paper.people.com.cn/rmrb/pc/" +:+ m) filename
        | None => log Error (MsgLinkNotFound page);; mret false
        end
    end
  else
    download_pdf site ("http://paper.people.com.cn/rmrb/images/" +:+ old_fmt
                       +:+ "/rmrb" +:+ file_fmt +:+ PyStr.pad 2 page +:+ ".pdf")
                 filename.

Lemma fetch_pages_step site turns page success o f n is_new outer :
  fetch_pages site (S turns) page success o f n is_new outer =
  ((if cancel_requested outer then raise KeyboardInterrupt else mret tt);;
   got ← fetch_one site page o f n is_new;
   fetch_pages site turns (page + 1) (if got : bool then success + 1 else success)
               o f n is_new outer).
Proof. reflexivity. Qed.

Definition per_page (is_new : bool) : nat := if is_new then 6%nat else 3%nat.

Lemma touches_only_advance f st k evs : touches_only f st (advance st k evs).
Proof. apply touches_only_trace. Qed.

Lemma fetch_one_cases site page o f n is_new st :
  let out := fetch_one site page o f n is_new st in
  (requests_made st <= requests_made (fst out) <= requests_made st + per_page is_new)%nat /\
  touches_only (page_filename f page) st (fst out) /\
  (snd out = inr KeyboardInterrupt \/ exists b, snd out = inl b) /\
  (snd out = inl true ->
   temp_exists (fst out) = true /\
   exists b, get_file (page_filename f page) (temp_files (fst out)) = Some b /\
             1024 <= blob_size b).
Proof.
  cbv zeta. unfold fetch_one. destruct is_new; cbn [per_page].
  - rewrite run_bind.
    destruct (safe_request_shape site
                ("http://paper.people.com.cn/rmrb/pc/layout/" +:+ n +:+ "/node_"
                 +:+ PyStr.pad 2 page +:+ ".html") st)
      as (k & evs & res & -> & Hk & Hres).
    destruct res as [[r|]|[| |c]]; try contradiction.
    + destruct (first_attachment (text r)) as [m|].
      * pose proof (download_pdf_loop_cases site MAX_RETRIES 0
                      ("http://paper.people.com.cn/rmrb/pc/" +:+ m)
                      (page_filename f page) (advance st k evs))
          as (Hreq & Htouch & Hesc & Hbig).
        unfold download_pdf.
        destruct (download_pdf_loop site MAX_RETRIES 0 _ _ (advance st k evs))
          as [st2 res2]. cbn [fst snd] in *. unfold MAX_RETRIES in Hreq.
        cbn [advance requests_made] in Hreq.
        split; [lia|].
        split; [eapply touches_only_trans; [apply touches_only_advance | exact Htouch]|].
        split; assumption.
      * unfold_monad. cbn. split; [lia|].
        split; [apply touches_only_trace|].
        split; [eauto | discriminate].
    + rewrite run_ret. cbn. split; [lia|]. split; [apply touches_only_advance|].
      split; [eauto | discriminate].
    + cbn. split; [lia|]. split; [apply touches_only_advance|].
      split; [auto | discriminate].
  - pose proof (download_pdf_loop_cases site MAX_RETRIES 0
                  ("http://paper.people.com.cn/rmrb/images/" +:+ o +:+ "/rmrb" +:+ f
                   +:+ PyStr.pad 2 page +:+ ".pdf")
                  (page_filename f page) st) as H.
    exact H.
Qed.

(** The page files of the pages [page .. page + turns - 1]. *)
Definition page_names (file_fmt : string) (page : Z) (turns : nat) : list string :=
  map (fun k => page_filename file_fmt (page + Z.of_nat k)) (seq 0 turns).

Lemma page_names_S f page turns :
  page_names f page (S turns) = page_filename f page :: page_names f (page + 1) turns.
Proof.
  unfold page_names. cbn [seq map]. rewrite Z.add_0_r. f_equal.
  rewrite <- seq_shift, List.map_map. apply List.map_ext.
  intros k. f_equal. lia.
Qed.

(** As [touches_only], for a set of files. *)
Definition touches_set (names : list string) (before after : State) : Prop :=
  temp_exists after = temp_exists before /\
  out_files after = out_files before /\
  (forall g, ~ In g names -> get_file g (temp_files after) = get_file g (temp_files before)) /\
  (forall g, In g (map fst (temp_files after)) ->
             In g names \/ In g (map fst (temp_files before))) /\
  (List.NoDup (map fst (temp_files before)) -> List.NoDup (map fst (temp_files after))).

Lemma touches_set_refl names st : touches_set names st st.
Proof. unfold touches_set. repeat split; auto. Qed.

Lemma touches_only_set f names a b :
  In f names -> touches_only f a b -> touches_set names a b.
Proof.
  intros Hin (E & O & G & N & D). unfold touches_set. repeat split; auto.
  - intros g Hg. apply G. intros ->. contradiction.
  - intros g Hg. destruct (N g Hg) as [->|H]; auto.
Qed.

Lemma touches_set_weaken names names' a b :
  (forall g, In g names -> In g names') -> touches_set names a b -> touches_set names' a b.
Proof.
  intros Hsub (E & O & G & N & D). unfold touches_set. repeat split; auto.
  intros g Hg. destruct (N g Hg) as [H|H]; auto.
Qed.

Lemma touches_set_trans names a b c :
  touches_set names a b -> touches_set names b c -> touches_set names a c.
Proof.
  intros (E1 & O1 & G1 & N1 & D1) (E2 & O2 & G2 & N2 & D2).
  unfold touches_set. repeat split.
  - congruence.
  - congruence.
  - intros g Hg. rewrite G2, G1 by exact Hg. reflexivity.
  - intros g Hg. destruct (N2 g Hg) as [H|H]; auto.
  - auto.
Qed.

Lemma big_of_get files g b :
  get_file g files = Some b -> 1024 <= blob_size b -> big files g = true.
Proof. intros Hg Hsz. unfold big. rewrite Hg. lia. Qed.

Lemma fetch_pages_cases site turns : forall page success o f n is_new outer st,
  let out := fetch_pages site turns page success o f n is_new outer st in
  (requests_made st <= requests_made (fst out)
   <= requests_made st + turns * per_page is_new)%nat /\
  touches_set (page_names f page turns) st (fst out) /\
  (snd out = inr KeyboardInterrupt \/
   exists s, snd out = inl s /\ success <= s <= success + Z.of_nat turns) /\
  (snd out = inl (success + Z.of_nat turns) ->
   ((0 < turns)%nat -> temp_exists (fst out) = true) /\
   forall g, In g (page_names f page turns) -> big (temp_files (fst out)) g = true).
Proof.
  induction turns as [|turns IH]; intros page success o f n is_new outer st; cbv zeta.
  - cbn [fetch_pages]. rewrite run_ret. cbn.
    split; [lia|]. split; [apply touches_set_refl|].
    split; [right; exists success; split; [reflexivity | lia]|].
    intros _. split; [lia | intros g []].
  - rewrite fetch_pages_step, page_names_S. rewrite run_bind.
    destruct (cancel_requested outer).
    { cbn. split; [lia|]. split; [apply touches_set_refl|].
      split; [left; reflexivity | discriminate]. }
    rewrite run_ret. rewrite run_bind.
    pose proof (fetch_one_cases site page o f n is_new st) as (Hreq & Htouch & Hesc & Hbig).
    destruct (fetch_one site page o f n is_new st) as [st1 [got|e]]; cbn [fst snd] in *.
    2:{ split; [lia|].
        split; [eapply touches_only_set; [left; reflexivity | exact Htouch]|].
        split; [|discriminate].
        destruct Hesc as [[= ->]|[b Hb]]; [left; reflexivity | discriminate]. }
    specialize (IH (page + 1) (if got then success + 1 else success) o f n is_new outer st1).
    cbv zeta in IH.
    destruct (fetch_pages site turns (page + 1) (if got then success + 1 else success)
                          o f n is_new outer st1) as [st2 res2].
    cbn [fst snd] in *. destruct IH as (Hreq2 & Htouch2 & Hesc2 & Hbig2).
    assert (Hset : touches_set (page_filename f page :: page_names f (page + 1) turns)
                               st st2).
    { eapply touches_set_trans.
      - eapply touches_only_set; [left; reflexivity | exact Htouch].
      - eapply touches_set_weaken; [|exact Htouch2]. intros g Hg. right. exact Hg. }
    split; [lia|]. split; [exact Hset|]. split.
    + destruct Hesc2 as [->|(s & -> & Hs)]; [left; reflexivity|].
      right. exists s. split; [reflexivity|]. destruct got; lia.
    + intros Hall.
      destruct Hesc2 as [Hk|(s & Hs & Hrange)]; [rewrite Hk in Hall; discriminate|].
      rewrite Hs in Hall. injection Hall as Hall.
      assert (got = true) as -> by (destruct got; [reflexivity | lia]).
      destruct (Hbig eq_refl) as (Hex1 & b & Hb & Hsz).
      assert (Hs' : res2 = inl (success + 1 + Z.of_nat turns)).
      { rewrite Hs. f_equal. lia. }
      destruct (Hbig2 Hs') as (_ & Hrest).
      destruct Htouch2 as (Hex2 & _ & Hget2 & _).
      split; [intros _; congruence|].
      intros g [<-|Hg]; [|apply Hrest; exact Hg].
      destruct (in_dec string_dec (page_filename f page)
                       (page_names f (page + 1) turns)) as [Hin|Hnot].
      * apply Hrest. exact Hin.
      * eapply big_of_get; [|exact Hsz]. rewrite Hget2 by exact Hnot. exact Hb.
Qed.






(** ** [download_edition]: outcomes *)

(** X: [download_edition] never writes to the download directory; it ends
    by returning a bool, by [sys.exit(1)] (the locate failure) or by a
    [KeyboardInterrupt] of the locate phase, and no other exception escapes:
    whatever escapes is what [get_page_info] raised, in the state
    [get_page_info] left, while a [KeyboardInterrupt] of the page loop is
    caught, logged as a warning and turned into [False]; and it returns
    [True] only when the output was already there or every page 1..N of the
    located edition has its file, of at least 1 KB, in the workspace. *)
Theorem download_edition_outcomes
        (site : World) (d : date) (outer : option Outer) (st : State) :
  let out := download_edition site d outer st in
  out_files (fst out) = out_files st /\
  match snd out with
  | inr PyException => False
  | inr (SystemExit c) => c = 1
  | _ => True
  end /\
  (snd out = inl true ->
   is_Some (out_files st !! canonical_output d) \/
   exists st1 total_pages is_new,
     get_page_info site (old_cover_url d) (new_cover_url d) st
     = (st1, inl (total_pages, is_new)) /\
     forall g, In g (page_names (strftime_Ymd d) 1 (Z.to_nat total_pages)) ->
               big (temp_files (fst out)) g = true) /\
  (forall e, snd out = inr e ->
     out_files st !! canonical_output d = None /\
     get_page_info site (old_cover_url d) (new_cover_url d) st = (fst out, inr e)) /\
  (forall st1 total_pages is_new st2,
     out_files st !! canonical_output d = None ->
     get_page_info site (old_cover_url d) (new_cover_url d) st
     = (st1, inl (total_pages, is_new)) ->
     fetch_loop site d total_pages is_new outer
                (advance st1 0 [EvLog Info (MsgDetected total_pages is_new)])
     = (st2, inr KeyboardInterrupt) ->
     out = (advance st2 0 [EvLog Warning MsgUserAbort], inl false)).
Proof.
  cbv zeta. split; [apply keeps_download_edition|].
  destruct (out_files st !! canonical_output d) as [doc|] eqn:Elook.
  { rewrite download_edition_skip_run by (rewrite Elook; eauto).
    cbn. split; [exact I|]. split; [intros _; left; eauto|].
    split; [intros e He; discriminate He|].
    intros st1 total_pages is_new st2 Hnone. discriminate Hnone. }
  rewrite (download_edition_run _ _ _ _ Elook).
  destruct (get_page_info_shape site (old_cover_url d) (new_cover_url d) st)
    as (k & evs & res & E & _ & Hres).
  rewrite E.
  destruct res as [[total_pages is_new]|e].
  2:{ cbn. split; [destruct e; [contradiction | exact I | exact Hres]|].
      split; [discriminate|].
      split; [intros e' [= <-]; split; reflexivity|].
      intros st1 total_pages is_new st2 _ Hloc. discriminate Hloc. }
  unfold after_locate.
  pose proof (fetch_pages_cases site (Z.to_nat total_pages) 1 0
                (strftime_Y_m_slash_d d) (strftime_Ymd d) (strftime_Ym_slash_d d)
                is_new outer
                (advance (advance st k evs) 0 [EvLog Info (MsgDetected total_pages is_new)]))
    as (_ & _ & Hesc & Hbig).
  assert (Hcaught : forall st1 total_pages0 is_new0 st2,
            (None : option Doc) = None ->
            (advance st k evs, inl (total_pages, is_new) : Z * bool + exn)
            = (st1, inl (total_pages0, is_new0)) ->
            fetch_loop site d total_pages0 is_new0 outer
                       (advance st1 0 [EvLog Info (MsgDetected total_pages0 is_new0)])
            = (st2, inr KeyboardInterrupt) ->
            match fetch_loop site d total_pages is_new outer
                    (advance (advance st k evs) 0
                             [EvLog Info (MsgDetected total_pages is_new)]) with
            | (s2, inl success) =>
                if success <? total_pages
                then (advance s2 0 [EvLog Warning (MsgPartial success total_pages)],
                      inl false)
                else (s2, inl true)
            | (s2, inr KeyboardInterrupt) =>
                (advance s2 0 [EvLog Warning MsgUserAbort], inl false)
            | (s2, inr PyException) =>
                (advance s2 0 [EvLog Error MsgDownloadError], inl false)
            | (s2, inr (SystemExit c)) => (s2, inr (SystemExit c))
            end = (advance st2 0 [EvLog Warning MsgUserAbort], inl false)).
  { intros st1 total_pages0 is_new0 st2 _ [= <- <- <-] Hloop.
    rewrite Hloop. reflexivity. }
  unfold fetch_loop in *.
  destruct (fetch_pages site (Z.to_nat total_pages) 1 0 _ _ _ is_new outer _)
    as [st2 res2]. cbn [fst snd] in *.
  destruct Hesc as [->|(s & -> & Hs)].
  { cbn. split; [exact I|]. split; [discriminate|].
    split; [intros e He; discriminate He | exact Hcaught]. }
  destruct (s <? total_pages) eqn:Elt.
  { cbn. split; [exact I|]. split; [discriminate|].
    split; [intros e He; discriminate He | exact Hcaught]. }
  cbn. split; [exact I|]. split.
  - intros _. right.
    exists (advance st k evs), total_pages, is_new. split; [reflexivity|].
    apply Z.ltb_ge in Elt.
    destruct (Z.to_nat total_pages) as [|t] eqn:Et; [intros g []|].
    apply Hbig. f_equal. lia.
  - split; [intros e He; discriminate He | exact Hcaught].
Qed.

(** ** The cancellation test of the fetch loop *)

Lemma fetch_pages_outer site turns : forall page success o f n is_new outer outer' st,
  cancel_requested outer = cancel_requested outer' ->
  fetch_pages site turns page success o f n is_new outer st =
  fetch_pages site turns page success o f n is_new outer' st.
Proof.
  induction turns as [|turns IH]; intros page success o f n is_new outer outer' st Hc;
    [reflexivity|].
  rewrite !fetch_pages_step, !run_bind, Hc.
  destruct (cancel_requested outer') eqn:Ec; [reflexivity|].
  assert (Hc' : cancel_requested outer = cancel_requested outer')
    by (rewrite Ec; exact Hc).
  rewrite run_ret, !run_bind.
  destruct (fetch_one site page o f n is_new st) as [st1 [got|e]]; [|reflexivity].
  apply IH. exact Hc'.
Qed.

Lemma download_edition_outer site d outer outer' st :
  cancel_requested outer = cancel_requested outer' ->
  download_edition site d outer st = download_edition site d outer' st.
Proof.
  intros Hc.
  destruct (out_files st !! canonical_output d) as [doc|] eqn:Elook.
  - rewrite !download_edition_skip_run by (rewrite Elook; eauto). reflexivity.
  - rewrite !(download_edition_run _ _ _ _ Elook).
    destruct (get_page_info site (old_cover_url d) (new_cover_url d) st)
      as [st1 [[total_pages is_new]|e]]; [|reflexivity].
    unfold after_locate, fetch_loop.
    rewrite (fetch_pages_outer _ _ _ _ _ _ _ _ outer outer' _ Hc). reflexivity.
Qed.

(** X: the fetch loop tests [main_task and progress and ...finished], and a
    task id of 0 is falsy.  With the id 0 that the batch passes (the first
    task of its progress bar) the test is never true, whatever the state of
    the bar: [download_edition] runs exactly as in single-date mode.  With a
    non-zero id and a finished task, an edition of at least one page is
    abandoned before its first page request: a warning is logged and
    [False] is returned. *)
Theorem cancellation_test (site : World) (d : date) (st : State) :
  (forall finished,
     download_edition site d (Some (mkOuter 0 finished)) st
     = download_edition site d None st) /\
  (forall task st1 total_pages is_new,
     task <> 0 ->
     out_files st !! canonical_output d = None ->
     get_page_info site (old_cover_url d) (new_cover_url d) st
     = (st1, inl (total_pages, is_new)) ->
     1 <= total_pages ->
     download_edition site d (Some (mkOuter task true)) st
     = (advance st1 0 [EvLog Info (MsgDetected total_pages is_new);
                       EvLog Warning MsgUserAbort], inl false)).
Proof.
  split.
  - intros finished. apply download_edition_outer. reflexivity.
  - intros task st1 total_pages is_new Htask Hnone Hloc Hpages.
    rewrite (download_edition_run _ _ _ _ Hnone), Hloc.
    unfold after_locate, fetch_loop.
    destruct (Z.to_nat total_pages) as [|t] eqn:Et; [lia|].
    rewrite fetch_pages_step, run_bind.
    assert (cancel_requested (Some (mkOuter task true)) = true) as ->.
    { cbn. apply Z.eqb_neq in Htask. rewrite Htask. reflexivity. }
    cbn. rewrite advance_advance. reflexivity.
Qed.

Lemma cancellation_test_witness :
  snd (download_edition site_one_of_two new_year_2024 (Some (mkOuter 7 true))
                        (ready_batch initial_state)) = inl false.
Proof.
  pose (st := ready_batch initial_state).
  pose (loc := get_page_info site_one_of_two (old_cover_url new_year_2024)
                             (new_cover_url new_year_2024) st).
  fold st.
  rewrite (proj2 (cancellation_test site_one_of_two new_year_2024 st)
                 7 (fst loc) 2 false);
    [reflexivity | discriminate | reflexivity | vm_compute; reflexivity | lia].
Defined.

(** ** The contract of a merge *)

(** The page file [f] can be read by the PDF library. *)
Definition readable (files : list (string * Blob)) (f : string) : bool :=
  match get_file f files with
  | Some b => blob_readable b
  | None => false
  end.

Lemma assemble_result files names : forall doc,
  match snd (assemble files names doc) with
  | inl (Some doc') =>
      exists l, doc' = (doc ++ l)%list /\
                forall f, In f l ->
                          In f names /\ big files f = true /\ readable files f = true
  | inl None => True
  | inr PyException => True
  | inr _ => False
  end.
Proof.
  induction names as [|f rest IH]; intros doc; cbn [assemble].
  - cbn. exists []. rewrite app_nil_r. split; [reflexivity | intros f []].
  - destruct (get_file f files) as [b|] eqn:Eg; [|exact I].
    destruct (blob_size b <? 1024) eqn:Esz.
    + specialize (IH doc). destruct (assemble files rest doc) as [evs res]. cbn in *.
      destruct res as [[doc'|]|[| |c]]; auto.
      destruct IH as (l & -> & Hl). exists l. split; [reflexivity|].
      intros g Hg. destruct (Hl g Hg) as (H1 & H2 & H3). auto.
    + destruct (blob_readable b) eqn:Er; [|exact I].
      specialize (IH (doc ++ [f])%list).
      destruct (assemble files rest (doc ++ [f])%list) as [evs res]. cbn in *.
      destruct res as [[doc'|]|[| |c]]; auto.
      destruct IH as (l & -> & Hl). exists (f :: l).
      split; [rewrite <- app_assoc; reflexivity|].
      intros g [<-|Hg].
      * split; [left; reflexivity|]. unfold big, readable. rewrite Eg.
        split; [lia | exact Er].
      * destruct (Hl g Hg) as (H1 & H2 & H3). auto.
Qed.

Definition merge_contract (merge : M bool) : Prop :=
  forall st,
    requests_made (fst (merge st)) = requests_made st /\
    temp_exists (fst (merge st)) = temp_exists st /\
    temp_files (fst (merge st)) = temp_files st /\
    count_gets (new_events st (merge st)) = 0%nat /\
    ((snd (merge st) = inl false /\ out_files (fst (merge st)) = out_files st) \/
     (snd (merge st) = inl true /\
      exists name doc,
        doc <> [] /\
        out_files (fst (merge st)) = <[name := doc]> (out_files st) /\
        forall f, In f doc ->
                  In f (pdf_files_of st) /\
                  big (temp_files st) f = true /\ readable (temp_files st) f = true)).

Lemma merge_without_workspace st :
  temp_exists st = false ->
  merge_pdfs st = (advance st 0 [EvLog Critical MsgMergeCrashed], inl false) /\
  merge_pdfs_pypdf2 st = (advance st 0 [EvLog Critical MsgMergeCrashed], inl false).
Proof.
  intros Hex. unfold merge_pdfs, merge_pdfs_pypdf2, try_except, sorted_pdf_files, listdir.
  rewrite !run_bind, Hex. unfold_monad. rewrite <- advance_0_one. split; reflexivity.
Qed.

Lemma count_gets_app e1 e2 : count_gets (e1 ++ e2) = (count_gets e1 + count_gets e2)%nat.
Proof.
  unfold count_gets. rewrite List.filter_app, List.length_app. reflexivity.
Qed.

Lemma assemble_no_get files names : forall doc,
  count_gets (fst (assemble files names doc)) = 0%nat.
Proof.
  induction names as [|f rest IH]; intros doc; cbn [assemble]; [reflexivity|].
  destruct (get_file f files) as [b|]; [|reflexivity].
  destruct (blob_size b <? 1024).
  - specialize (IH doc). destruct (assemble files rest doc). exact IH.
  - destruct (blob_readable b); [|reflexivity].
    specialize (IH (doc ++ [f])%list). destruct (assemble files rest _). exact IH.
Qed.

Lemma merge_story_contract files :
  either_story (fun story =>
    count_gets (story_events (story files)) = 0%nat /\
    ((story_result (story files) = inl false /\ story_saved (story files) = None) \/
     (story_result (story files) = inl true /\
      exists name doc,
        doc <> [] /\ story_saved (story files) = Some (name, doc) /\
        forall f, In f doc ->
                  In f (List.filter is_pdf_name (map fst files)) /\
                  big files f = true /\ readable files f = true))).
Proof.
  unfold either_story, merge_story, merge_story_pypdf2.
  destruct (merge_order (map fst files)) as [[|first rest]|] eqn:Eo;
    try (split; (split; [reflexivity | left; split; reflexivity])).
  pose proof (merge_order_perm _ _ Eo) as Hperm.
  pose proof (assemble_result files (first :: rest) []) as Hres.
  pose proof (assemble_no_get files (first :: rest) []) as Hget.
  destruct (assemble files (first :: rest) []) as [evs res]. cbn [fst snd] in *.
  destruct res as [[[|p doc]|]|[| |c]]; try contradiction;
    try (split; (split;
                 [unfold story_events; cbn [fst]; rewrite ?count_gets_app, Hget; reflexivity
                 | left; split; reflexivity])).
  destruct Hres as (l & Hl & Hin). cbn [app] in Hl. subst l.
  split; (split;
          [unfold story_events; cbn [fst]; rewrite ?count_gets_app, Hget; reflexivity|]);
    right; (split; [reflexivity|]); eexists _, (p :: doc);
    (split; [discriminate|]); (split; [reflexivity|]);
    intros f Hf; destruct (Hin f Hf) as (H1 & H2 & H3);
    (split; [eapply Permutation_in; eassumption | auto]).
Qed.

(** X: a merge (of either script) never raises and never uses the network;
    it leaves the scratch directory as it is; it either returns [False] and
    leaves the download directory untouched, or returns [True] after
    writing, under one name, a non-empty document made only of .pdf files of
    the workspace that have at least 1 KB and can be read. *)
Theorem merge_keeps_its_contract :
  merge_contract merge_pdfs /\ merge_contract merge_pdfs_pypdf2.
Proof.
  assert (Hgen : forall merge story,
            (forall st, temp_exists st = true ->
                        merge st = after_merge st (story (temp_files st))) ->
            (forall st, temp_exists st = false ->
                        merge st = (advance st 0 [EvLog Critical MsgMergeCrashed],
                                    inl false)) ->
            (forall files,
                count_gets (story_events (story files)) = 0%nat /\
                ((story_result (story files) = inl false /\
                  story_saved (story files) = None) \/
                 (story_result (story files) = inl true /\
                  exists name doc,
                    doc <> [] /\ story_saved (story files) = Some (name, doc) /\
                    forall f, In f doc ->
                              In f (List.filter is_pdf_name (map fst files)) /\
                              big files f = true /\ readable files f = true))) ->
            merge_contract merge).
  { intros merge story Hrun Hnone Hstory st.
    destruct (temp_exists st) eqn:Eex.
    - rewrite (Hrun st Eex).
      destruct (after_merge_facts st (story (temp_files st))) as (-> & -> & ->).
      destruct (Hstory (temp_files st)) as (Hget & Hcases).
      destruct (story (temp_files st)) as [[evs sv] res].
      unfold story_events, story_result, story_saved in *. cbn [fst snd] in *.
      unfold after_merge. cbn [fst requests_made temp_exists temp_files].
      repeat (split; [first [reflexivity | assumption]|]).
      destruct Hcases as [(-> & ->)|(-> & name & doc & Hne & -> & Hin)].
      + left. split; reflexivity.
      + right. split; [reflexivity|]. exists name, doc. auto.
    - rewrite (Hnone st Eex). cbn [fst snd advance requests_made temp_exists temp_files
                                       out_files].
      rewrite new_events_advance.
      split; [lia|]. split; [exact Eex|]. split; [reflexivity|].
      split; [reflexivity|]. left. split; reflexivity. }
  split.
  - apply (Hgen merge_pdfs merge_story).
    + apply merge_pdfs_run.
    + intros st H. apply (merge_without_workspace st H).
    + intros files. apply (merge_story_contract files).
  - apply (Hgen merge_pdfs_pypdf2 merge_story_pypdf2).
    + apply merge_pdfs_pypdf2_run.
    + intros st H. apply (merge_without_workspace st H).
    + intros files. apply (merge_story_contract files).
Qed.

(** ** File names: page files, sort keys and the output name *)

Lemma substring_skip s : forall k m t,
  String.substring (String.length s + k) m (s +:+ t) = String.substring k m t.
Proof.
  induction s as [|c s IH]; intros k m t; [reflexivity|].
  cbn [String.length String.append Nat.add String.substring]. apply IH.
Qed.

Lemma substring_whole_prefix s : forall t,
  String.substring 0 (String.length s) (s +:+ t) = s.
Proof.
  induction s as [|c s IH]; intros t.
  - destruct t; reflexivity.
  - change (String c (String.substring 0 (String.length s) (s +:+ t)) = String c s).
    rewrite IH. reflexivity.
Qed.

Lemma length_append s t :
  String.length (s +:+ t) = (String.length s + String.length t)%nat.
Proof.
  induction s as [|c s IH]; [reflexivity|].
  change (S (String.length (s +:+ t)) = S (String.length s + String.length t)).
  rewrite IH. reflexivity.
Qed.

Lemma append_assoc s t u : (s +:+ t) +:+ u = s +:+ (t +:+ u).
Proof.
  induction s as [|c s IH]; [reflexivity|].
  change (String c ((s +:+ t) +:+ u) = String c (s +:+ (t +:+ u))).
  rewrite IH. reflexivity.
Qed.

Lemma drop_prefix s t : PyStr.drop (String.length s) (s +:+ t) = t.
Proof. induction s as [|c s IH]; [reflexivity | exact IH]. Qed.

Lemma ends_with_append s t : PyStr.ends_with t (s +:+ t) = true.
Proof.
  unfold PyStr.ends_with. rewrite length_append.
  replace (String.length s + String.length t - String.length t)%nat
    with (String.length s) by lia.
  rewrite drop_prefix, String.eqb_refl, andb_true_r.
  apply Nat.leb_le. lia.
Qed.

Lemma clamp_from_end n i : - n <= i < 0 -> PyStr.clamp n i = i + n.
Proof.
  intros H. unfold PyStr.clamp.
  rewrite (proj2 (Z.ltb_lt i 0)) by lia.
  rewrite (proj2 (Z.ltb_ge (i + n) 0)) by lia.
  rewrite (proj2 (Z.ltb_ge n (i + n))) by lia. reflexivity.
Qed.

Lemma clamp_inside n i : 0 <= i <= n -> PyStr.clamp n i = i.
Proof.
  intros H. unfold PyStr.clamp.
  rewrite !(proj2 (Z.ltb_ge i 0)) by lia.
  rewrite (proj2 (Z.ltb_ge n i)) by lia. reflexivity.
Qed.

(** The two characters before a four-character extension. *)
Lemma slice_before_extension s x y ext :
  String.length ext = 4%nat ->
  PyStr.slice (-6) (-4) (s +:+ String x (String y ext)) = String x (String y EmptyString).
Proof.
  intros Hext. unfold PyStr.slice, PyStr.len.
  rewrite length_append. cbn [String.length]. rewrite Hext.
  set (n := String.length s).
  rewrite !clamp_from_end by lia.
  destruct (Z.ltb_spec (-6 + Z.of_nat (n + 6)) (-4 + Z.of_nat (n + 6))); [|lia].
  replace (Z.to_nat (-6 + Z.of_nat (n + 6))) with (n + 0)%nat by lia.
  replace (Z.to_nat (-4 + Z.of_nat (n + 6) - (-6 + Z.of_nat (n + 6)))) with 2%nat by lia.
  subst n. rewrite substring_skip. cbn. destruct ext; reflexivity.
Qed.

(** [x[4:12]] of a name made of four characters, eight characters and a rest. *)
Lemma slice_date_part a b c d f rest :
  String.length f = 8%nat ->
  PyStr.slice 4 12 (String a (String b (String c (String d (f +:+ rest))))) = f.
Proof.
  intros Hf. unfold PyStr.slice, PyStr.len.
  cbn [String.length]. rewrite length_append, Hf.
  set (n := String.length rest).
  rewrite !clamp_inside by lia.
  destruct (Z.ltb_spec 4 12); [|lia].
  change (Z.to_nat 4) with 4%nat. change (Z.to_nat (12 - 4)) with 8%nat.
  cbn [String.substring]. rewrite <- Hf. apply substring_whole_prefix.
Qed.

(** [f"{page:02d}"] below 100: two characters that [int] reads back. *)
Definition two_digits_ok (k : nat) : bool :=
  match PyStr.pad 2 (Z.of_nat k) with
  | String x (String y EmptyString) =>
      match py_int (String x (String y EmptyString)) with
      | Some v => v =? Z.of_nat k
      | None => false
      end
  | _ => false
  end.

(** From 100 to 999: three characters, of which [int] reads the last two. *)
Definition three_digits_ok (k : nat) : bool :=
  match PyStr.pad 2 (Z.of_nat k) with
  | String _ (String x (String y EmptyString)) =>
      match py_int (String x (String y EmptyString)) with
      | Some v => v =? Z.of_nat k mod 100
      | None => false
      end
  | _ => false
  end.

Lemma two_digits_all : forallb two_digits_ok (seq 0 100) = true.
Proof. vm_compute. reflexivity. Qed.

Lemma three_digits_all : forallb three_digits_ok (seq 100 900) = true.
Proof. vm_compute. reflexivity. Qed.

Lemma year_width_all :
  forallb (fun k => (String.length (PyStr.pad 4 (Z.of_nat k)) =? 4)%nat)
          (seq 0 (100 * 100)) = true.
Proof. vm_compute. reflexivity. Qed.

Lemma pad2_below_100 p :
  0 <= p <= 99 ->
  exists x y, PyStr.pad 2 p = String x (String y EmptyString) /\
              py_int (String x (String y EmptyString)) = Some p.
Proof.
  intros Hp.
  assert (Hin : In (Z.to_nat p) (seq 0 100)) by (apply in_seq; lia).
  pose proof (proj1 (List.forallb_forall _ _) two_digits_all _ Hin) as H.
  unfold two_digits_ok in H. rewrite Z2Nat.id in H by lia.
  destruct (PyStr.pad 2 p) as [|x [|y [|]]]; try discriminate.
  destruct (py_int (String x (String y EmptyString))) as [v|] eqn:E; [|discriminate].
  apply Z.eqb_eq in H. subst v. eauto.
Qed.

Lemma pad2_from_100 p :
  100 <= p <= 999 ->
  exists w x y, PyStr.pad 2 p = String w (String x (String y EmptyString)) /\
                py_int (String x (String y EmptyString)) = Some (p mod 100).
Proof.
  intros Hp.
  assert (Hin : In (Z.to_nat p) (seq 100 900)) by (apply in_seq; lia).
  pose proof (proj1 (List.forallb_forall _ _) three_digits_all _ Hin) as H.
  unfold three_digits_ok in H. rewrite Z2Nat.id in H by lia.
  destruct (PyStr.pad 2 p) as [|w [|x [|y [|]]]]; try discriminate.
  destruct (py_int (String x (String y EmptyString))) as [v|] eqn:E; [|discriminate].
  apply Z.eqb_eq in H. subst v. eauto.
Qed.

Lemma pad4_width y : 0 <= y <= 9999 -> String.length (PyStr.pad 4 y) = 4%nat.
Proof.
  intros Hy.
  assert (Hin : In (Z.to_nat y) (seq 0 (100 * 100))) by (apply in_seq; lia).
  pose proof (proj1 (List.forallb_forall _ _) year_width_all _ Hin) as H.
  cbv beta in H. rewrite Z2Nat.id in H by lia. apply Nat.eqb_eq in H. exact H.
Qed.

Lemma pad2_width m : 0 <= m <= 99 -> String.length (PyStr.pad 2 m) = 2%nat.
Proof.
  intros Hm. destruct (pad2_below_100 m Hm) as (x & y & -> & _). reflexivity.
Qed.

Lemma strftime_Ymd_width d :
  valid_date d = true -> String.length (strftime_Ymd d) = 8%nat.
Proof.
  intros Hv. apply valid_date_iff in Hv.
  pose proof (days_in_month_bounds (year d) (month d)).
  unfold strftime_Ymd. rewrite !length_append.
  rewrite pad4_width, !pad2_width by lia. reflexivity.
Qed.

Lemma page_filename_split f p x y rest :
  PyStr.pad 2 p = rest +:+ String x (String y EmptyString) ->
  page_filename f p = ("rmrb" +:+ f +:+ rest) +:+ String x (String y ".pdf").
Proof.
  intros Hpad. unfold page_filename. rewrite Hpad.
  rewrite !append_assoc. reflexivity.
Qed.

Lemma page_filename_is_pdf f page : is_pdf_name (page_filename f page) = true.
Proof.
  unfold is_pdf_name, page_filename. rewrite <- !append_assoc.
  apply ends_with_append.
Qed.

Lemma page_filename_key f page :
  0 <= page <= 999 -> page_key (page_filename f page) = Some (page mod 100).
Proof.
  intros Hp. unfold page_key. destruct (Z_le_gt_dec page 99) as [Hle|Hgt].
  - destruct (pad2_below_100 page ltac:(lia)) as (x & y & Hpad & Hint).
    rewrite (page_filename_split f page x y EmptyString) by exact Hpad.
    rewrite slice_before_extension by reflexivity.
    rewrite Hint, Z.mod_small by lia. reflexivity.
  - destruct (pad2_from_100 page ltac:(lia)) as (w & x & y & Hpad & Hint).
    rewrite (page_filename_split f page x y (String w EmptyString)) by exact Hpad.
    rewrite slice_before_extension by reflexivity. exact Hint.
Qed.

Lemma page_filename_date f page :
  String.length f = 8%nat -> PyStr.slice 4 12 (page_filename f page) = f.
Proof.
  intros Hlen. unfold page_filename.
  change ("rmrb" +:+ f +:+ PyStr.pad 2 page +:+ ".pdf")
    with (String "r" (String "m" (String "r" (String "b"
            (f +:+ (PyStr.pad 2 page +:+ ".pdf")))))).
  apply slice_date_part. exact Hlen.
Qed.

(** X: the name of a page file round-trips through the merge: it ends in
    ".pdf", its sort key is the page number for pages 0..99 (from page 100
    to 999 the key is only the last two digits of the page number), and for
    a date part of 8 characters [x[4:12]] gives that date part back, so that
    the merge of the page files of a valid date (of a year with four digits)
    writes to the very name the existence test of [download_edition] looks
    for. *)
Theorem page_file_names (file_fmt : string) (page : Z) :
  0 <= page <= 999 ->
  is_pdf_name (page_filename file_fmt page) = true /\
  page_key (page_filename file_fmt page) = Some (page mod 100) /\
  (page <= 99 -> page_key (page_filename file_fmt page) = Some page) /\
  (String.length file_fmt = 8%nat ->
   PyStr.slice 4 12 (page_filename file_fmt page) = file_fmt) /\
  (forall d, valid_date d = true -> 1000 <= year d -> file_fmt = strftime_Ymd d ->
             output_name (PyStr.slice 4 12 (page_filename file_fmt page))
             = canonical_output d).
Proof.
  intros Hp.
  pose proof (page_filename_key file_fmt page Hp) as Hkey.
  split; [apply page_filename_is_pdf|]. split; [exact Hkey|].
  split; [intros Hle; rewrite Hkey, Z.mod_small by lia; reflexivity|].
  split; [apply page_filename_date|].
  intros d Hv _ ->.
  rewrite page_filename_date by (apply strftime_Ymd_width; exact Hv). reflexivity.
Qed.

Lemma page_file_names_witness :
  page_key (page_filename "20240101" 7) = Some 7.
Proof.
  exact (proj1 (proj2 (proj2 (page_file_names "20240101" 7 ltac:(lia))))
               ltac:(lia)).
Defined.

(** ** A complete download, merged *)

Lemma get_file_in_listing g files b :
  get_file g files = Some b -> In g (map fst files).
Proof.
  induction files as [|[n c] files IH]; simpl; [discriminate|].
  destruct (String.eqb n g) eqn:E; [|auto].
  apply String.eqb_eq in E. auto.
Qed.

Lemma sort_keyed_of_sorted l : StronglySorted key_lt l -> sort_keyed l = l.
Proof.
  induction 1 as [|x l Hs IH Hall]; [reflexivity|].
  cbn [sort_keyed]. rewrite IH. destruct l as [|y l']; [reflexivity|].
  inversion Hall as [|? ? Hxy _]; subst. cbn [insert_keyed].
  unfold key_lt in Hxy. rewrite (proj2 (Z.leb_le _ _)) by lia. reflexivity.
Qed.

(** The page files of pages 1..n with their keys. *)
Definition keyed_pages (f : string) (start n : nat) : list (Z * string) :=
  map (fun k => (1 + Z.of_nat k, page_filename f (1 + Z.of_nat k))) (seq start n).

Lemma keyed_pages_sorted f n : forall start, StronglySorted key_lt (keyed_pages f start n).
Proof.
  induction n as [|n IH]; intros start; cbn; [constructor|].
  constructor; [apply IH|].
  apply List.Forall_forall. intros x Hx. unfold keyed_pages in Hx.
  apply List.in_map_iff in Hx as (k & <- & Hk). apply in_seq in Hk.
  unfold key_lt. cbn. lia.
Qed.

Lemma page_names_keyed f n :
  (n <= 99)%nat -> map keyed (page_names f 1 n) = keyed_pages f 0 n.
Proof.
  intros Hn. unfold page_names, keyed_pages. rewrite List.map_map.
  apply List.map_ext_in. intros k Hk. apply in_seq in Hk.
  unfold keyed. rewrite page_filename_key by lia.
  rewrite Z.mod_small by lia. reflexivity.
Qed.

Lemma page_names_keys f n :
  (n <= 99)%nat ->
  List.Forall (fun g => page_key g = Some (fst (keyed g))) (page_names f 1 n) /\
  List.NoDup (map page_key (page_names f 1 n)) /\
  List.NoDup (page_names f 1 n) /\
  List.filter is_pdf_name (page_names f 1 n) = page_names f 1 n.
Proof.
  intros Hn.
  assert (Hkey : forall g, In g (page_names f 1 n) ->
                           exists k, (k < n)%nat /\ g = page_filename f (1 + Z.of_nat k) /\
                                     page_key g = Some (1 + Z.of_nat k)).
  { intros g Hg. unfold page_names in Hg.
    apply List.in_map_iff in Hg as (k & <- & Hk). apply in_seq in Hk.
    exists k. split; [lia|]. split; [reflexivity|].
    rewrite page_filename_key by lia. rewrite Z.mod_small by lia. reflexivity. }
  assert (Hkeys : map page_key (page_names f 1 n)
                  = map (fun k => Some (1 + Z.of_nat k)) (seq 0 n)).
  { unfold page_names. rewrite List.map_map. apply List.map_ext_in.
    intros k Hk. apply in_seq in Hk.
    rewrite page_filename_key by lia. rewrite Z.mod_small by lia. reflexivity. }
  assert (Hnd : List.NoDup (map page_key (page_names f 1 n))).
  { rewrite Hkeys. apply Finite.Injective_map_NoDup; [|apply seq_NoDup].
    intros a b [= H]. lia. }
  split; [|split; [exact Hnd|split]].
  - apply List.Forall_forall. intros g Hg.
    destruct (Hkey g Hg) as (k & _ & _ & Hk). unfold keyed. rewrite Hk. reflexivity.
  - eapply NoDup_map_inv. exact Hnd.
  - apply List.forallb_filter_id. apply List.forallb_forall. intros g Hg.
    destruct (Hkey g Hg) as (k & _ & -> & _). apply page_filename_is_pdf.
Qed.

Lemma merge_order_of_pages f n listing :
  (n <= 99)%nat -> Permutation (page_names f 1 n) listing ->
  merge_order listing = Some (page_names f 1 n).
Proof.
  intros Hn Hperm.
  destruct (page_names_keys f n Hn) as (Hall & Hnd & _ & Hfilter).
  apply (merge_order_any_listing (page_names f 1 n)); [exact Hperm| |].
  - fold is_pdf_name. rewrite Hfilter. exact Hnd.
  - unfold merge_order. fold is_pdf_name. rewrite Hfilter.
    rewrite (with_keys_all _ Hall). cbn [option_map]. f_equal.
    rewrite (page_names_keyed f n Hn).
    rewrite sort_keyed_of_sorted by apply keyed_pages_sorted.
    rewrite <- (page_names_keyed f n Hn), List.map_map. cbn. apply List.map_id.
Qed.

Lemma merge_story_all_good files first rest :
  merge_order (map fst files) = Some (first :: rest) ->
  forallb (big files) (first :: rest) = true ->
  forallb (readable files) (first :: rest) = true ->
  either_story (fun story =>
    story_result (story files) = inl true /\
    story_saved (story files)
    = Some (output_name (PyStr.slice 4 12 first), first :: rest)).
Proof.
  intros Ho Hbig Hread.
  assert (Hsound : forallb (sound files) (first :: rest) = true).
  { apply List.forallb_forall. intros g Hg.
    rewrite List.forallb_forall in Hread. specialize (Hread g Hg).
    unfold readable in Hread. unfold sound.
    destruct (get_file g files) as [b|]; [|discriminate].
    rewrite Hread. apply orb_true_r. }
  pose proof (assemble_sound files (first :: rest) [] Hsound) as Hrun.
  rewrite (List.forallb_filter_id _ _ Hbig) in Hrun. cbn [app] in Hrun.
  unfold either_story, merge_story, merge_story_pypdf2. rewrite Ho, Hrun.
  split; split; reflexivity.
Qed.

(** X: end to end.  When the edition of a valid date is located with N
    pages (1..99), every page is downloaded and every page file can be read,
    the single-date run of either script ends normally, removes the
    workspace and leaves in the download directory, under the canonical name
    of the date, the document made of the page files 1, 2, .., N in this
    order; nothing else in the download directory changes. *)
Theorem complete_download_is_merged
        (site : World) (merge : M bool) (d : date) (st0 sa sb : State)
        (total_pages : Z) (is_new : bool) :
  valid_date d = true -> 1000 <= year d ->
  merge = merge_pdfs \/ merge = merge_pdfs_pypdf2 ->
  out_files st0 !! canonical_output d = None ->
  get_page_info site (old_cover_url d) (new_cover_url d) (ready_single st0)
  = (sa, inl (total_pages, is_new)) ->
  1 <= total_pages <= 99 ->
  fetch_loop site d total_pages is_new None
             (advance sa 0 [EvLog Info (MsgDetected total_pages is_new)])
  = (sb, inl total_pages) ->
  (forall g, In g (page_names (strftime_Ymd d) 1 (Z.to_nat total_pages)) ->
             readable (temp_files sb) g = true) ->
  let run := main_single site merge d st0 in
  snd run = inl tt /\
  temp_exists (fst run) = false /\
  out_files (fst run)
  = <[canonical_output d := page_names (strftime_Ymd d) 1 (Z.to_nat total_pages)]>
      (out_files st0).
Proof.
  intros Hv Hyear Hmerge Hnone Hloc Hpages Hloop Hread run. subst run.
  set (f := strftime_Ymd d) in *. set (n := Z.to_nat total_pages) in *.
  assert (Hn : (1 <= n <= 99)%nat) by (subst n; lia).
  (* the download returns True *)
  assert (Hdl : download_edition site d None (ready_single st0) = (sb, inl true)).
  { rewrite download_edition_run by exact Hnone. rewrite Hloc.
    unfold after_locate. rewrite Hloop.
    rewrite (proj2 (Z.ltb_ge total_pages total_pages)) by lia. reflexivity. }
  (* the workspace after the fetch loop *)
  destruct (get_page_info_shape site (old_cover_url d) (new_cover_url d)
                                (ready_single st0)) as (k & evs & res & E & _).
  rewrite Hloc in E. injection E as -> _.
  pose proof (fetch_pages_cases site n 1 0 (strftime_Y_m_slash_d d) f
                (strftime_Ym_slash_d d) is_new None
                (advance (advance (ready_single st0) k evs) 0
                         [EvLog Info (MsgDetected total_pages is_new)]))
    as (_ & Hset & _ & Hbig).
  unfold fetch_loop in Hloop. fold f n in Hloop. rewrite Hloop in Hset, Hbig.
  cbn [fst snd] in Hset, Hbig.
  assert (Htot : inl total_pages = (inl (0 + Z.of_nat n) : Z + exn))
    by (f_equal; subst n; lia).
  destruct (Hbig Htot) as (Hex & Hallbig). specialize (Hex ltac:(lia)).
  destruct Hset as (_ & Hout & _ & Hnames & Hnodup).
  cbn [advance temp_files ready_single out_files map] in Hout, Hnames, Hnodup.
  specialize (Hnodup (List.NoDup_nil _)).
  destruct (page_names_keys f n ltac:(lia)) as (_ & _ & Hnd & _).
  assert (Hperm : Permutation (page_names f 1 n) (listing sb)).
  { apply Permutation.NoDup_Permutation; [exact Hnd | exact Hnodup|].
    intros g. split.
    - intros Hg. specialize (Hallbig g Hg). unfold big in Hallbig.
      destruct (get_file g (temp_files sb)) as [b|] eqn:Eg; [|discriminate].
      eapply get_file_in_listing. exact Eg.
    - intros Hg. destruct (Hnames g Hg) as [H|[]]. exact H. }
  pose proof (merge_order_of_pages f n (listing sb) ltac:(lia) Hperm) as Horder.
  assert (Hfirst : page_names f 1 n = page_filename f 1 :: page_names f (1 + 1) (n - 1)).
  { replace n with (S (n - 1)) at 1 by lia. apply page_names_S. }
  rewrite Hfirst in Horder.
  assert (Hb : forallb (big (temp_files sb))
                       (page_filename f 1 :: page_names f (1 + 1) (n - 1)) = true).
  { rewrite <- Hfirst. apply List.forallb_forall. exact Hallbig. }
  assert (Hr : forallb (readable (temp_files sb))
                       (page_filename f 1 :: page_names f (1 + 1) (n - 1)) = true).
  { rewrite <- Hfirst. apply List.forallb_forall. exact Hread. }
  destruct (merge_story_all_good (temp_files sb) _ _ Horder Hb Hr) as [Hfitz Hpy].
  rewrite <- Hfirst in Hfitz, Hpy.
  rewrite page_filename_date in Hfitz, Hpy
    by (subst f; apply strftime_Ymd_width; exact Hv).
  fold (canonical_output d) in Hfitz, Hpy.
  (* the merge *)
  assert (Hm : exists sm, merge sb = (sm, inl true) /\
                          out_files sm = <[canonical_output d := page_names f 1 n]>
                                           (out_files st0)).
  { destruct Hmerge as [-> | ->].
    - rewrite (merge_pdfs_run _ Hex).
      destruct (after_merge_facts sb (merge_story (temp_files sb))) as (_ & H2 & H3).
      destruct Hfitz as (Hres & Hsaved). rewrite Hres in H2. rewrite Hsaved in H3.
      destruct (after_merge sb (merge_story (temp_files sb))) as [sm r].
      cbn [fst snd] in *. subst r. exists sm. split; [reflexivity|].
      rewrite H3, Hout. reflexivity.
    - rewrite (merge_pdfs_pypdf2_run _ Hex).
      destruct (after_merge_facts sb (merge_story_pypdf2 (temp_files sb)))
        as (_ & H2 & H3).
      destruct Hpy as (Hres & Hsaved). rewrite Hres in H2. rewrite Hsaved in H3.
      destruct (after_merge sb (merge_story_pypdf2 (temp_files sb))) as [sm r].
      cbn [fst snd] in *. subst r. exists sm. split; [reflexivity|].
      rewrite H3, Hout. reflexivity. }
  destruct Hm as (sm & Hms & Hmout).
  (* the run *)
  assert (Hrun : main_single site merge d st0 =
                 (mkState (requests_made sm) false [] (out_files sm)
                          (trace sm ++ [EvRmtree; EvLog Info MsgDone]), inl tt)).
  { unfold main_single, main_handlers, try_except2, init_environment.
    rewrite run_bind. cbn match. rewrite run_bind.
    unfold log at 1, emit. cbn [requests_made temp_exists temp_files out_files trace].
    fold (ready_single st0). rewrite run_bind, Hdl. rewrite run_bind.
    unfold when. rewrite run_bind, Hms. cbn [negb].
    unfold rmtree_temp. unfold_monad. cbn. rewrite <- !app_assoc. reflexivity. }
  rewrite Hrun. cbn [fst snd temp_exists out_files].
  split; [reflexivity|]. split; [reflexivity | exact Hmout].
Qed.

(** A complete legacy edition of two pages for 2024-01-01: the current cover
    answers 404, the legacy cover carries two markers, and every other URL
    answers a readable PDF of 2048 bytes. *)
Definition site_two_of_two : World := fun _ url =>
  if String.eqb url (old_cover_url new_year_2024) then answer_html "nbs nbs"
  else if String.eqb url (new_cover_url new_year_2024) then answer_status 404
       else answer_pdf good_page.

Lemma complete_download_witness :
  let run := main_single site_two_of_two merge_pdfs new_year_2024 initial_state in
  snd run = inl tt /\ temp_exists (fst run) = false /\
  out_files (fst run)
  = <[canonical_output new_year_2024 :=
        page_names (strftime_Ymd new_year_2024) 1 (Z.to_nat 2)]>
      (out_files initial_state).
Proof.
  pose (loc := get_page_info site_two_of_two (old_cover_url new_year_2024)
                             (new_cover_url new_year_2024)
                             (ready_single initial_state)).
  pose (lp := fetch_loop site_two_of_two new_year_2024 2 false None
                         (advance (fst loc) 0 [EvLog Info (MsgDetected 2 false)])).
  apply (complete_download_is_merged
           site_two_of_two merge_pdfs new_year_2024 initial_state
           (fst loc) (fst lp) 2 false).
  - reflexivity.
  - simpl. lia.
  - left. reflexivity.
  - apply lookup_empty.
  - vm_compute. reflexivity.
  - lia.
  - vm_compute. reflexivity.
  - intros g [<- | [<- | []]]; vm_compute; reflexivity.
Defined.

(** ** What a run may write to the download directory *)

(** [after] holds every entry of [before] unchanged, and the names of its
    new entries are in [names]. *)
Definition adds_only (names : list string) (before after : gmap string Doc) : Prop :=
  (forall k v, before !! k = Some v -> after !! k = Some v) /\
  (forall k, is_Some (after !! k) -> is_Some (before !! k) \/ In k names).

Lemma adds_only_refl names m : adds_only names m m.
Proof. split; [auto | intros k Hk; left; exact Hk]. Qed.

Lemma adds_only_insert names (m : gmap string Doc) k v :
  m !! k = None -> In k names -> adds_only names m (<[k := v]> m).
Proof.
  intros Hnone Hin. split.
  - intros k' v' Hk'. destruct (decide (k = k')) as [<-|Hne].
    + rewrite Hnone in Hk'. discriminate.
    + rewrite lookup_insert_ne by exact Hne. exact Hk'.
  - intros k' Hk'. destruct (decide (k = k')) as [<-|Hne].
    + right. exact Hin.
    + rewrite lookup_insert_ne in Hk' by exact Hne. left. exact Hk'.
Qed.

Lemma adds_only_trans n1 n2 a b c :
  adds_only n1 a b -> adds_only n2 b c -> adds_only (n1 ++ n2) a c.
Proof.
  intros [H1 H2] [H3 H4]. split; [auto|].
  intros k Hk. destruct (H4 k Hk) as [Hb|Hin].
  - destruct (H2 k Hb) as [Ha|Hin]; [left; exact Ha|].
    right. apply List.in_or_app. left. exact Hin.
  - right. apply List.in_or_app. right. exact Hin.
Qed.

(** The name a merge writes to comes from a file of the workspace. *)
Lemma merge_story_names files :
  either_story (fun story =>
    (story_result (story files) = inl false /\ story_saved (story files) = None) \/
    (story_result (story files) = inl true /\
     exists g doc,
       In g (map fst files) /\
       story_saved (story files) = Some (output_name (PyStr.slice 4 12 g), doc))).
Proof.
  unfold either_story, merge_story, merge_story_pypdf2.
  destruct (merge_order (map fst files)) as [[|first rest]|] eqn:Eo;
    try (split; left; split; reflexivity).
  pose proof (merge_order_perm _ _ Eo) as Hperm.
  assert (Hlisted : forall g, In g (first :: rest) -> In g (map fst files)).
  { intros g Hg. eapply Permutation_in in Hg; [|exact Hperm].
    apply List.filter_In in Hg as [Hg _]. exact Hg. }
  pose proof (assemble_result files (first :: rest) []) as Hres.
  destruct (assemble files (first :: rest) []) as [evs res]. cbn [fst snd] in *.
  destruct res as [[[|p doc]|]|[| |c]]; try contradiction;
    try (split; left; split; reflexivity).
  destruct Hres as (l & Hl & Hin). cbn [app] in Hl. subst l.
  split; right; (split; [reflexivity|]).
  - exists first, (p :: doc). split; [apply Hlisted; left; reflexivity | reflexivity].
  - exists p, (p :: doc). split; [|reflexivity].
    apply Hlisted. apply (Hin p). left. reflexivity.
Qed.

(** The workspace [download_edition] leaves behind when it starts from an
    empty one: only page files of its date, and none when the output was
    already there. *)
Lemma download_edition_workspace site d outer st :
  temp_files st = [] ->
  let out := download_edition site d outer st in
  temp_exists (fst out) = temp_exists st /\
  out_files (fst out) = out_files st /\
  (forall g, In g (listing (fst out)) ->
             out_files st !! canonical_output d = None /\
             exists p, g = page_filename (strftime_Ymd d) p) /\
  match snd out with
  | inr PyException => False
  | inr (SystemExit c) => c = 1
  | _ => True
  end.
Proof.
  intros Hempty. cbv zeta.
  destruct (out_files st !! canonical_output d) as [doc|] eqn:Elook.
  { rewrite download_edition_skip_run by (rewrite Elook; eauto).
    unfold listing. cbn. rewrite Hempty.
    split; [reflexivity|]. split; [reflexivity|]. split; [intros g []| exact I]. }
  rewrite (download_edition_run _ _ _ _ Elook).
  destruct (get_page_info_shape site (old_cover_url d) (new_cover_url d) st)
    as (k & evs & res & E & _ & Hres).
  rewrite E.
  destruct res as [[total_pages is_new]|e].
  2:{ unfold listing. cbn. rewrite Hempty.
      split; [reflexivity|]. split; [reflexivity|]. split; [intros g []|].
      destruct e; [contradiction | exact I | exact Hres]. }
  unfold after_locate.
  pose proof (fetch_pages_cases site (Z.to_nat total_pages) 1 0
                (strftime_Y_m_slash_d d) (strftime_Ymd d) (strftime_Ym_slash_d d)
                is_new outer
                (advance (advance st k evs) 0 [EvLog Info (MsgDetected total_pages is_new)]))
    as (_ & Hset & Hesc & _).
  unfold fetch_loop.
  destruct (fetch_pages site (Z.to_nat total_pages) 1 0 _ _ _ is_new outer _)
    as [st2 res2]. cbn [fst snd] in *.
  destruct Hset as (Hex & Hout & _ & Hnames & _).
  cbn [advance temp_exists temp_files out_files] in Hex, Hout, Hnames.
  rewrite Hempty in Hnames.
  assert (Hpages : forall g, In g (listing st2) ->
                     None = (None : option Doc) /\
                     exists p, g = page_filename (strftime_Ymd d) p).
  { intros g Hg. split; [reflexivity|].
    destruct (Hnames g Hg) as [H|[]]. unfold page_names in H.
    apply List.in_map_iff in H as (i & <- & _). eauto. }
  destruct Hesc as [->|(s & -> & Hs)].
  { cbn. auto. }
  destruct (s <? total_pages); cbn; auto.
Qed.

(** A merge that follows a download that returned [True]. *)
Lemma merge_after_download site merge d outer st s1 :
  merge = merge_pdfs \/ merge = merge_pdfs_pypdf2 ->
  valid_date d = true ->
  temp_exists st = true -> temp_files st = [] ->
  download_edition site d outer st = (s1, inl true) ->
  exists s2 b,
    merge s1 = (s2, inl b) /\
    requests_made s2 = requests_made s1 /\
    adds_only [canonical_output d] (out_files st) (out_files s2).
Proof.
  intros Hmerge Hv Hex Hempty Hdl.
  pose proof (download_edition_workspace site d outer st Hempty) as Hw.
  cbv zeta in Hw. rewrite Hdl in Hw. cbn [fst snd] in Hw.
  destruct Hw as (Hex1 & Hout1 & Hlist & _). rewrite Hex in Hex1.
  destruct (merge_story_names (temp_files s1)) as [Hfitz Hpy].
  assert (Hgen : forall story,
            merge s1 = after_merge s1 (story (temp_files s1)) ->
            ((story_result (story (temp_files s1)) = inl false /\
              story_saved (story (temp_files s1)) = None) \/
             (story_result (story (temp_files s1)) = inl true /\
              exists g doc,
                In g (map fst (temp_files s1)) /\
                story_saved (story (temp_files s1))
                = Some (output_name (PyStr.slice 4 12 g), doc))) ->
            exists s2 b,
              merge s1 = (s2, inl b) /\
              requests_made s2 = requests_made s1 /\
              adds_only [canonical_output d] (out_files st) (out_files s2)).
  { intros story Hrun Hcases. rewrite Hrun.
    destruct (story (temp_files s1)) as [[evs sv] res].
    unfold story_result, story_saved in Hcases. cbn [fst snd] in Hcases.
    unfold after_merge.
    destruct Hcases as [(-> & ->)|(-> & g & doc & Hg & ->)].
    - eexists _, false. split; [reflexivity|]. split; [reflexivity|].
      cbn [out_files]. rewrite Hout1. apply adds_only_refl.
    - eexists _, true. split; [reflexivity|]. split; [reflexivity|].
      cbn [out_files]. rewrite Hout1.
      destruct (Hlist g Hg) as (Hnone & p & ->).
      rewrite page_filename_date by (apply strftime_Ymd_width; exact Hv).
      fold (canonical_output d).
      apply adds_only_insert; [exact Hnone | left; reflexivity]. }
  destruct Hmerge as [-> | ->].
  - apply (Hgen merge_story); [apply merge_pdfs_run; exact Hex1 | exact Hfitz].
  - apply (Hgen merge_story_pypdf2); [apply merge_pdfs_pypdf2_run; exact Hex1 | exact Hpy].
Qed.

(** X: a single-date run of either script, for a valid date of a four-digit
    year ([validate_date] accepts no year before 2003), ends in one of three
    ways: normally, by [sys.exit(1)] or by [sys.exit(130)]; no exception
    escapes [main].  It leaves every file already in the download directory
    as it was and may add only the canonical output of its date; and when it
    ends normally the workspace is gone. *)
Theorem single_run_outcomes
        (site : World) (merge : M bool) (d : date) (st0 : State) :
  merge = merge_pdfs \/ merge = merge_pdfs_pypdf2 ->
  valid_date d = true -> 1000 <= year d ->
  let run := main_single site merge d st0 in
  (snd run = inl tt \/ snd run = inr (SystemExit 1) \/ snd run = inr (SystemExit 130)) /\
  adds_only [canonical_output d] (out_files st0) (out_files (fst run)) /\
  (snd run = inl tt -> temp_exists (fst run) = false /\ temp_files (fst run) = []).
Proof.
  intros Hmerge Hv _ run.
  pose proof (download_edition_workspace site d None (ready_single st0) eq_refl) as Hw.
  cbv zeta in Hw.
  assert (Hrun : run = main_single site merge d st0) by reflexivity.
  clearbody run.
  unfold main_single, main_handlers, try_except2, init_environment in Hrun.
  rewrite run_bind in Hrun. cbn match in Hrun. rewrite run_bind in Hrun.
  unfold log at 1, emit in Hrun.
  cbn [requests_made temp_exists temp_files out_files trace] in Hrun.
  fold (ready_single st0) in Hrun. rewrite run_bind in Hrun.
  destruct (download_edition site d None (ready_single st0)) as [s1 [[|]|e]] eqn:Hdl;
    cbn [fst snd] in Hw; destruct Hw as (_ & Hout1 & _ & Hr);
    cbn [ready_single out_files] in Hout1.
  - destruct (merge_after_download site merge d None (ready_single st0) s1
                Hmerge Hv eq_refl eq_refl Hdl) as (s2 & b & Hm & _ & Hadds).
    cbn [ready_single out_files] in Hadds.
    rewrite run_bind in Hrun. unfold when in Hrun. rewrite run_bind, Hm in Hrun.
    destruct b; unfold rmtree_temp, mbind, mret, M_bind, M_ret, log, emit in Hrun;
      cbn in Hrun; subst run;
      cbn; auto.
  - unfold when, rmtree_temp, mbind, mret, M_bind, M_ret, log, emit in Hrun.
    cbn in Hrun. subst run. cbn.
    rewrite Hout1. split; [auto|]. split; [apply adds_only_refl | auto].
  - destruct e as [| |c]; [contradiction| |];
      unfold mbind, mret, M_bind, M_ret, log, emit, raise in Hrun; cbn in Hrun; subst run;
      cbn; rewrite Hout1.
    + split; [auto|]. split; [apply adds_only_refl | discriminate].
    + subst c. split; [auto|]. split; [apply adds_only_refl | discriminate].
Qed.

Lemma single_run_witness :
  let run := main_single site_two_of_two merge_pdfs new_year_2024 initial_state in
  (snd run = inl tt \/ snd run = inr (SystemExit 1) \/ snd run = inr (SystemExit 130)) /\
  adds_only [canonical_output new_year_2024] (out_files initial_state)
            (out_files (fst run)) /\
  (snd run = inl tt -> temp_exists (fst run) = false /\ temp_files (fst run) = []).
Proof.
  apply single_run_outcomes; [left; reflexivity | reflexivity | simpl; lia].
Defined.

(** One turn of the batch loop. *)
Lemma batch_iteration_cases site merge outer d st :
  merge = merge_pdfs \/ merge = merge_pdfs_pypdf2 ->
  valid_date d = true ->
  let turn := batch_iteration site merge outer d st in
  temp_exists (fst turn) = false /\
  (snd turn = inl tt \/ snd turn = inr KeyboardInterrupt \/
   snd turn = inr (SystemExit 1)) /\
  adds_only [canonical_output d] (out_files st) (out_files (fst turn)).
Proof.
  intros Hmerge Hv turn.
  split; [apply batch_iteration_removes_workspace|].
  pose proof (download_edition_workspace site d (Some outer) (ready_batch st) eq_refl)
    as Hw.
  cbv zeta in Hw.
  assert (Hrun : turn = batch_iteration site merge outer d st) by reflexivity.
  clearbody turn.
  unfold batch_iteration, try_finally, try_except, init_environment in Hrun.
  rewrite run_bind in Hrun. cbn match in Hrun. fold (ready_batch st) in Hrun.
  rewrite run_bind in Hrun.
  destruct (download_edition site d (Some outer) (ready_batch st))
    as [s1 [[|]|e]] eqn:Hdl;
    cbn [fst snd] in Hw; destruct Hw as (_ & Hout1 & _ & Hr);
    cbn [ready_batch out_files] in Hout1.
  - destruct (merge_after_download site merge d (Some outer) (ready_batch st) s1
                Hmerge Hv eq_refl eq_refl Hdl) as (s2 & b & Hm & _ & Hadds).
    cbn [ready_batch out_files] in Hadds.
    rewrite run_bind, Hm in Hrun.
    destruct b; unfold when, rmtree_temp, mbind, mret, M_bind, M_ret, log, emit in Hrun;
      cbn in Hrun; subst turn; cbn; auto.
  - unfold rmtree_temp, mbind, mret, M_bind, M_ret, log, emit in Hrun.
    cbn in Hrun. subst turn. cbn. rewrite Hout1.
    split; [auto | apply adds_only_refl].
  - destruct e as [| |c]; [contradiction| |];
      unfold rmtree_temp in Hrun; cbn in Hrun; subst turn; cbn; rewrite Hout1.
    + split; [auto | apply adds_only_refl].
    + subst c. split; [auto | apply adds_only_refl].
Qed.

(** The whole loop. *)
Lemma batch_loop_cases site merge total dates : forall idx st,
  merge = merge_pdfs \/ merge = merge_pdfs_pypdf2 ->
  List.Forall (fun d => valid_date d = true) dates ->
  let run := batch_loop site merge idx total dates st in
  (snd run = inl tt \/ snd run = inr KeyboardInterrupt \/
   snd run = inr (SystemExit 1)) /\
  adds_only (map canonical_output dates) (out_files st) (out_files (fst run)) /\
  temp_exists (fst run) = match dates with [] => temp_exists st | _ => false end.
Proof.
  induction dates as [|d rest IH]; intros idx st Hmerge Hall; cbv zeta.
  - cbn. split; [auto|]. split; [apply adds_only_refl | reflexivity].
  - apply List.Forall_cons_iff in Hall as [Hv Hrest].
    cbn [batch_loop]. rewrite run_bind.
    pose proof (batch_iteration_cases site merge (mkOuter 0 (total <=? idx)) d st
                  Hmerge Hv) as (Hex & Hres & Hadds).
    destruct (batch_iteration site merge (mkOuter 0 (total <=? idx)) d st)
      as [s1 [[]|e]]; cbn [fst snd] in *.
    + destruct (IH (idx + 1) s1 Hmerge Hrest) as (Hres' & Hadds' & Hex').
      split; [exact Hres'|]. split.
      * change (map canonical_output (d :: rest))
          with ([canonical_output d] ++ map canonical_output rest)%list.
        eapply adds_only_trans; eassumption.
      * rewrite Hex'. destruct rest; [exact Hex | reflexivity].
    + split; [|split; [|exact Hex]].
      * destruct Hres as [H|[H|H]]; [discriminate H | auto | auto].
      * destruct Hadds as [H1 H2]. split; [exact H1|].
        intros k Hk. destruct (H2 k Hk) as [H|[<-|[]]]; [left; exact H|].
        right. left. reflexivity.
Qed.

(** The dates [validate_date_range] hands to the loop. *)
Lemma validate_date_range_dates today range_str l :
  date_lt today date_max ->
  validate_date_range today range_str = RangeOk l ->
  l <> [] /\
  List.Forall (fun d => valid_date d = true /\ 2003 <= year d /\ date_le d today) l.
Proof.
  intros Hmax. unfold validate_date_range.
  destruct (negb _); [discriminate|].
  destruct (strptime_Ymd (PyStr.slice_to 8 _)) as [start_date|] eqn:Es; [|discriminate].
  destruct (strptime_Ymd (PyStr.slice_from 8 _)) as [end_date|] eqn:Ee; [|discriminate].
  pose proof (strptime_valid _ _ Es) as Hvs.
  pose proof (strptime_valid _ _ Ee) as Hve.
  destruct (date_ltb end_date start_date) eqn:E1; [discriminate|].
  destruct (date_ltb today end_date) eqn:E2; [discriminate|].
  destruct (year start_date <? 2003) eqn:E3; [discriminate|].
  apply date_ltb_false_iff in E1, E2. apply Z.ltb_ge in E3.
  assert (Hemax : date_lt end_date date_max).
  { apply date_leb_iff in E2 as [Hlt| ->];
      [eapply date_lt_trans; eassumption | exact Hmax]. }
  destruct (date_loop_spec (Z.to_nat (rank end_date - rank start_date + 1))
                           start_date end_date [] Hvs Hve Hemax)
    as (l' & -> & _ & Hin).
  { intros Hle. pose proof (rank_le _ _ Hvs Hve Hle). lia. }
  cbn [app]. intros [= <-]. split.
  - assert (Hs : In start_date l').
    { apply Hin. split; [exact Hvs|]. split; [|exact E1].
      apply date_leb_iff. right. reflexivity. }
    intros ->. destruct Hs.
  - apply List.Forall_forall. intros d Hd. apply Hin in Hd as (Hv & H1 & H2).
    split; [exact Hv|]. split; [|eapply date_le_trans; eassumption].
    apply date_leb_iff in H1 as [H1| ->]; [|exact E3].
    unfold date_lt in H1. apply date_ltb_iff in H1. lia.
Qed.

(** X: a range run of either script ends normally, by [sys.exit(1)] or by
    [sys.exit(130)].  When the range is rejected it exits with status 1
    before any request, with the download directory untouched and the
    workspace made by [init_environment] left in place.  When the range is
    accepted the workspace is removed however the run ends, every file
    already in the download directory is left as it was, and the only names
    added are the canonical outputs of the days of the range. *)
Theorem range_run_outcomes
        (site : World) (merge : M bool) (today : date) (range_str : string)
        (st0 : State) :
  merge = merge_pdfs \/ merge = merge_pdfs_pypdf2 ->
  date_lt today date_max ->
  let run := main_range site merge today range_str st0 in
  (snd run = inl tt \/ snd run = inr (SystemExit 1) \/ snd run = inr (SystemExit 130)) /\
  match validate_date_range today range_str with
  | RangeOk l =>
      temp_exists (fst run) = false /\
      adds_only (map canonical_output l) (out_files st0) (out_files (fst run))
  | _ =>
      snd run = inr (SystemExit 1) /\ temp_exists (fst run) = true /\
      requests_made (fst run) = requests_made st0 /\
      out_files (fst run) = out_files st0
  end.
Proof.
  intros Hmerge Hmax run.
  assert (Hrun : run = main_range site merge today range_str st0) by reflexivity.
  clearbody run.
  unfold main_range, main_handlers, try_except2, init_environment in Hrun.
  rewrite run_bind in Hrun. cbn match in Hrun.
  destruct (validate_date_range today range_str) as [l| |] eqn:Ev.
  - destruct (validate_date_range_dates today range_str l Hmax Ev) as (Hne & Hall).
    assert (Hvalid : List.Forall (fun d => valid_date d = true) l).
    { eapply List.Forall_impl; [|exact Hall]. intros d (H & _). exact H. }
    rewrite run_bind in Hrun. unfold log at 1, emit in Hrun.
    cbn [requests_made temp_exists temp_files out_files trace] in Hrun.
    rewrite run_bind in Hrun.
    match type of Hrun with
    | context [batch_loop site merge 1 ?t l ?s] =>
        pose proof (batch_loop_cases site merge t l 1 s Hmerge Hvalid)
          as (Hres & Hadds & Hex);
        destruct (batch_loop site merge 1 t l s) as [s1 [[]|e]]
    end; cbn [fst snd out_files] in *.
    + unfold log, emit in Hrun. subst run. cbn.
      split; [auto|]. split; [|exact Hadds].
      rewrite Hex. destruct l; [contradiction | reflexivity].
    + assert (Hex1 : temp_exists s1 = false)
        by (rewrite Hex; destruct l; [contradiction | reflexivity]).
      destruct Hres as [H|[H|H]]; [discriminate H| |]; injection H as ->;
        unfold mbind, mret, M_bind, M_ret, log, emit, raise in Hrun; cbn in Hrun;
        subst run; cbn; auto.
  - unfold raise in Hrun. subst run. cbn. auto.
  - unfold raise in Hrun. subst run. cbn. auto.
Qed.

Lemma range_run_witness :
  let run := main_range site_all_404 merge_pdfs (mkdate 2026 11 3)
                        "2024-01-01 2024-01-05" initial_state in
  (snd run = inl tt \/ snd run = inr (SystemExit 1) \/ snd run = inr (SystemExit 130)) /\
  match validate_date_range (mkdate 2026 11 3) "2024-01-01 2024-01-05" with
  | RangeOk l =>
      temp_exists (fst run) = false /\
      adds_only (map canonical_output l) (out_files initial_state) (out_files (fst run))
  | _ =>
      snd run = inr (SystemExit 1) /\ temp_exists (fst run) = true /\
      requests_made (fst run) = requests_made initial_state /\
      out_files (fst run) = out_files initial_state
  end.
Proof.
  apply range_run_outcomes; [left; reflexivity | reflexivity].
Defined.

(** X: the batch loop does not survive a date whose edition cannot be
    located.  When the output of a date is missing and [get_page_info] ends
    the locate phase by [sys.exit(1)] (or by a [KeyboardInterrupt]), the
    [finally] clause of the turn removes the workspace and the exit goes
    through the loop: the dates that follow are never processed, and no
    request is sent for them. *)
Theorem batch_stops_at_lost_date
        (site : World) (merge : M bool) (idx total : Z) (d : date) (rest : list date)
        (st s1 : State) (e : exn) :
  out_files st !! canonical_output d = None ->
  get_page_info site (old_cover_url d) (new_cover_url d) (ready_batch st)
  = (s1, inr e) ->
  batch_loop site merge idx total (d :: rest) st = (fst (rmtree_temp s1), inr e) /\
  (e = KeyboardInterrupt \/ e = SystemExit 1).
Proof.
  intros Hnone Hloc.
  destruct (get_page_info_shape site (old_cover_url d) (new_cover_url d)
                                (ready_batch st)) as (k & evs & res & E & _ & Hres).
  rewrite Hloc in E. injection E as -> <-. split.
  - cbn [batch_loop]. rewrite run_bind.
    unfold batch_iteration, try_finally, try_except, init_environment.
    rewrite run_bind. cbn match. fold (ready_batch st). rewrite run_bind.
    rewrite download_edition_run by exact Hnone. rewrite Hloc.
    destruct e as [| |c]; [contradiction | reflexivity | reflexivity].
  - destruct e as [| |c]; [contradiction | auto | subst c; auto].
Qed.

Lemma batch_stops_witness :
  batch_loop site_all_404 merge_pdfs 1 2 [new_year_2024; mkdate 2024 1 2] initial_state
  = (fst (rmtree_temp
            (fst (get_page_info site_all_404 (old_cover_url new_year_2024)
                                (new_cover_url new_year_2024)
                                (ready_batch initial_state)))),
     inr (SystemExit 1)) /\
  (SystemExit 1 = KeyboardInterrupt \/ SystemExit 1 = SystemExit 1).
Proof.
  apply batch_stops_at_lost_date; [apply lookup_empty | vm_compute; reflexivity].
Defined.

(** ** Dates as strings: [validate_date] and [parse_date] *)

Definition year_ok (k : nat) : bool :=
  match PyStr.pad 4 (Z.of_nat k) with
  | String a (String b (String c (String d EmptyString))) =>
      match four_digits (String a (String b (String c (String d EmptyString)))) with
      | Some (v, EmptyString) => v =? Z.of_nat k
      | _ => false
      end
  | _ => false
  end.

Lemma year_digits_all : forallb year_ok (seq (10 * 100) (90 * 100)) = true.
Proof. vm_compute. reflexivity. Qed.

Lemma four_digits_pad y rest :
  1000 <= y <= 9999 -> four_digits (PyStr.pad 4 y +:+ rest) = Some (y, rest).
Proof.
  intros Hy.
  assert (Hin : In (Z.to_nat y) (seq (10 * 100) (90 * 100))) by (apply in_seq; lia).
  pose proof (proj1 (List.forallb_forall _ _) year_digits_all _ Hin) as H.
  unfold year_ok in H. rewrite Z2Nat.id in H by lia.
  destruct (PyStr.pad 4 y) as [|a [|b [|c [|d [|]]]]]; try discriminate.
  change (String a (String b (String c (String d EmptyString))) +:+ rest)
    with (String a (String b (String c (String d rest)))).
  unfold four_digits in *.
  destruct (PyStr.is_digit a && PyStr.is_digit b && PyStr.is_digit c && PyStr.is_digit d);
    [|discriminate].
  apply Z.eqb_eq in H. rewrite H. reflexivity.
Qed.

Lemma regex_match_year fmt y rest :
  1000 <= y <= 9999 ->
  regex_match (DirY :: fmt) (PyStr.pad 4 y +:+ rest)
  = with_group GroupY y (regex_match fmt rest).
Proof.
  intros Hy. cbn [regex_match]. unfold year_alternatives. cbn [first_match].
  rewrite four_digits_pad by exact Hy.
  destruct (with_group GroupY y (regex_match fmt rest)); reflexivity.
Qed.

(** What follows the year in the target format. *)
Definition target_tail (m d : Z) : string :=
  "-" +:+ PyStr.pad 2 m +:+ "/" +:+ PyStr.pad 2 d.

Definition tail_ok (m d : nat) : bool :=
  let t := target_tail (Z.of_nat m) (Z.of_nat d) in
  match regex_match (tl FMT_COMPACT) t, regex_match (tl FMT_ISO) t,
        regex_match (tl FMT_SLASH) t, regex_match (tl FMT_TARGET) t with
  | None, None, None, Some ([(GroupM, m'); (GroupD, d')], EmptyString) =>
      (m' =? Z.of_nat m) && (d' =? Z.of_nat d)
  | _, _, _, _ => false
  end.

Lemma tails_all : forallb (fun m => forallb (tail_ok m) (seq 1 31)) (seq 1 12) = true.
Proof. vm_compute. reflexivity. Qed.

Lemma target_tail_parses m d :
  1 <= m <= 12 -> 1 <= d <= 31 ->
  regex_match (tl FMT_COMPACT) (target_tail m d) = None /\
  regex_match (tl FMT_ISO) (target_tail m d) = None /\
  regex_match (tl FMT_SLASH) (target_tail m d) = None /\
  regex_match (tl FMT_TARGET) (target_tail m d)
  = Some ([(GroupM, m); (GroupD, d)], EmptyString).
Proof.
  intros Hm Hd.
  assert (Hinm : In (Z.to_nat m) (seq 1 12)) by (apply in_seq; lia).
  assert (Hind : In (Z.to_nat d) (seq 1 31)) by (apply in_seq; lia).
  pose proof (proj1 (List.forallb_forall _ _) tails_all _ Hinm) as H.
  cbv beta in H.
  pose proof (proj1 (List.forallb_forall _ _) H _ Hind) as H'.
  unfold tail_ok in H'. rewrite !Z2Nat.id in H' by lia. cbv zeta in H'.
  destruct (regex_match (tl FMT_COMPACT) (target_tail m d)); [discriminate|].
  destruct (regex_match (tl FMT_ISO) (target_tail m d)); [discriminate|].
  destruct (regex_match (tl FMT_SLASH) (target_tail m d)); [discriminate|].
  destruct (regex_match (tl FMT_TARGET) (target_tail m d))
    as [[[|[[] m'] [|[[] d'] [|]]] [|]]|]; try discriminate.
  apply andb_true_iff in H' as [H1 H2]. apply Z.eqb_eq in H1, H2. subst.
  auto.
Qed.

(** The string [strftime("%Y-%m/%d")] makes of a date is read back as this
    date by the target format, and by none of the formats tried before it. *)
Lemma canonical_parses d :
  valid_date d = true -> 1000 <= year d ->
  strptime FMT_COMPACT (strftime_Y_m_slash_d d) = None /\
  strptime FMT_ISO (strftime_Y_m_slash_d d) = None /\
  strptime FMT_SLASH (strftime_Y_m_slash_d d) = None /\
  strptime FMT_TARGET (strftime_Y_m_slash_d d) = Some d.
Proof.
  intros Hv Hy. pose proof Hv as Hv'. apply valid_date_iff in Hv'.
  pose proof (days_in_month_bounds (year d) (month d)) as Hdim.
  destruct (target_tail_parses (month d) (day d)) as (H1 & H2 & H3 & H4); [lia | lia |].
  unfold strptime, strftime_Y_m_slash_d. fold (target_tail (month d) (day d)).
  unfold FMT_COMPACT, FMT_ISO, FMT_SLASH, FMT_TARGET in *. cbn [tl] in *.
  rewrite !regex_match_year by lia. rewrite H1, H2, H3, H4. cbn.
  repeat (split; [reflexivity|]).
  destruct d as [y m dd]. cbn in *. rewrite Hv. reflexivity.
Qed.

Lemma canonical_nonempty d :
  valid_date d = true -> 1000 <= year d ->
  exists c rest, strftime_Y_m_slash_d d = String c rest.
Proof.
  intros Hv Hy. apply valid_date_iff in Hv.
  pose proof (four_digits_pad (year d) EmptyString ltac:(lia)) as H.
  unfold strftime_Y_m_slash_d.
  destruct (PyStr.pad 4 (year d)) as [|c rest]; [discriminate H|].
  eexists _, _. reflexivity.
Qed.

Lemma strptime_is_valid fmt s d : strptime fmt s = Some d -> valid_date d = true.
Proof.
  unfold strptime. destruct (regex_match fmt s) as [[groups [|]]|]; try discriminate.
  destruct (valid_date _) eqn:E; [|discriminate]. intros [= <-]. exact E.
Qed.

Lemma try_formats_cases today s fmts :
  match try_formats today s fmts with
  | DateOk t =>
      exists fmt d,
        In fmt fmts /\ strptime fmt s = Some d /\
        date_le d today /\ 2003 <= year d /\ t = strftime_Y_m_slash_d d
  | DateFatal =>
      forall fmt d, In fmt fmts -> strptime fmt s = Some d ->
                    date_lt today d \/ year d < 2003
  end.
Proof.
  induction fmts as [|fmt more IH]; cbn [try_formats]; [intros fmt d []|].
  assert (Hskip : (strptime fmt s = None \/
                   exists d, strptime fmt s = Some d /\
                             (date_lt today d \/ year d < 2003)) ->
                  match try_formats today s more with
                  | DateOk t =>
                      exists fmt0 d,
                        In fmt0 (fmt :: more) /\ strptime fmt0 s = Some d /\
                        date_le d today /\ 2003 <= year d /\ t = strftime_Y_m_slash_d d
                  | DateFatal =>
                      forall fmt0 d, In fmt0 (fmt :: more) -> strptime fmt0 s = Some d ->
                                     date_lt today d \/ year d < 2003
                  end).
  { intros Hthis. destruct (try_formats today s more) as [t|].
    - destruct IH as (fmt0 & d & Hin & Hrest). exists fmt0, d.
      split; [right; exact Hin | exact Hrest].
    - intros fmt0 d [<-|Hin] Hp; [|eapply IH; eassumption].
      destruct Hthis as [Hn|(d' & Hd' & Hbad)]; [congruence|].
      rewrite Hp in Hd'. injection Hd' as <-. exact Hbad. }
  destruct (strptime fmt s) as [dt|] eqn:Ep; [|apply Hskip; left; reflexivity].
  destruct (date_ltb today dt) eqn:E1.
  { apply Hskip. right. exists dt. split; [reflexivity | left; exact E1]. }
  destruct (year dt <? 2003) eqn:E2.
  { apply Hskip. right. exists dt. split; [reflexivity|]. right.
    apply Z.ltb_lt. exact E2. }
  exists fmt, dt. split; [left; reflexivity|]. split; [exact Ep|].
  split; [apply date_ltb_false_iff; exact E1|]. split; [|reflexivity].
  apply Z.ltb_ge. exact E2.
Qed.

(** X: [parse_date] reads back what [validate_date] and the batch loop hand
    to [download_edition]: on the [%Y-%m/%d] rendering of a valid date of a
    four-digit year [strptime] does not fail, and the three strings returned
    are the input itself and the [%Y%m%d] and [%Y%m/%d] renderings of that
    same date. *)
Theorem parse_date_round_trip (d : date) :
  valid_date d = true -> 1000 <= year d ->
  parse_date (strftime_Y_m_slash_d d)
  = Some (strftime_Y_m_slash_d d, strftime_Ymd d, strftime_Ym_slash_d d).
Proof.
  intros Hv Hy. unfold parse_date.
  destruct (canonical_parses d Hv Hy) as (_ & _ & _ & ->). reflexivity.
Qed.

Lemma parse_date_witness :
  parse_date "2024-01/01" = Some ("2024-01/01", "20240101", "202401/01").
Proof.
  exact (parse_date_round_trip new_year_2024 eq_refl ltac:(simpl; lia)).
Defined.

(** X: [validate_date], for a clock that shows a valid day of 2003 or later.
    When it returns, the string is the [%Y-%m/%d] rendering of a valid date
    between 2003 and today; [parse_date] accepts it and gives the renderings
    of that date; and [validate_date] accepts its own output and returns it
    unchanged.  It exits fatally only on a non-empty string that none of the
    five formats reads as a date between 2003 and today. *)
Theorem validate_date_postcondition (today : date) (input_date : option string) :
  valid_date today = true -> 2003 <= year today ->
  match validate_date today input_date with
  | DateOk s =>
      exists d,
        s = strftime_Y_m_slash_d d /\ valid_date d = true /\
        2003 <= year d /\ date_le d today /\
        parse_date s = Some (s, strftime_Ymd d, strftime_Ym_slash_d d) /\
        validate_date today (Some s) = DateOk s
  | DateFatal =>
      exists s,
        input_date = Some s /\ s <> EmptyString /\
        forall fmt d, In fmt formats -> strptime fmt s = Some d ->
                      date_lt today d \/ year d < 2003
  end.
Proof.
  intros Htoday Hyear.
  assert (Hgood : forall d,
            valid_date d = true -> 2003 <= year d -> date_le d today ->
            exists d',
              strftime_Y_m_slash_d d = strftime_Y_m_slash_d d' /\
              valid_date d' = true /\ 2003 <= year d' /\ date_le d' today /\
              parse_date (strftime_Y_m_slash_d d)
              = Some (strftime_Y_m_slash_d d, strftime_Ymd d', strftime_Ym_slash_d d') /\
              validate_date today (Some (strftime_Y_m_slash_d d))
              = DateOk (strftime_Y_m_slash_d d)).
  { intros d Hv Hy Hle. exists d.
    split; [reflexivity|]. split; [exact Hv|]. split; [exact Hy|]. split; [exact Hle|].
    destruct (canonical_parses d Hv ltac:(lia)) as (H1 & H2 & H3 & H4).
    split; [unfold parse_date; rewrite H4; reflexivity|].
    destruct (canonical_nonempty d Hv ltac:(lia)) as (c & rest & Hs).
    unfold validate_date. rewrite Hs, <- Hs.
    unfold formats. cbn [try_formats]. rewrite H1, H2, H3, H4.
    apply date_ltb_false_iff in Hle. rewrite Hle.
    rewrite (proj2 (Z.ltb_ge _ _)) by lia. reflexivity. }
  assert (Htoday_le : date_le today today) by (apply date_leb_iff; right; reflexivity).
  destruct input_date as [[|c s]|]; cbn [validate_date].
  - apply Hgood; assumption.
  - pose proof (try_formats_cases today (String c s) formats) as H.
    destruct (try_formats today (String c s) formats) as [t|].
    + destruct H as (fmt & d & _ & Hp & Hle & Hy & ->).
      apply Hgood; [eapply strptime_is_valid; exact Hp | exact Hy | exact Hle].
    + exists (String c s). split; [reflexivity|]. split; [discriminate | exact H].
  - apply Hgood; assumption.
Qed.

Lemma validate_date_witness :
  match validate_date (mkdate 2026 11 4) (Some "2024/1/5") with
  | DateOk s =>
      exists d,
        s = strftime_Y_m_slash_d d /\ valid_date d = true /\
        2003 <= year d /\ date_le d (mkdate 2026 11 4) /\
        parse_date s = Some (s, strftime_Ymd d, strftime_Ym_slash_d d) /\
        validate_date (mkdate 2026 11 4) (Some s) = DateOk s
  | DateFatal =>
      exists s,
        Some "2024/1/5" = Some s /\ s <> EmptyString /\
        forall fmt d, In fmt formats -> strptime fmt s = Some d ->
                      date_lt (mkdate 2026 11 4) d \/ year d < 2003
  end.
Proof.
  apply validate_date_postcondition; [reflexivity | simpl; lia].
Defined.

(** ** The compact format on eight digits *)

Definition digit_chars : list ascii :=
  ["0"; "1"; "2"; "3"; "4"; "5"; "6"; "7"; "8"; "9"]%char.

Lemma is_digit_cases c : PyStr.is_digit c = true -> In c digit_chars.
Proof.
  destruct c as [[] [] [] [] [] [] [] []]; intros H; vm_compute in H;
    try discriminate H; unfold digit_chars;
    repeat (first [left; reflexivity | right]).
Qed.

(** Month and day of four digits: either the match takes two digits for
    each, or the two pairs are no month and day at all. *)
Definition month_day_ok (e f g h : ascii) : bool :=
  let m := PyStr.digits_value 0 (String e (String f EmptyString)) in
  let d := PyStr.digits_value 0 (String g (String h EmptyString)) in
  match regex_match [DirM; DirD] (String e (String f (String g (String h EmptyString)))) with
  | Some ([(GroupM, m'); (GroupD, d')], EmptyString) => (m' =? m) && (d' =? d)
  | Some (_, EmptyString) => false
  | _ => negb ((1 <=? m) && (m <=? 12) && (1 <=? d) && (d <=? 31))
  end.

Lemma month_day_all :
  forallb (fun e => forallb (fun f => forallb (fun g => forallb (month_day_ok e f g)
    digit_chars) digit_chars) digit_chars) digit_chars = true.
Proof. vm_compute. reflexivity. Qed.

Lemma month_day_digits e f g h :
  PyStr.is_digit e = true -> PyStr.is_digit f = true ->
  PyStr.is_digit g = true -> PyStr.is_digit h = true ->
  month_day_ok e f g h = true.
Proof.
  intros He Hf Hg Hh.
  pose proof (proj1 (List.forallb_forall _ _) month_day_all _ (is_digit_cases e He)) as H1.
  cbv beta in H1.
  pose proof (proj1 (List.forallb_forall _ _) H1 _ (is_digit_cases f Hf)) as H2.
  cbv beta in H2.
  pose proof (proj1 (List.forallb_forall _ _) H2 _ (is_digit_cases g Hg)) as H3.
  cbv beta in H3.
  exact (proj1 (List.forallb_forall _ _) H3 _ (is_digit_cases h Hh)).
Qed.

Lemma out_of_range_invalid y m d :
  (1 <=? m) && (m <=? 12) && (1 <=? d) && (d <=? 31) = false ->
  valid_date (mkdate y m d) = false.
Proof.
  intros H. destruct (valid_date (mkdate y m d)) eqn:E; [|reflexivity].
  apply valid_date_iff in E. cbn in E.
  pose proof (days_in_month_bounds y m).
  rewrite <- H. symmetry.
  rewrite !andb_true_iff, !Z.leb_le. lia.
Qed.

(** X: on a string of eight digits, which is what [validate_date_range]
    hands to [strptime], the format [%Y%m%d] reads the year, the month and
    the day at fixed positions: the regular expression of the format, with
    its alternatives and its backtracking, gives exactly the date (or the
    [ValueError]) of the positional reading used for the date range. *)
Theorem compact_format_on_eight_digits (s : string) :
  String.length s = 8%nat -> PyStr.all_chars PyStr.is_digit s = true ->
  strptime FMT_COMPACT s = strptime_Ymd s.
Proof.
  intros Hlen Hdig.
  destruct s as [|a [|b [|c [|d [|e [|f [|g [|h [|]]]]]]]]]; try discriminate Hlen.
  unfold strptime_Ymd.
  change (String.length (String a (String b (String c (String d (String e (String f
            (String g (String h EmptyString)))))))) =? 8)%nat with true.
  rewrite Hdig. cbn [andb].
  cbn [PyStr.all_chars] in Hdig.
  apply andb_true_iff in Hdig as [Ha Hdig]. apply andb_true_iff in Hdig as [Hb Hdig].
  apply andb_true_iff in Hdig as [Hc Hdig]. apply andb_true_iff in Hdig as [Hd Hdig].
  apply andb_true_iff in Hdig as [He Hdig]. apply andb_true_iff in Hdig as [Hf Hdig].
  apply andb_true_iff in Hdig as [Hg Hdig]. apply andb_true_iff in Hdig as [Hh _].
  pose proof (month_day_digits e f g h He Hf Hg Hh) as Hmd.
  unfold month_day_ok in Hmd. cbv zeta in Hmd.
  change (PyStr.slice 0 4 (String a (String b (String c (String d (String e (String f
            (String g (String h EmptyString)))))))))
    with (String a (String b (String c (String d EmptyString)))).
  change (PyStr.slice 4 6 (String a (String b (String c (String d (String e (String f
            (String g (String h EmptyString)))))))))
    with (String e (String f EmptyString)).
  change (PyStr.slice 6 8 (String a (String b (String c (String d (String e (String f
            (String g (String h EmptyString)))))))))
    with (String g (String h EmptyString)).
  set (y := PyStr.digits_value 0 (String a (String b (String c (String d EmptyString))))).
  set (m := PyStr.digits_value 0 (String e (String f EmptyString))) in *.
  set (dd := PyStr.digits_value 0 (String g (String h EmptyString))) in *.
  assert (Hyear : regex_match FMT_COMPACT
                    (String a (String b (String c (String d (String e (String f
                       (String g (String h EmptyString))))))))
                  = with_group GroupY y
                      (regex_match [DirM; DirD]
                         (String e (String f (String g (String h EmptyString)))))).
  { unfold FMT_COMPACT. cbn [regex_match]. unfold year_alternatives.
    cbn [first_match]. unfold four_digits. rewrite Ha, Hb, Hc, Hd. cbn [andb].
    fold y.
    destruct (with_group GroupY y _); reflexivity. }
  unfold strptime. rewrite Hyear.
  destruct (regex_match [DirM; DirD]
              (String e (String f (String g (String h EmptyString)))))
    as [[groups rest]|].
  - destruct rest as [|x rest].
    + destruct groups as [|[[] m'] [|[[] d'] [|]]]; try discriminate Hmd.
      apply andb_true_iff in Hmd as [H1 H2]. apply Z.eqb_eq in H1, H2. subst m' d'.
      reflexivity.
    + cbn [with_group].
      assert (Hbad : negb ((1 <=? m) && (m <=? 12) && (1 <=? dd) && (dd <=? 31)) = true)
        by (repeat match type of Hmd with
                   | context [match ?t with _ => _ end] => destruct t
                   end; exact Hmd).
      apply negb_true_iff in Hbad.
      rewrite (out_of_range_invalid y m dd Hbad). reflexivity.
  - cbn [with_group]. apply negb_true_iff in Hmd.
    rewrite (out_of_range_invalid y m dd Hmd). reflexivity.
Qed.

Lemma compact_format_witness : strptime FMT_COMPACT "20240229" = strptime_Ymd "20240229".
Proof.
  exact (compact_format_on_eight_digits "20240229" eq_refl eq_refl).
Defined.
